(** * yt-m3u-generator: a shallow embedding of [generate_m3u_youtube.py]

    The Python script resolves YouTube references through the external
    [yt-dlp] tool and writes an M3U playlist.  This development embeds the
    script's functions in Gallina and proves the properties its
    specification states about them.

    Modelling conventions.
    - A Python [str] is a Rocq [string] that holds its UTF-8 encoding.
      [strip] and [splitlines] know the white space and the line boundaries
      of Unicode by their encodings; [lower], [\d] and [int] read code
      points and take case and digit values from the Unicode character
      database (version 14.0.0, the one of CPython 3.11); [startswith],
      [in], [split] and [replace] compare bytes, which for UTF-8 is what
      they do on characters.
    - A Python [int] is a [Z]; [Optional[T]] is [option T]; truthiness
      ([if x], [x or y], [not x]) is written out.  [int(x / y)] on integers
      goes through a float: the quotient is rounded to the nearest double
      before it is cut to an integer.
    - [subprocess.run] and [json.loads] are not code of the script: they are
      parameters of the section that embeds the resolver client.
    - Side effects (calls to the external tool, [time.sleep]) are threaded
      through a small state-and-exception monad that also keeps a
      chronological trace of them. *)

From Stdlib Require Import String Ascii List ZArith NArith QArith Lia Bool DecimalString.
From stdpp Require Import gmap strings list.

Open Scope string_scope.
Open Scope Z_scope.
Open Scope list_scope.

Set Warnings "-register-all".

(** ** UTF-8

    A [str] is kept as its UTF-8 encoding.  [chars] reads a string
    character by character; a byte that begins no well-formed sequence
    stands for itself, outside the code space, so that every string of
    bytes reads and nothing is lost. *)

Module Utf8.

Definition byte (c : ascii) : N := N_of_ascii c.

Definition is_ascii (c : ascii) : bool := (byte c <? 128)%N.

(** A continuation byte, [10xxxxxx], and the six bits it carries. *)
Definition is_cont (c : ascii) : bool := ((128 <=? byte c) && (byte c <? 192))%N.

Definition low6 (c : ascii) : N := (byte c mod 64)%N.

Fixpoint of_bytes (l : list N) : string :=
  match l with
  | [] => EmptyString
  | n :: l' => String (ascii_of_N n) (of_bytes l')
  end.

(** The encoding of a code point; the stand-in of a stray byte is that
    byte. *)
Definition encode_cp (c : N) : string :=
  (if c <? 128 then of_bytes [c]
   else if c <? 2048 then of_bytes [192 + c / 64; 128 + c mod 64]
   else if c <? 65536 then
     of_bytes [224 + c / 4096; 128 + (c / 64) mod 64; 128 + c mod 64]
   else if c <? 1114112 then
     of_bytes [240 + c / 262144; 128 + (c / 4096) mod 64; 128 + (c / 64) mod 64;
               128 + c mod 64]
   else of_bytes [c - 1114112])%N.

Definition stray (c : ascii) : N * string :=
  ((1114112 + byte c)%N, String c EmptyString).

(** The characters of a string, each with its code point and its bytes.
    Overlong forms, surrogates and code points above U+10FFFF are not
    well-formed. *)
Fixpoint chars (s : string) : list (N * string) :=
  match s with
  | EmptyString => []
  | String b0 s1 =>
      let n0 := byte b0 in
      if (n0 <? 128)%N then (n0, String b0 EmptyString) :: chars s1
      else
        match s1 with
        | String b1 s2 =>
            if ((194 <=? n0) && (n0 <? 224))%N && is_cont b1 then
              ((n0 mod 32 * 64 + low6 b1)%N, String b0 (String b1 EmptyString))
              :: chars s2
            else
              match s2 with
              | String b2 s3 =>
                  let c3 := (((n0 mod 16) * 64 + low6 b1) * 64 + low6 b2)%N in
                  if ((224 <=? n0) && (n0 <? 240))%N && is_cont b1 && is_cont b2
                     && (2048 <=? c3)%N && negb ((55296 <=? c3) && (c3 <? 57344))%N
                  then
                    (c3, String b0 (String b1 (String b2 EmptyString))) :: chars s3
                  else
                    match s3 with
                    | String b3 s4 =>
                        let c4 :=
                          ((((n0 mod 8) * 64 + low6 b1) * 64 + low6 b2) * 64
                           + low6 b3)%N in
                        if ((240 <=? n0) && (n0 <? 245))%N
                           && is_cont b1 && is_cont b2 && is_cont b3
                           && ((65536 <=? c4) && (c4 <? 1114112))%N
                        then
                          (c4, String b0 (String b1 (String b2 (String b3 EmptyString))))
                          :: chars s4
                        else stray b0 :: chars s1
                    | EmptyString => stray b0 :: chars s1
                    end
              | EmptyString => stray b0 :: chars s1
              end
        | EmptyString => [stray b0]
        end
  end.

End Utf8.

(** ** The Unicode character database

    What CPython takes from it for [str.isspace], [str.lower], [\d] and
    [int]: the tables of Unicode 14.0.0, as built into CPython 3.11. *)

Module Unicode.

Definition in_ranges (c : N) (ranges : list (N * N)) : bool :=
  existsb (fun r => ((fst r <=? c) && (c <=? snd r))%N) ranges.

(** [str.isspace]: the characters [str.strip] removes. *)
Definition space : list N :=
  [ 9; 10; 11; 12; 13; 28; 29; 30; 31; 32;
    133; 160; 5760; 8192; 8193; 8194; 8195; 8196; 8197; 8198;
    8199; 8200; 8201; 8202; 8232; 8233; 8239; 8287; 12288 ]%N.

(** The zeros of the decimal digits (category Nd); each is followed by the
    digits one to nine of its script. *)
Definition decimal_zeros : list N :=
  [ 48; 1632; 1776; 1984; 2406; 2534; 2662; 2790;
    2918; 3046; 3174; 3302; 3430; 3558; 3664; 3792;
    3872; 4160; 4240; 6112; 6160; 6470; 6608; 6784;
    6800; 6992; 7088; 7232; 7248; 42528; 43216; 43264;
    43472; 43504; 43600; 44016; 65296; 66720; 68912; 69734;
    69872; 69942; 70096; 70384; 70736; 70864; 71248; 71360;
    71472; 71904; 72016; 72784; 73040; 73120; 92768; 92864;
    93008; 120782; 120792; 120802; 120812; 120822; 123200; 123632;
    125264; 130032 ]%N.

(** The digit value of a decimal digit. *)
Definition decimal (c : N) : option N :=
  match List.filter (fun z => ((z <=? c) && (c <? z + 10))%N) decimal_zeros with
  | z :: _ => Some (c - z)%N
  | [] => None
  end.

(** Simple lowercase mappings, in runs [(first, last, step, image of
    first)]: every [step]-th code point from [first] to [last] is mapped
    at the same distance as [first]. *)
Definition lower_runs : list (N * N * N * N) :=
  [ (65, 90, 1, 97); (192, 214, 1, 224); (216, 222, 1, 248);
    (256, 302, 2, 257); (306, 310, 2, 307); (313, 327, 2, 314);
    (330, 374, 2, 331); (376, 376, 1, 255); (377, 381, 2, 378);
    (385, 385, 1, 595); (386, 388, 2, 387); (390, 390, 1, 596);
    (391, 391, 1, 392); (393, 394, 1, 598); (395, 395, 1, 396);
    (398, 398, 1, 477); (399, 399, 1, 601); (400, 400, 1, 603);
    (401, 401, 1, 402); (403, 403, 1, 608); (404, 404, 1, 611);
    (406, 406, 1, 617); (407, 407, 1, 616); (408, 408, 1, 409);
    (412, 412, 1, 623); (413, 413, 1, 626); (415, 415, 1, 629);
    (416, 420, 2, 417); (422, 422, 1, 640); (423, 423, 1, 424);
    (425, 425, 1, 643); (428, 428, 1, 429); (430, 430, 1, 648);
    (431, 431, 1, 432); (433, 434, 1, 650); (435, 437, 2, 436);
    (439, 439, 1, 658); (440, 440, 1, 441); (444, 444, 1, 445);
    (452, 452, 1, 454); (453, 453, 1, 454); (455, 455, 1, 457);
    (456, 456, 1, 457); (458, 458, 1, 460); (459, 475, 2, 460);
    (478, 494, 2, 479); (497, 497, 1, 499); (498, 500, 2, 499);
    (502, 502, 1, 405); (503, 503, 1, 447); (504, 542, 2, 505);
    (544, 544, 1, 414); (546, 562, 2, 547); (570, 570, 1, 11365);
    (571, 571, 1, 572); (573, 573, 1, 410); (574, 574, 1, 11366);
    (577, 577, 1, 578); (579, 579, 1, 384); (580, 580, 1, 649);
    (581, 581, 1, 652); (582, 590, 2, 583); (880, 882, 2, 881);
    (886, 886, 1, 887); (895, 895, 1, 1011); (902, 902, 1, 940);
    (904, 906, 1, 941); (908, 908, 1, 972); (910, 911, 1, 973);
    (913, 929, 1, 945); (932, 939, 1, 964); (975, 975, 1, 983);
    (984, 1006, 2, 985); (1012, 1012, 1, 952); (1015, 1015, 1, 1016);
    (1017, 1017, 1, 1010); (1018, 1018, 1, 1019); (1021, 1023, 1, 891);
    (1024, 1039, 1, 1104); (1040, 1071, 1, 1072); (1120, 1152, 2, 1121);
    (1162, 1214, 2, 1163); (1216, 1216, 1, 1231); (1217, 1229, 2, 1218);
    (1232, 1326, 2, 1233); (1329, 1366, 1, 1377); (4256, 4293, 1, 11520);
    (4295, 4295, 1, 11559); (4301, 4301, 1, 11565); (5024, 5103, 1, 43888);
    (5104, 5109, 1, 5112); (7312, 7354, 1, 4304); (7357, 7359, 1, 4349);
    (7680, 7828, 2, 7681); (7838, 7838, 1, 223); (7840, 7934, 2, 7841);
    (7944, 7951, 1, 7936); (7960, 7965, 1, 7952); (7976, 7983, 1, 7968);
    (7992, 7999, 1, 7984); (8008, 8013, 1, 8000); (8025, 8031, 2, 8017);
    (8040, 8047, 1, 8032); (8072, 8079, 1, 8064); (8088, 8095, 1, 8080);
    (8104, 8111, 1, 8096); (8120, 8121, 1, 8112); (8122, 8123, 1, 8048);
    (8124, 8124, 1, 8115); (8136, 8139, 1, 8050); (8140, 8140, 1, 8131);
    (8152, 8153, 1, 8144); (8154, 8155, 1, 8054); (8168, 8169, 1, 8160);
    (8170, 8171, 1, 8058); (8172, 8172, 1, 8165); (8184, 8185, 1, 8056);
    (8186, 8187, 1, 8060); (8188, 8188, 1, 8179); (8486, 8486, 1, 969);
    (8490, 8490, 1, 107); (8491, 8491, 1, 229); (8498, 8498, 1, 8526);
    (8544, 8559, 1, 8560); (8579, 8579, 1, 8580); (9398, 9423, 1, 9424);
    (11264, 11311, 1, 11312); (11360, 11360, 1, 11361); (11362, 11362, 1, 619);
    (11363, 11363, 1, 7549); (11364, 11364, 1, 637); (11367, 11371, 2, 11368);
    (11373, 11373, 1, 593); (11374, 11374, 1, 625); (11375, 11375, 1, 592);
    (11376, 11376, 1, 594); (11378, 11378, 1, 11379); (11381, 11381, 1, 11382);
    (11390, 11391, 1, 575); (11392, 11490, 2, 11393); (11499, 11501, 2, 11500);
    (11506, 11506, 1, 11507); (42560, 42604, 2, 42561); (42624, 42650, 2, 42625);
    (42786, 42798, 2, 42787); (42802, 42862, 2, 42803); (42873, 42875, 2, 42874);
    (42877, 42877, 1, 7545); (42878, 42886, 2, 42879); (42891, 42891, 1, 42892);
    (42893, 42893, 1, 613); (42896, 42898, 2, 42897); (42902, 42920, 2, 42903);
    (42922, 42922, 1, 614); (42923, 42923, 1, 604); (42924, 42924, 1, 609);
    (42925, 42925, 1, 620); (42926, 42926, 1, 618); (42928, 42928, 1, 670);
    (42929, 42929, 1, 647); (42930, 42930, 1, 669); (42931, 42931, 1, 43859);
    (42932, 42946, 2, 42933); (42948, 42948, 1, 42900); (42949, 42949, 1, 642);
    (42950, 42950, 1, 7566); (42951, 42953, 2, 42952); (42960, 42960, 1, 42961);
    (42966, 42968, 2, 42967); (42997, 42997, 1, 42998); (65313, 65338, 1, 65345);
    (66560, 66599, 1, 66600); (66736, 66771, 1, 66776); (66928, 66938, 1, 66967);
    (66940, 66954, 1, 66979); (66956, 66962, 1, 66995); (66964, 66965, 1, 67003);
    (68736, 68786, 1, 68800); (71840, 71871, 1, 71872); (93760, 93791, 1, 93792);
    (125184, 125217, 1, 125218) ]%N.

Definition to_lower (c : N) : option N :=
  match
    List.filter (fun r =>
                   let '(first, last, step, _) := r in
                   ((first <=? c) && (c <=? last) && ((c - first) mod step =? 0))%N)
                lower_runs
  with
  | (first, _, _, image) :: _ => Some (image + (c - first))%N
  | [] => None
  end.

(** Case_Ignorable, and Cased without the case-ignorable characters: the
    context of the final sigma. *)
Definition case_ignorable : list (N * N) :=
  [ (39, 39); (46, 46); (58, 58); (94, 94); (96, 96);
    (168, 168); (173, 173); (175, 175); (180, 180); (183, 184);
    (688, 879); (884, 885); (890, 890); (900, 901); (903, 903);
    (1155, 1161); (1369, 1369); (1375, 1375); (1425, 1469); (1471, 1471);
    (1473, 1474); (1476, 1477); (1479, 1479); (1524, 1524); (1536, 1541);
    (1552, 1562); (1564, 1564); (1600, 1600); (1611, 1631); (1648, 1648);
    (1750, 1757); (1759, 1768); (1770, 1773); (1807, 1807); (1809, 1809);
    (1840, 1866); (1958, 1968); (2027, 2037); (2042, 2042); (2045, 2045);
    (2070, 2093); (2137, 2139); (2184, 2184); (2192, 2193); (2200, 2207);
    (2249, 2306); (2362, 2362); (2364, 2364); (2369, 2376); (2381, 2381);
    (2385, 2391); (2402, 2403); (2417, 2417); (2433, 2433); (2492, 2492);
    (2497, 2500); (2509, 2509); (2530, 2531); (2558, 2558); (2561, 2562);
    (2620, 2620); (2625, 2626); (2631, 2632); (2635, 2637); (2641, 2641);
    (2672, 2673); (2677, 2677); (2689, 2690); (2748, 2748); (2753, 2757);
    (2759, 2760); (2765, 2765); (2786, 2787); (2810, 2815); (2817, 2817);
    (2876, 2876); (2879, 2879); (2881, 2884); (2893, 2893); (2901, 2902);
    (2914, 2915); (2946, 2946); (3008, 3008); (3021, 3021); (3072, 3072);
    (3076, 3076); (3132, 3132); (3134, 3136); (3142, 3144); (3146, 3149);
    (3157, 3158); (3170, 3171); (3201, 3201); (3260, 3260); (3263, 3263);
    (3270, 3270); (3276, 3277); (3298, 3299); (3328, 3329); (3387, 3388);
    (3393, 3396); (3405, 3405); (3426, 3427); (3457, 3457); (3530, 3530);
    (3538, 3540); (3542, 3542); (3633, 3633); (3636, 3642); (3654, 3662);
    (3761, 3761); (3764, 3772); (3782, 3782); (3784, 3789); (3864, 3865);
    (3893, 3893); (3895, 3895); (3897, 3897); (3953, 3966); (3968, 3972);
    (3974, 3975); (3981, 3991); (3993, 4028); (4038, 4038); (4141, 4144);
    (4146, 4151); (4153, 4154); (4157, 4158); (4184, 4185); (4190, 4192);
    (4209, 4212); (4226, 4226); (4229, 4230); (4237, 4237); (4253, 4253);
    (4348, 4348); (4957, 4959); (5906, 5908); (5938, 5939); (5970, 5971);
    (6002, 6003); (6068, 6069); (6071, 6077); (6086, 6086); (6089, 6099);
    (6103, 6103); (6109, 6109); (6155, 6159); (6211, 6211); (6277, 6278);
    (6313, 6313); (6432, 6434); (6439, 6440); (6450, 6450); (6457, 6459);
    (6679, 6680); (6683, 6683); (6742, 6742); (6744, 6750); (6752, 6752);
    (6754, 6754); (6757, 6764); (6771, 6780); (6783, 6783); (6823, 6823);
    (6832, 6862); (6912, 6915); (6964, 6964); (6966, 6970); (6972, 6972);
    (6978, 6978); (7019, 7027); (7040, 7041); (7074, 7077); (7080, 7081);
    (7083, 7085); (7142, 7142); (7144, 7145); (7149, 7149); (7151, 7153);
    (7212, 7219); (7222, 7223); (7288, 7293); (7376, 7378); (7380, 7392);
    (7394, 7400); (7405, 7405); (7412, 7412); (7416, 7417); (7468, 7530);
    (7544, 7544); (7579, 7679); (8125, 8125); (8127, 8129); (8141, 8143);
    (8157, 8159); (8173, 8175); (8189, 8190); (8203, 8207); (8216, 8217);
    (8228, 8228); (8231, 8231); (8234, 8238); (8288, 8292); (8294, 8303);
    (8305, 8305); (8319, 8319); (8336, 8348); (8400, 8432); (11388, 11389);
    (11503, 11505); (11631, 11631); (11647, 11647); (11744, 11775); (11823, 11823);
    (12293, 12293); (12330, 12333); (12337, 12341); (12347, 12347); (12441, 12446);
    (12540, 12542); (40981, 40981); (42232, 42237); (42508, 42508); (42607, 42610);
    (42612, 42621); (42623, 42623); (42652, 42655); (42736, 42737); (42752, 42785);
    (42864, 42864); (42888, 42890); (42994, 42996); (43000, 43001); (43010, 43010);
    (43014, 43014); (43019, 43019); (43045, 43046); (43052, 43052); (43204, 43205);
    (43232, 43249); (43263, 43263); (43302, 43309); (43335, 43345); (43392, 43394);
    (43443, 43443); (43446, 43449); (43452, 43453); (43471, 43471); (43493, 43494);
    (43561, 43566); (43569, 43570); (43573, 43574); (43587, 43587); (43596, 43596);
    (43632, 43632); (43644, 43644); (43696, 43696); (43698, 43700); (43703, 43704);
    (43710, 43711); (43713, 43713); (43741, 43741); (43756, 43757); (43763, 43764);
    (43766, 43766); (43867, 43871); (43881, 43883); (44005, 44005); (44008, 44008);
    (44013, 44013); (64286, 64286); (64434, 64450); (65024, 65039); (65043, 65043);
    (65056, 65071); (65106, 65106); (65109, 65109); (65279, 65279); (65287, 65287);
    (65294, 65294); (65306, 65306); (65342, 65342); (65344, 65344); (65392, 65392);
    (65438, 65439); (65507, 65507); (65529, 65531); (66045, 66045); (66272, 66272);
    (66422, 66426); (67456, 67461); (67463, 67504); (67506, 67514); (68097, 68099);
    (68101, 68102); (68108, 68111); (68152, 68154); (68159, 68159); (68325, 68326);
    (68900, 68903); (69291, 69292); (69446, 69456); (69506, 69509); (69633, 69633);
    (69688, 69702); (69744, 69744); (69747, 69748); (69759, 69761); (69811, 69814);
    (69817, 69818); (69821, 69821); (69826, 69826); (69837, 69837); (69888, 69890);
    (69927, 69931); (69933, 69940); (70003, 70003); (70016, 70017); (70070, 70078);
    (70089, 70092); (70095, 70095); (70191, 70193); (70196, 70196); (70198, 70199);
    (70206, 70206); (70367, 70367); (70371, 70378); (70400, 70401); (70459, 70460);
    (70464, 70464); (70502, 70508); (70512, 70516); (70712, 70719); (70722, 70724);
    (70726, 70726); (70750, 70750); (70835, 70840); (70842, 70842); (70847, 70848);
    (70850, 70851); (71090, 71093); (71100, 71101); (71103, 71104); (71132, 71133);
    (71219, 71226); (71229, 71229); (71231, 71232); (71339, 71339); (71341, 71341);
    (71344, 71349); (71351, 71351); (71453, 71455); (71458, 71461); (71463, 71467);
    (71727, 71735); (71737, 71738); (71995, 71996); (71998, 71998); (72003, 72003);
    (72148, 72151); (72154, 72155); (72160, 72160); (72193, 72202); (72243, 72248);
    (72251, 72254); (72263, 72263); (72273, 72278); (72281, 72283); (72330, 72342);
    (72344, 72345); (72752, 72758); (72760, 72765); (72767, 72767); (72850, 72871);
    (72874, 72880); (72882, 72883); (72885, 72886); (73009, 73014); (73018, 73018);
    (73020, 73021); (73023, 73029); (73031, 73031); (73104, 73105); (73109, 73109);
    (73111, 73111); (73459, 73460); (78896, 78904); (92912, 92916); (92976, 92982);
    (92992, 92995); (94031, 94031); (94095, 94111); (94176, 94177); (94179, 94180);
    (110576, 110579); (110581, 110587); (110589, 110590); (113821, 113822); (113824, 113827);
    (118528, 118573); (118576, 118598); (119143, 119145); (119155, 119170); (119173, 119179);
    (119210, 119213); (119362, 119364); (121344, 121398); (121403, 121452); (121461, 121461);
    (121476, 121476); (121499, 121503); (121505, 121519); (122880, 122886); (122888, 122904);
    (122907, 122913); (122915, 122916); (122918, 122922); (123184, 123197); (123566, 123566);
    (123628, 123631); (125136, 125142); (125252, 125259); (127995, 127999); (917505, 917505);
    (917536, 917631); (917760, 917999) ]%N.

Definition cased : list (N * N) :=
  [ (65, 90); (97, 122); (170, 170); (181, 181); (186, 186);
    (192, 214); (216, 246); (248, 442); (444, 447); (452, 659);
    (661, 687); (880, 883); (886, 887); (891, 893); (895, 895);
    (902, 902); (904, 906); (908, 908); (910, 929); (931, 1013);
    (1015, 1153); (1162, 1327); (1329, 1366); (1376, 1416); (4256, 4293);
    (4295, 4295); (4301, 4301); (4304, 4346); (4349, 4351); (5024, 5109);
    (5112, 5117); (7296, 7304); (7312, 7354); (7357, 7359); (7424, 7467);
    (7531, 7543); (7545, 7578); (7680, 7957); (7960, 7965); (7968, 8005);
    (8008, 8013); (8016, 8023); (8025, 8025); (8027, 8027); (8029, 8029);
    (8031, 8061); (8064, 8116); (8118, 8124); (8126, 8126); (8130, 8132);
    (8134, 8140); (8144, 8147); (8150, 8155); (8160, 8172); (8178, 8180);
    (8182, 8188); (8450, 8450); (8455, 8455); (8458, 8467); (8469, 8469);
    (8473, 8477); (8484, 8484); (8486, 8486); (8488, 8488); (8490, 8493);
    (8495, 8500); (8505, 8505); (8508, 8511); (8517, 8521); (8526, 8526);
    (8544, 8575); (8579, 8580); (9398, 9449); (11264, 11387); (11390, 11492);
    (11499, 11502); (11506, 11507); (11520, 11557); (11559, 11559); (11565, 11565);
    (42560, 42605); (42624, 42651); (42786, 42863); (42865, 42887); (42891, 42894);
    (42896, 42954); (42960, 42961); (42963, 42963); (42965, 42969); (42997, 42998);
    (43002, 43002); (43824, 43866); (43872, 43880); (43888, 43967); (64256, 64262);
    (64275, 64279); (65313, 65338); (65345, 65370); (66560, 66639); (66736, 66771);
    (66776, 66811); (66928, 66938); (66940, 66954); (66956, 66962); (66964, 66965);
    (66967, 66977); (66979, 66993); (66995, 67001); (67003, 67004); (68736, 68786);
    (68800, 68850); (71840, 71903); (93760, 93823); (119808, 119892); (119894, 119964);
    (119966, 119967); (119970, 119970); (119973, 119974); (119977, 119980); (119982, 119993);
    (119995, 119995); (119997, 120003); (120005, 120069); (120071, 120074); (120077, 120084);
    (120086, 120092); (120094, 120121); (120123, 120126); (120128, 120132); (120134, 120134);
    (120138, 120144); (120146, 120485); (120488, 120512); (120514, 120538); (120540, 120570);
    (120572, 120596); (120598, 120628); (120630, 120654); (120656, 120686); (120688, 120712);
    (120714, 120744); (120746, 120770); (120772, 120779); (122624, 122633); (122635, 122654);
    (125184, 125251); (127280, 127305); (127312, 127337); (127344, 127369) ]%N.

End Unicode.

(** ** Python string methods *)

Module PyStr.

Definition is_empty (s : string) : bool :=
  match s with EmptyString => true | String _ _ => false end.

(** The rest of [s] behind [p], when [s] begins with [p]. *)
Fixpoint drop_prefix (p s : string) : option string :=
  match p with
  | EmptyString => Some s
  | String a p' =>
      match s with
      | EmptyString => None
      | String b s' => if Ascii.eqb a b then drop_prefix p' s' else None
      end
  end.

(** The rest of [s] behind the first of [tokens] it begins with. *)
Fixpoint behind (tokens : list string) (s : string) : option string :=
  match tokens with
  | [] => None
  | t :: tokens' =>
      match drop_prefix t s with
      | Some r => Some r
      | None => behind tokens' s
      end
  end.

Arguments behind : simpl never.

(** No token occurs in [s]. *)
Fixpoint free_of (tokens : list string) (s : string) : bool :=
  match s with
  | EmptyString => true
  | String _ s' =>
      match behind tokens s with
      | Some _ => false
      | None => free_of tokens s'
      end
  end.

(** Two properties of a list of tokens that the proofs about trimming and
    cutting lean on.  No token begins another; and a token is not cut
    before an ASCII byte, unless what is cut off begins with a token itself
    (as CR does in CR LF). *)
Definition begins_no_other (tokens : list string) (t : string) : bool :=
  forallb (fun t' =>
             match drop_prefix t t' with
             | Some u => is_empty u
             | None => true
             end) tokens.

Fixpoint cut_ok (tokens : list string) (x rest : string) : bool :=
  match rest with
  | EmptyString => true
  | String c rest' =>
      (is_empty x || negb (Utf8.is_ascii c)
       || match behind tokens x with Some _ => true | None => false end)
      && cut_ok tokens (x +:+ String c EmptyString) rest'
  end.

Fixpoint no_ascii (s : string) : bool :=
  match s with
  | EmptyString => true
  | String c s' => negb (Utf8.is_ascii c) && no_ascii s'
  end.

(** The white space of [str.strip], encoded. *)
Definition whitespace : list string := map Utf8.encode_cp Unicode.space.

(** [s.lstrip()]; a string has at most as many characters as bytes. *)
Fixpoint lstrip_within (fuel : nat) (s : string) : string :=
  match fuel with
  | O => s
  | S fuel' =>
      match behind whitespace s with
      | Some r => lstrip_within fuel' r
      | None => s
      end
  end.

Definition lstrip (s : string) : string := lstrip_within (String.length s) s.

Arguments lstrip : simpl never.

(** [s.rstrip()]: [s] is cut where its white space to the end begins. *)
Fixpoint rstrip (s : string) : string :=
  match s with
  | EmptyString => EmptyString
  | String c s' => if is_empty (lstrip s) then EmptyString else String c (rstrip s')
  end.

Arguments rstrip : simpl never.

(** [s.strip()] *)
Definition strip (s : string) : string := rstrip (lstrip s).

(** The letters A to Z brought to lower case: what [str.lower] does to
    ASCII text. *)
Definition lower_char (c : ascii) : ascii :=
  let n := nat_of_ascii c in
  if (65 <=? n)%nat && (n <=? 90)%nat then ascii_of_nat (n + 32) else c.

Fixpoint lower_ascii (s : string) : string :=
  match s with
  | EmptyString => EmptyString
  | String c s' => String (lower_char c) (lower_ascii s')
  end.

(** The capital sigma is in final position when a cased letter comes
    before it and none behind it, case-ignorable characters set aside.
    [before] holds the characters before it, nearest first. *)
Fixpoint skip_ignorable (cs : list N) : list N :=
  match cs with
  | c :: cs' => if Unicode.in_ranges c Unicode.case_ignorable then skip_ignorable cs' else cs
  | [] => []
  end.

Definition next_is_cased (cs : list N) : bool :=
  match skip_ignorable cs with
  | c :: _ => Unicode.in_ranges c Unicode.cased
  | [] => false
  end.

Definition final_sigma (before after : list N) : bool :=
  next_is_cased before && negb (next_is_cased after).

Fixpoint lower_from (before : list N) (cs : list (N * string)) : string :=
  match cs with
  | [] => EmptyString
  | (c, bytes) :: rest =>
      (if (c =? 931)%N then
         Utf8.encode_cp (if final_sigma before (map fst rest) then 962 else 963)%N
       else if (c =? 304)%N then Utf8.encode_cp 105 +:+ Utf8.encode_cp 775
       else
         match Unicode.to_lower c with
         | Some l => Utf8.encode_cp l
         | None => bytes
         end)
      +:+ lower_from (c :: before) rest
  end.

(** [s.lower()] *)
Definition lower (s : string) : string := lower_from [] (Utf8.chars s).

Arguments lower : simpl never.

(** [s.startswith(p)] *)
Definition startswith (s p : string) : bool := String.prefix p s.

(** [p in s] for two strings *)
Fixpoint contains (p s : string) : bool :=
  String.prefix p s ||
  match s with
  | EmptyString => false
  | String _ s' => contains p s'
  end.

(** The line boundaries of [str.splitlines]: CR LF (ahead of CR), LF, VT,
    FF, CR, FS, GS, RS, NEL, LS and PS. *)
Definition linebreaks : list string :=
  Utf8.of_bytes [13; 10]%N
  :: map Utf8.encode_cp [10; 11; 12; 13; 28; 29; 30; 133; 8232; 8233]%N.

Definition cons_char (c : ascii) (ls : list string) : list string :=
  match ls with
  | [] => [String c EmptyString]
  | l :: ls' => String c l :: ls'
  end.

(** [s.splitlines()] *)
Fixpoint splitlines_within (fuel : nat) (s : string) : list string :=
  match fuel with
  | O => []
  | S fuel' =>
      match s with
      | EmptyString => []
      | String c s' =>
          match behind linebreaks s with
          | Some r => EmptyString :: splitlines_within fuel' r
          | None => cons_char c (splitlines_within fuel' s')
          end
      end
  end.

Definition splitlines (s : string) : list string :=
  splitlines_within (String.length s) s.

Arguments splitlines : simpl never.

(** [s.split(sep)] for a one-character separator *)
Fixpoint split (sep : ascii) (s : string) : list string :=
  match s with
  | EmptyString => [EmptyString]
  | String c s' =>
      if Ascii.eqb c sep then EmptyString :: split sep s'
      else cons_char c (split sep s')
  end.

(** [s.replace(c, r)] for a one-character pattern *)
Fixpoint replace (c : ascii) (r : string) (s : string) : string :=
  match s with
  | EmptyString => EmptyString
  | String x s' =>
      if Ascii.eqb x c then r +:+ replace c r s' else String x (replace c r s')
  end.

(** [sep.join(parts)] *)
Fixpoint join (sep : string) (parts : list string) : string :=
  match parts with
  | [] => EmptyString
  | [p] => p
  | p :: ps => p +:+ sep +:+ join sep ps
  end.

(** A decimal digit, as [\d] matches it and [int] reads it. *)
Definition is_digit (c : N) : bool :=
  match Unicode.decimal c with Some _ => true | None => false end.

Definition digit_value (c : N) : Z :=
  match Unicode.decimal c with Some d => Z.of_N d | None => 0 end.

(** The longest prefix of decimal digits, as a greedy [\d+] consumes it. *)
Fixpoint take_decimal (cs : list (N * string)) : string :=
  match cs with
  | (c, bytes) :: rest => if is_digit c then bytes +:+ take_decimal rest else EmptyString
  | [] => EmptyString
  end.

Definition take_digits (s : string) : string := take_decimal (Utf8.chars s).

(** [int(s)] on a string of decimal digits *)
Definition int_of_digits (s : string) : Z :=
  fold_left (fun acc c => 10 * acc + digit_value (fst c)) (Utf8.chars s) 0.

(** [len(s)] *)
Definition len (s : string) : nat := length (Utf8.chars s).

(** [str(n)] / [f"{n}"] for an integer *)
Definition str_of_int (n : Z) : string := NilZero.string_of_int (Z.to_int n).

(** Truthiness of a string, and of an optional string *)
Definition truthy (s : string) : bool := negb (is_empty s).

Definition otruthy (o : option string) : bool :=
  match o with Some s => truthy s | None => false end.

(** [a or b] where [a : Optional[str]] and [b : Optional[str]] *)
Definition or_else (a b : option string) : option string :=
  if otruthy a then a else b.

(** [a or b] where [b : str] *)
Definition or_str (a : option string) (b : string) : string :=
  match a with
  | Some s => if truthy s then s else b
  | None => b
  end.

End PyStr.

(** ** Helpers of the script *)

(** [safe_attr] *)
Definition safe_attr (s : option string) : string :=
  PyStr.replace (ascii_of_nat 34) "%22" (PyStr.or_str s "").

(** [normalize_input_line] *)
Definition normalize_input_line (line : string) : string :=
  let line := PyStr.strip line in
  if negb (PyStr.truthy line) then ""
  else if negb (PyStr.startswith line "http://" || PyStr.startswith line "https://")
       then "https://www.youtube.com/watch?v=" +:+ line
       else line.

(** [first_http_line] *)
Fixpoint first_http_line_loop (lines : list string) : option string :=
  match lines with
  | [] => None
  | ln :: rest =>
      let l := PyStr.strip ln in
      if PyStr.startswith l "http://" || PyStr.startswith l "https://"
      then Some l
      else first_http_line_loop rest
  end.

Definition first_http_line (text : string) : option string :=
  if negb (PyStr.truthy text) then None
  else first_http_line_loop (PyStr.splitlines text).

(** [is_manifest_url] *)
Definition is_manifest_url (url : string) : bool :=
  if negb (PyStr.truthy url) then false
  else
    let u := PyStr.lower url in
    PyStr.contains ".m3u8" u || PyStr.contains "manifest" u
    || PyStr.contains "hls_playlist" u.

(** A [timedelta] is its length in microseconds.  [delta.total_seconds()]
    is the true division of that length by [10**6]: the quotient of two
    integers, rounded to the nearest double, ties to even.  (A [timedelta]
    stays within a thousand million days, so the double neither overflows
    nor is subnormal.) *)
Definition timedelta := Z.

(** The integer nearest to [n / d], ties to even, for [0 <= n], [0 < d]. *)
Definition round_half_even (n d : Z) : Z :=
  let q := n / d in
  let r := n mod d in
  if 2 * r <? d then q
  else if d <? 2 * r then q + 1
  else if Z.even q then q else q + 1.

(** [int(a / b)] for integers [a] and [0 < b]: the quotient lies in
    [[2^e, 2^(e+1))], its double has 53 significant bits, and [int] cuts
    the double towards zero. *)
Definition true_divide_int (a b : Z) : Z :=
  let n := Z.abs a in
  if n =? 0 then 0
  else
    let k := Z.log2 n - Z.log2 b in
    let e := if (if 0 <=? k then b * 2 ^ k <=? n else b <=? n * 2 ^ (- k))
             then k else k - 1 in
    let shift := e - 52 in
    let m := if 0 <=? shift then round_half_even n (b * 2 ^ shift)
             else round_half_even (n * 2 ^ (- shift)) b in
    Z.sgn a * (if 0 <=? shift then m * 2 ^ shift else m / 2 ^ (- shift)).

(** [int(delta.total_seconds())] *)
Definition total_seconds_int (delta : timedelta) : Z := true_divide_int delta 1000000.

(** [human_readable_delta_greek_full] *)
Definition human_readable_delta_greek_full (delta : timedelta) : string :=
  let total := total_seconds_int delta in
  if total <=? 0 then "λήγει τώρα"
  else
    let hours := total / 3600 in
    let rem := total mod 3600 in
    let minutes := rem / 60 in
    let seconds := rem mod 60 in
    let parts := [] in
    let parts :=
      if hours =? 0 then parts
      else parts ++ [PyStr.str_of_int hours +:+ " " +:+
                     (if hours =? 1 then "ώρα" else "ώρες")] in
    let parts :=
      if minutes =? 0 then parts
      else parts ++ [PyStr.str_of_int minutes +:+ " " +:+
                     (if minutes =? 1 then "λεπτό" else "λεπτά")] in
    let parts :=
      if seconds =? 0 then parts
      else parts ++ [PyStr.str_of_int seconds +:+ " " +:+
                     (if seconds =? 1 then "δευτερόλεπτο" else "δευτερόλεπτα")] in
    "σε " +:+ PyStr.join " και " parts.

(** ** EXTINF builders *)

Definition attrs_str (attrs : list string) : string :=
  match attrs with
  | [] => ""
  | _ => " " +:+ PyStr.join " " attrs
  end.

Definition quote : string := String (ascii_of_nat 34) EmptyString.
Definition newline : string := String "010" EmptyString.

(** [build_entry_extinf] *)
Definition build_entry_extinf (meta_id thumbnail : option string) (title : string) : string :=
  let attrs := [] in
  let attrs :=
    if PyStr.otruthy meta_id
    then attrs ++ ["tvg-id=" +:+ quote +:+ PyStr.or_str meta_id "" +:+ quote]
    else attrs in
  let attrs :=
    if PyStr.otruthy thumbnail
    then attrs ++ ["tvg-logo=" +:+ quote +:+ safe_attr thumbnail +:+ quote]
    else attrs in
  let title_safe := PyStr.strip (PyStr.replace "010" " " title) in
  "#EXTINF:-1" +:+ attrs_str attrs +:+ "," +:+ title_safe +:+ newline.

(** [build_special_extinf_only_expire] *)
Definition special_title (expire_str rel_str : string) : string :=
  if PyStr.truthy expire_str
  then "Λήξη συνδέσμων: " +:+ expire_str +:+ " (" +:+ rel_str +:+ ")"
  else "Λήξη συνδέσμων: μη διαθέσιμη".

Definition build_special_extinf_only_expire
    (expire_str rel_str : string) (special_meta_id special_thumbnail : option string) : string :=
  let title := special_title expire_str rel_str in
  let attrs := [] in
  let attrs :=
    if PyStr.otruthy special_meta_id
    then attrs ++ ["tvg-id=" +:+ quote +:+ PyStr.or_str special_meta_id "" +:+ quote]
    else attrs in
  let attrs :=
    if PyStr.otruthy special_thumbnail
    then attrs ++ ["tvg-logo=" +:+ quote +:+ safe_attr special_thumbnail +:+ quote]
    else attrs in
  let title_safe := PyStr.strip (PyStr.replace "010" " " title) in
  "#EXTINF:-1" +:+ attrs_str attrs +:+ "," +:+ title_safe +:+ newline.

(** ** Values decoded from JSON

    [json.loads] returns arbitrary Python values; strategy (c) of the stream
    resolution inspects them dynamically, so they are kept dynamically typed.
    A [dict] is its list of items (keys are unique in a Python dict; lookup
    takes the first item with the key). *)

Inductive pyval : Type :=
| PNone
| PBool (b : bool)
| PInt (z : Z)
| PFloat (q : Q)
| PNonFinite
| PStr (s : string)
| PList (l : list pyval)
| PDict (d : list (string * pyval)).

(** Exceptions.  All of them derive from [Exception]; the script never
    tells them apart except for [subprocess.TimeoutExpired]. *)
Inductive exn : Type :=
| TimeoutExpired
| OSError
| TypeError
| AttributeError
| IndexError
| ValueError
| OtherException (name : string).

Inductive outcome (A : Type) : Type :=
| Returns (a : A)
| Raises (e : exn).
Arguments Returns {A} a.
Arguments Raises {A} e.

Module Py.

(** [bool(v)] *)
Definition truthy (v : pyval) : bool :=
  match v with
  | PNone => false
  | PBool b => b
  | PInt z => negb (z =? 0)
  | PFloat q => negb (Qeq_bool q 0)
  | PNonFinite => true
  | PStr s => PyStr.truthy s
  | PList l => match l with [] => false | _ => true end
  | PDict d => match d with [] => false | _ => true end
  end.

(** [a or b] *)
Definition or_ (a b : pyval) : pyval := if truthy a then a else b.

Fixpoint lookup (d : list (string * pyval)) (k : string) : pyval :=
  match d with
  | [] => PNone
  | (k', v) :: d' => if String.eqb k' k then v else lookup d' k
  end.

(** [v.get(k)]: only a [dict] has the method. *)
Definition get (v : pyval) (k : string) : outcome pyval :=
  match v with
  | PDict d => Returns (lookup d k)
  | _ => Raises AttributeError
  end.

Definition chars (s : string) : list pyval :=
  map (fun c => PStr (snd c)) (Utf8.chars s).

(** [for f in v]: the elements the loop visits. *)
Definition iter (v : pyval) : outcome (list pyval) :=
  match v with
  | PList l => Returns l
  | PDict d => Returns (map (fun kv => PStr (fst kv)) d)
  | PStr s => Returns (chars s)
  | _ => Raises TypeError
  end.

Definition is_str (needle : string) (v : pyval) : bool :=
  match v with PStr s => String.eqb s needle | _ => false end.

(** [needle in v] for a string [needle] *)
Definition contains (needle : string) (v : pyval) : outcome bool :=
  match v with
  | PStr s => Returns (PyStr.contains needle s)
  | PList l => Returns (existsb (is_str needle) l)
  | PDict d => Returns (existsb (fun kv => String.eqb (fst kv) needle) d)
  | _ => Raises TypeError
  end.

End Py.

(** [subprocess.CompletedProcess] as far as the script reads it *)
Record CompletedProcess : Type := mkProc { stdout : string; stderr : string }.

(** [proc.stdout or proc.stderr or ""] *)
Definition proc_text (p : CompletedProcess) : string :=
  if PyStr.truthy (stdout p) then stdout p
  else if PyStr.truthy (stderr p) then stderr p else "".

(** What a run does to the outside, in order. *)
Inductive event : Type :=
| EvRun (cmd : list string) (timeout : Z)
| EvSleep (seconds : Q).

(** The resolved record: the 6-tuple
    [(line, meta_id, title, thumbnail, stream_url, expire_epoch)]. *)
Record record : Type := mkRecord {
  rec_line : string;
  rec_meta_id : option string;
  rec_title : option string;
  rec_thumbnail : option string;
  rec_stream_url : option string;
  rec_expire_epoch : option Z
}.

(** [EXPIRE_RE = re.compile(r'expire/(\d+)', re.IGNORECASE)]:
    [expire_re_search s] is group 1 of [EXPIRE_RE.search(s)].  Without
    regard to case the letters of the pattern match themselves and their
    capitals, and [i] also the dotted capital U+0130 and the dotless
    U+0131; [\d] matches every decimal digit of Unicode. *)
Definition expire_head : list (list string) :=
  [ ["e"; "E"]; ["x"; "X"]; ["p"; "P"];
    ["i"; "I"; Utf8.encode_cp 304; Utf8.encode_cp 305];
    ["r"; "R"]; ["e"; "E"]; ["/"] ].

(** The rest of [s] behind a text that matches [pattern], one of the
    alternatives for each of its places. *)
Fixpoint match_head (pattern : list (list string)) (s : string) : option string :=
  match pattern with
  | [] => Some s
  | alternatives :: pattern' =>
      match PyStr.behind alternatives s with
      | Some r => match_head pattern' r
      | None => None
      end
  end.

Definition expire_re_match_here (s : string) : option string :=
  match match_head expire_head s with
  | Some rest =>
      let digits := PyStr.take_digits rest in
      if PyStr.truthy digits then Some digits else None
  | None => None
  end.

Fixpoint expire_re_search (s : string) : option string :=
  match expire_re_match_here s with
  | Some g => Some g
  | None =>
      match s with
      | EmptyString => None
      | String _ s' => expire_re_search s'
      end
  end.

(** [int(m.group(1))]: since Python 3.11 the conversion raises [ValueError]
    above [sys.int_max_str_digits] digits (0 switches the limit off). *)
Definition py_int (int_max_str_digits : nat) (digits : string) : outcome Z :=
  if (int_max_str_digits =? 0)%nat || (PyStr.len digits <=? int_max_str_digits)%nat
  then Returns (PyStr.int_of_digits digits)
  else Raises ValueError.

(** ** A state-and-exception monad

    A computation runs from a state, and either does not finish within the
    fuel it was given ([None]) or ends in a new state, returning a value or
    raising an exception. *)

Definition M (S A : Type) : Type := S -> option (outcome A * S).

Definition ret {S A : Type} (a : A) : M S A := fun st => Some (Returns a, st).

Definition raise {S A : Type} (e : exn) : M S A := fun st => Some (Raises e, st).

Definition lift {S A : Type} (o : outcome A) : M S A := fun st => Some (o, st).

Definition bind {S A B : Type} (m : M S A) (k : A -> M S B) : M S B :=
  fun st =>
    match m st with
    | Some (Returns a, st') => k a st'
    | Some (Raises e, st') => Some (Raises e, st')
    | None => None
    end.

(** [try: m  except Exception: h] *)
Definition try_except {S A : Type} (m : M S A) (h : exn -> M S A) : M S A :=
  fun st =>
    match m st with
    | Some (Returns a, st') => Some (Returns a, st')
    | Some (Raises e, st') => h e st'
    | None => None
    end.

Definition obind {A B : Type} (o : outcome A) (k : A -> outcome B) : outcome B :=
  match o with
  | Returns a => k a
  | Raises e => Raises e
  end.

Notation "x <- m ;; k" := (bind m (fun x => k))
  (at level 63, m at next level, right associativity).
Notation "m1 ;;; m2" := (bind m1 (fun _ => m2))
  (at level 63, right associativity).
Notation "'let!' x := o 'in' k" := (obind o (fun x => k))
  (at level 63, x name, o at next level, right associativity).

(** The state of a run: the outside world (whatever decides how the
    external tool answers) and the trace of what was done to it. *)
Record St (World : Type) : Type := mkSt { world : World; trace : list event }.
Arguments mkSt {World} world trace.
Arguments world {World} s.
Arguments trace {World} s.

(** [backoff: float = 1.5], the default no caller overrides *)
Definition default_backoff : Q := 3 # 2.

(** ** Scanning the decoded metadata (strategy (c), the loops) *)

(** [for f in req: if f.get("url"): return f.get("url")] *)
Fixpoint first_url (fs : list pyval) : outcome (option pyval) :=
  match fs with
  | [] => Returns None
  | f :: rest =>
      let! u := Py.get f "url" in
      if Py.truthy u then Returns (Some u) else first_url rest
  end.

(** [for f in fmts: urlf = f.get("url"); if urlf and ('.m3u8' in (f.get("ext")
    or '') or 'm3u8' in (f.get("protocol") or '')): return urlf] *)
Fixpoint first_m3u8_url (fs : list pyval) : outcome (option pyval) :=
  match fs with
  | [] => Returns None
  | f :: rest =>
      let! urlf := Py.get f "url" in
      if Py.truthy urlf then
        let! ext := Py.get f "ext" in
        let! in_ext := Py.contains ".m3u8" (Py.or_ ext (PStr "")) in
        if in_ext then Returns (Some urlf)
        else
          let! protocol := Py.get f "protocol" in
          let! in_protocol := Py.contains "m3u8" (Py.or_ protocol (PStr "")) in
          if in_protocol then Returns (Some urlf) else first_m3u8_url rest
      else first_m3u8_url rest
  end.

(** The body of [if isinstance(parsed, dict): ...]: [Some v] when a
    [return v] is reached, [None] when control falls out of the block. *)
Definition scan_parsed (parsed : pyval) : outcome (option pyval) :=
  match parsed with
  | PDict _ =>
      let! u := Py.get parsed "url" in
      if Py.truthy u then Returns (Some u)
      else
        let! req := Py.get parsed "requested_formats" in
        let! r :=
          match req with
          | PList ((_ :: _) as l) => first_url l
          | _ => Returns None
          end in
        match r with
        | Some v => Returns (Some v)
        | None =>
            let! formats := Py.get parsed "formats" in
            let fmts := Py.or_ formats (PList []) in
            let! fs := Py.iter fmts in
            let! r := first_m3u8_url fs in
            match r with
            | Some v => Returns (Some v)
            | None => first_url fs
            end
        end
  | _ => Returns None
  end.

(** ** The resolver client and the worker *)

(** The command line [run_yt_dlp_cmd] builds in [cmd]. *)
Definition yt_dlp_command (args_list : list string)
    (cookies cookies_from_browser : option string) : list string :=
  let cmd := ["yt-dlp"] in
  let cmd :=
    if PyStr.otruthy cookies then cmd ++ ["--cookies"; PyStr.or_str cookies ""]
    else if PyStr.otruthy cookies_from_browser
         then cmd ++ ["--cookies-from-browser"; PyStr.or_str cookies_from_browser ""]
         else cmd in
  cmd ++ args_list.

Section Resolver.

(** [subprocess.run(cmd, capture_output=True, text=True, timeout=timeout)]:
    it returns a completed process or raises, and changes the world. *)
Variable World : Type.
Variable subprocess_run :
  list string -> Z -> World -> outcome CompletedProcess * World.

(** [json.loads]; it raises on a malformed document. *)
Variable json_loads : string -> outcome pyval.

(** [sys.int_max_str_digits] *)
Variable int_max_str_digits : nat.

#[local] Abbreviation Run := (M (St World)).

(** [run_cmd] *)
Definition run_cmd (cmd : list string) (timeout : Z) : Run CompletedProcess :=
  fun st =>
    let '(r, w) := subprocess_run cmd timeout (world st) in
    Some (r, mkSt w (trace st ++ [EvRun cmd timeout])).

(** [time.sleep] *)
Definition sleep (seconds : Q) : Run unit :=
  fun st => Some (Returns tt, mkSt (world st) (trace st ++ [EvSleep seconds])).

(** [run_yt_dlp_cmd] *)
Definition run_yt_dlp_cmd (args_list : list string)
    (cookies cookies_from_browser : option string) (timeout : Z)
    : Run CompletedProcess :=
  run_cmd (yt_dlp_command args_list cookies cookies_from_browser) timeout.

(** [run_yt_dlp_cmd_with_retries]: the [while True] loop, entered with the
    current value of [attempt].  Both [except] clauses have the same
    body.  The loop is unrolled [fuel] times. *)
Fixpoint retry_loop (fuel : nat) (args_list : list string)
    (cookies cookies_from_browser : option string) (timeout retries : Z)
    (backoff : Q) (attempt : Z) : Run CompletedProcess :=
  match fuel with
  | O => fun _ => None
  | S fuel' =>
      try_except
        (run_yt_dlp_cmd args_list cookies cookies_from_browser timeout)
        (fun e =>
           match e with
           | TimeoutExpired =>
               let attempt := attempt + 1 in
               if attempt >? retries then raise e
               else sleep (backoff * inject_Z attempt) ;;;
                    retry_loop fuel' args_list cookies cookies_from_browser
                               timeout retries backoff attempt
           | _ =>
               let attempt := attempt + 1 in
               if attempt >? retries then raise e
               else sleep (backoff * inject_Z attempt) ;;;
                    retry_loop fuel' args_list cookies cookies_from_browser
                               timeout retries backoff attempt
           end)
  end.

(** The loop makes at most [retries + 1] calls, so this fuel is never used
    up ([run_yt_dlp_cmd_with_retries_total] below). *)
Definition run_yt_dlp_cmd_with_retries (args_list : list string)
    (cookies cookies_from_browser : option string) (timeout retries : Z)
    (backoff : Q) : Run CompletedProcess :=
  retry_loop (S (Z.to_nat retries)) args_list cookies cookies_from_browser
             timeout retries backoff 0.

Definition tab : string := String "009" EmptyString.

(** [parts[i].strip() if len(parts) >= i+1 and parts[i].strip() else None] *)
Definition meta_field (parts : list string) (i : nat) : option string :=
  match nth_error parts i with
  | Some p => if PyStr.truthy (PyStr.strip p) then Some (PyStr.strip p) else None
  | None => None
  end.

(** [get_minimal_meta] *)
Definition get_minimal_meta (url : string) (timeout : Z)
    (cookies cookies_from_browser : option string) (retries : Z)
    : Run (option string * option string * option string) :=
  let fmt := "%(id)s" +:+ tab +:+ "%(title)s" +:+ tab +:+ "%(thumbnail)s" in
  try_except
    (proc <- run_yt_dlp_cmd_with_retries ["--print"; fmt; url] cookies
               cookies_from_browser timeout retries default_backoff ;;
     let out := PyStr.strip (proc_text proc) in
     if negb (PyStr.truthy out) then ret (None, None, None)
     else
       first <- lift (match PyStr.splitlines out with
                      | [] => Raises IndexError
                      | l :: _ => Returns l
                      end) ;;
       let parts := PyStr.split "009" first in
       let meta_id := meta_field parts 0 in
       let title := meta_field parts 1 in
       let thumbnail := meta_field parts 2 in
       ret (meta_id, title, thumbnail))
    (fun _ => ret (None, None, None)).

(** The three [try] blocks of [get_stream_url_with_ytdlp].  A block
    yields [Some v] when it executes [return v] and [None] when control
    leaves it normally; [except Exception: pass] is added by the caller. *)
Definition direct_default (url : string) (timeout : Z)
    (cookies cookies_from_browser : option string) (retries : Z)
    : Run (option pyval) :=
  proc <- run_yt_dlp_cmd_with_retries ["-g"; url] cookies cookies_from_browser
            timeout retries default_backoff ;;
  let out := PyStr.strip (proc_text proc) in
  let m := first_http_line out in
  match m with
  | Some l => if PyStr.truthy l then ret (Some (PStr l)) else ret None
  | None => ret None
  end.

Definition direct_quality (url fmt : string) (timeout : Z)
    (cookies cookies_from_browser : option string) (retries : Z)
    : Run (option pyval) :=
  if PyStr.truthy fmt then
    proc <- run_yt_dlp_cmd_with_retries ["-f"; fmt; "-g"; url] cookies
              cookies_from_browser timeout retries default_backoff ;;
    let out := PyStr.strip (proc_text proc) in
    let m := first_http_line out in
    match m with
    | Some l => if PyStr.truthy l then ret (Some (PStr l)) else ret None
    | None => ret None
    end
  else ret None.

Definition json_metadata (url : string) (timeout : Z)
    (cookies cookies_from_browser : option string) (retries : Z)
    : Run (option pyval) :=
  proc <- run_yt_dlp_cmd_with_retries ["-j"; url] cookies cookies_from_browser
            timeout retries default_backoff ;;
  let out := PyStr.strip (proc_text proc) in
  if PyStr.truthy out then
    parsed <- lift (json_loads out) ;;
    lift (scan_parsed parsed)
  else ret None.

Definition pass {A : Type} (e : exn) : Run (option A) := ret None.

(** [get_stream_url_with_ytdlp] *)
Definition get_stream_url_with_ytdlp (url fmt : string) (timeout : Z)
    (cookies cookies_from_browser : option string) (retries : Z) : Run pyval :=
  r <- try_except
         (direct_default url timeout cookies cookies_from_browser retries) pass ;;
  match r with
  | Some v => ret v
  | None =>
      r <- try_except
             (direct_quality url fmt timeout cookies cookies_from_browser retries)
             pass ;;
      match r with
      | Some v => ret v
      | None =>
          r <- try_except
                 (json_metadata url timeout cookies cookies_from_browser retries)
                 pass ;;
          match r with
          | Some v => ret v
          | None => ret PNone
          end
      end
  end.

(** [expire_epoch] of [check_url_entry_buffered]: [EXPIRE_RE.search] wants
    a string and raises [TypeError] on anything else; the conversion sits
    in a [try] of its own. *)
Definition find_expire (stream_url : pyval) : outcome (option Z) :=
  match stream_url with
  | PStr s =>
      match expire_re_search s with
      | Some digits =>
          match py_int int_max_str_digits digits with
          | Returns n => Returns (Some n)
          | Raises _ => Returns None
          end
      | None => Returns None
      end
  | _ => Raises TypeError
  end.

(** The stream URL as the record keeps it.  A falsy value that is neither
    [None] nor a string cannot come out of [get_stream_url_with_ytdlp]
    ([get_stream_url_none_or_truthy] below). *)
Definition as_opt_str (v : pyval) : option string :=
  match v with
  | PStr s => Some s
  | _ => None
  end.

(** The metadata block of [check_url_entry_buffered]:
    [if not no_metadata: ...], giving [(meta_id, title, thumbnail)]. *)
Definition worker_metadata (line watch_url : string) (timeout : Z)
    (cookies cookies_from_browser : option string) (no_metadata : bool)
    (retries : Z) : Run (option string * string * option string) :=
  let title := line in
  let thumbnail := @None string in
  let meta_id := @None string in
  if negb no_metadata then
    meta_m <-
      get_minimal_meta watch_url timeout cookies cookies_from_browser retries ;;
    let '(meta_id_m, title_m, thumbnail_m) := meta_m in
    if PyStr.otruthy meta_id_m || PyStr.otruthy title_m
       || PyStr.otruthy thumbnail_m
    then ret (PyStr.or_else meta_id_m meta_id,
              PyStr.or_str title_m title,
              PyStr.or_else thumbnail_m thumbnail)
    else ret (meta_id, title, thumbnail)
  else ret (meta_id, title, thumbnail).

(** The rest of the worker, from [try: stream_url = ...] on. *)
Definition worker_stream (line watch_url fmt : string) (timeout : Z)
    (cookies cookies_from_browser : option string) (fallback_watch : bool)
    (retries : Z) (meta : option string * string * option string)
    : Run record :=
  let '(meta_id, title, thumbnail) := meta in
  stream_url <-
    try_except
      (get_stream_url_with_ytdlp watch_url fmt timeout cookies
         cookies_from_browser retries)
      (fun _ => ret PNone) ;;
  let stream_url :=
    if negb (Py.truthy stream_url) && fallback_watch
    then PStr watch_url else stream_url in
  expire_epoch <-
    (if Py.truthy stream_url then lift (find_expire stream_url)
     else ret None) ;;
  ret (mkRecord line meta_id (Some title) thumbnail
                (as_opt_str stream_url) expire_epoch).

(** [check_url_entry_buffered] *)
Definition check_url_entry_buffered (raw_line fmt : string) (timeout : Z)
    (cookies cookies_from_browser : option string)
    (fallback_watch no_metadata full_metadata : bool) (retries : Z)
    : Run record :=
  let line := PyStr.strip raw_line in
  if negb (PyStr.truthy line) then ret (mkRecord line None None None None None)
  else
    let watch_url := normalize_input_line line in
    meta <- worker_metadata line watch_url timeout cookies cookies_from_browser
              no_metadata retries ;;
    worker_stream line watch_url fmt timeout cookies cookies_from_browser
                  fallback_watch retries meta.

End Resolver.

(** ** [main]: input, pre-fetch deduplication *)

(** [raw_lines = [ln.strip() for ln in f if ln.strip()]] *)
Definition read_raw_lines (f : list string) : list string :=
  map PyStr.strip (List.filter (fun ln => PyStr.truthy (PyStr.strip ln)) f).

(** The variables of the first loop of [main]; [dedup_console] collects what
    it prints (colours left out). *)
Record DedupSt : Type := mkDedupSt {
  unique_inputs : list string;
  seen_input_lines : gset string;
  dedup_console : list string
}.

Definition skip_report (ln : string) : string :=
  "Παρέλειψη διπλότυπης γραμμής εισόδου: " +:+ ln.

Definition dedup_step (st : DedupSt) (ln : string) : DedupSt :=
  let key := PyStr.lower (PyStr.strip ln) in
  if negb (PyStr.truthy key) then st
  else if bool_decide (key ∈ seen_input_lines st) then
    mkDedupSt (unique_inputs st) (seen_input_lines st)
              (dedup_console st ++ [skip_report ln])
  else
    mkDedupSt (unique_inputs st ++ [ln]) (seen_input_lines st ∪ {[ key ]})
              (dedup_console st).

Definition dedup_inputs (raw_lines : list string) : DedupSt :=
  fold_left dedup_step raw_lines (mkDedupSt [] ∅ []).

(** ** [main]: the run, from the buffer to the playlist *)

(** The settings [main] reads from the configuration and hands on. *)
Record Config : Type := mkConfig {
  cfg_fmt : string;
  cfg_timeout : Z;
  cfg_retries : Z;
  cfg_cookies : option string;
  cfg_cookies_from_browser : option string;
  cfg_fallback_watch : bool;
  cfg_no_metadata : bool;
  cfg_full_metadata : bool;
  cfg_favicon_service : string
}.

(** [expire_epochs = [r[5] for r in buffered if r[5]]] *)
Definition expire_epochs (buffered : list record) : list Z :=
  flat_map (fun r =>
              match rec_expire_epoch r with
              | Some e => if e =? 0 then [] else [e]
              | None => []
              end) buffered.

(** [expire_max = max(expire_epochs) if expire_epochs else None] *)
Definition expire_max (buffered : list record) : option Z :=
  match expire_epochs buffered with
  | [] => None
  | e :: es => Some (fold_left Z.max es e)
  end.

(** [first_manifest = next((r[4] for r in buffered if r[4] and
    is_manifest_url(r[4])), None)] *)
Fixpoint first_manifest (buffered : list record) : option string :=
  match buffered with
  | [] => None
  | r :: rest =>
      match rec_stream_url r with
      | Some u =>
          if PyStr.truthy u && is_manifest_url u then Some u
          else first_manifest rest
      | None => first_manifest rest
      end
  end.

(** [first_watch = normalize_input_line(unique_inputs[0]) if unique_inputs
    else None] *)
Definition first_watch (unique : list string) : option string :=
  match unique with
  | [] => None
  | l :: _ => Some (normalize_input_line l)
  end.

(** [special_url = first_manifest or first_watch] *)
Definition special_url (buffered : list record) (unique : list string) : option string :=
  PyStr.or_else (first_manifest buffered) (first_watch unique).

Definition not_available : string := "μη διαθέσιμη".

(** The variables of the writing loop; [out_f] is what was written to the
    file, chunk by chunk, and [emit_console] what [tqdm.write] printed. *)
Record EmitSt : Type := mkEmitSt {
  out_f : list string;
  added_keys : gset string;
  added_urls : gset string;
  emit_console : list string
}.

(** [key_norm = (meta_id or title or "").strip().lower()] *)
Definition key_norm (r : record) : string :=
  PyStr.lower (PyStr.strip (PyStr.or_str (PyStr.or_else (rec_meta_id r) (rec_title r)) "")).

(** [stream_url == special_url], both optional strings *)
Definition opt_str_eqb (a b : option string) : bool :=
  match a, b with
  | Some x, Some y => String.eqb x y
  | None, None => true
  | _, _ => false
  end.

(** The two lines written for a record. *)
Definition entry_lines (favicon_service : string) (r : record) : list string :=
  let item_logo := PyStr.or_str (rec_thumbnail r) favicon_service in
  [ build_entry_extinf (rec_meta_id r) (Some item_logo)
                       (PyStr.or_str (rec_title r) (rec_line r));
    PyStr.or_str (rec_stream_url r) "" +:+ newline ].

(** One turn of [for (...) in buffered:] *)
Definition emit_step (favicon_service : string) (special : option string)
    (st : EmitSt) (r : record) : EmitSt :=
  if negb (PyStr.otruthy (rec_stream_url r)) then st
  else if PyStr.otruthy special && opt_str_eqb (rec_stream_url r) special then st
  else
    let url := PyStr.or_str (rec_stream_url r) "" in
    let k := key_norm r in
    if (PyStr.otruthy (rec_stream_url r) && bool_decide (url ∈ added_urls st))
       || (PyStr.truthy k && bool_decide (k ∈ added_keys st))
    then
      mkEmitSt (out_f st) (added_keys st) (added_urls st)
               (emit_console st ++ ["Παρέλειψη duplicate (εντός run) για " +:+ rec_line r])
    else
      mkEmitSt (out_f st ++ entry_lines favicon_service r)
               (if PyStr.truthy k then added_keys st ∪ {[ k ]} else added_keys st)
               (if PyStr.otruthy (rec_stream_url r)
                then added_urls st ∪ {[ url ]} else added_urls st)
               (emit_console st ++ ["Γράφηκε entry για " +:+ rec_line r]).

Definition emit_loop (favicon_service : string) (special : option string)
    (buffered : list record) : EmitSt :=
  fold_left (emit_step favicon_service special) buffered (mkEmitSt [] ∅ ∅ []).

(** [write_header]; [created] is the formatted creation time. *)
Definition write_header (created : string) : list string :=
  [ "#EXTM3U $BorpasFileFormat=" +:+ quote +:+ "1" +:+ quote
    +:+ " $NestedGroupsSeparator=" +:+ quote +:+ "/" +:+ quote +:+ newline;
    "# Δημιουργήθηκε στις " +:+ created +:+ newline ].

Section Aggregator.

(** The clock and the calendar are not the script's: [format_local e] is
    [expire_dt_local.strftime('%d-%m-%Y %H:%M:%S')] for the epoch [e] (it
    raises when [datetime.fromtimestamp] does), [now_us] the current time
    in microseconds since the epoch. *)
Variable format_local : Z -> outcome string.
Variable now_us : Z.

(** [expire_str, rel_str] *)
Definition expiry_strings (emax : option Z) : string * string :=
  match emax with
  | Some e =>
      if e =? 0 then (not_available, not_available)
      else
        match format_local e with
        | Returns expire_str =>
            (expire_str, human_readable_delta_greek_full (e * 1000000 - now_us))
        | Raises _ => (not_available, not_available)
        end
  | None => (not_available, not_available)
  end.

Definition special_extinf (favicon_service : string) (buffered : list record) : string :=
  let '(expire_str, rel_str) := expiry_strings (expire_max buffered) in
  build_special_extinf_only_expire expire_str rel_str
    (Some "info") (Some favicon_service).

(** The special entry as written: its descriptor, then its URL if any. *)
Definition special_lines (favicon_service : string) (buffered : list record)
    (unique : list string) : list string :=
  special_extinf favicon_service buffered ::
  match special_url buffered unique with
  | Some u => if PyStr.truthy u then [u +:+ newline] else []
  | None => []
  end.

(** The output file once [main] is through with the buffer. *)
Definition playlist (created favicon_service : string) (buffered : list record)
    (unique : list string) : list string :=
  write_header created
  ++ special_lines favicon_service buffered unique
  ++ out_f (emit_loop favicon_service (special_url buffered unique) buffered).

End Aggregator.

(** ** [main]: the worker pool

    Every line of [unique_inputs] is submitted once; the results are taken
    from [concurrent.futures.as_completed], that is, in the order the
    workers finish.  That order is the pool's business, so it is an input
    here: [completion] lists the indices of the submitted lines in the
    order their futures complete.  Worker [i] meets the external tool in
    the world [worlds i]. *)

Section Coordinator.

Variable World : Type.
Variable subprocess_run :
  list string -> Z -> World -> outcome CompletedProcess * World.
Variable json_loads : string -> outcome pyval.
Variable int_max_str_digits : nat.

(** [fut.result()] for the future of one submitted line; [None] stands
    for a worker that never finishes. *)
Definition future_result (cfg : Config) (line : string) (w : World)
    : option (outcome record) :=
  match
    check_url_entry_buffered World subprocess_run json_loads int_max_str_digits
      line (cfg_fmt cfg) (cfg_timeout cfg) (cfg_cookies cfg)
      (cfg_cookies_from_browser cfg) (cfg_fallback_watch cfg)
      (cfg_no_metadata cfg) (cfg_full_metadata cfg) (cfg_retries cfg)
      (mkSt w [])
  with
  | Some (o, _) => Some o
  | None => None
  end.

Definition futures (cfg : Config) (unique : list string) (worlds : nat -> World)
    : list (option (outcome record)) :=
  imap (fun i line => future_result cfg line (worlds i)) unique.

(** [for fut in as_completed(futures): try: buffered.append(fut.result())
    except Exception: ...]; the report of a failed future is kept without
    the text of its exception. *)
Fixpoint collect (futs : list (option (outcome record))) (completion : list nat)
    (buffered : list record) (console : list string)
    : option (list record * list string) :=
  match completion with
  | [] => Some (buffered, console)
  | i :: rest =>
      match futs !! i with
      | Some (Some (Returns res)) =>
          collect futs rest (buffered ++ [res])
                  (console ++ ["Έλεγχος: " +:+ rec_line res +:+ " - ολοκληρώθηκε"])
      | Some (Some (Raises e)) =>
          collect futs rest buffered (console ++ ["Σφάλμα σε future"])
      | _ => None
      end
  end.

Definition run_pool (cfg : Config) (unique : list string) (worlds : nat -> World)
    (completion : list nat) : option (list record * list string) :=
  collect (futures cfg unique worlds) completion [] [].

End Coordinator.

(** ** What the specification says, in its own words

    Second definitions, written from the specification and compared with
    the script's below. *)

Module Spec.

(** Pre-fetch: the lowercase-trimmed line is the key; a line survives
    when its key has not occurred on an earlier line, and is reported
    when it has.  Both are told by position. *)
Definition dedup_key (ln : string) : string := PyStr.lower (PyStr.strip ln).

Definition seen_before (lines : list string) (i : nat) (ln : string) : bool :=
  existsb (String.eqb (dedup_key ln)) (map dedup_key (take i lines)).

Definition survives (lines : list string) (i : nat) : bool :=
  match lines !! i with
  | Some ln => PyStr.truthy (dedup_key ln) && negb (seen_before lines i ln)
  | None => false
  end.

Definition reported (lines : list string) (i : nat) : bool :=
  match lines !! i with
  | Some ln => PyStr.truthy (dedup_key ln) && seen_before lines i ln
  | None => false
  end.

Definition positions (lines : list string) : list nat := seq 0 (length lines).

Definition surviving_positions (lines : list string) : list nat :=
  List.filter (survives lines) (positions lines).

Definition reported_positions (lines : list string) : list nat :=
  List.filter (reported lines) (positions lines).

Definition lines_at (lines : list string) (ps : list nat) : list string :=
  omap (fun i => lines !! i) ps.

(** Post-fetch, first-seen-wins: walk the buffer; a record is emitted
    unless it has no endpoint, or its endpoint is the special entry's, or
    its endpoint or its identity key belongs to a record emitted earlier
    in the pass. *)
Definition same_url (u : string) (e : record) : bool :=
  opt_str_eqb (rec_stream_url e) (Some u).

Definition same_key (k : string) (e : record) : bool :=
  String.eqb (key_norm e) k.

Definition passes (special : option string) (emitted : list record) (r : record) : bool :=
  match rec_stream_url r with
  | Some u =>
      PyStr.truthy u
      && negb (PyStr.otruthy special && opt_str_eqb (Some u) special)
      && negb (existsb (same_url u) emitted)
      && negb (PyStr.truthy (key_norm r) && existsb (same_key (key_norm r)) emitted)
  | None => false
  end.

Definition first_seen_wins (special : option string) (emitted : list record)
    (r : record) : list record :=
  if passes special emitted r then emitted ++ [r] else emitted.

Definition survivors (special : option string) (buffered : list record) : list record :=
  fold_left (first_seen_wins special) buffered [].

(** The largest of the expiry epochs of a list, if it has any. *)
Definition max_of (epochs : list Z) : option Z :=
  match epochs with
  | [] => None
  | e :: es => Some (fold_right Z.max e es)
  end.

Definition nonzero (e : Z) : bool := negb (e =? 0).

(** The non-null expiry epochs of the buffered records. *)
Definition non_null_epochs (buffered : list record) : list Z :=
  omap rec_expire_epoch buffered.

(** Relative time: the components that are not zero, largest unit first,
    joined by the connective. *)
Definition component (n : Z) (one many : string) : list string :=
  if n =? 0 then []
  else [PyStr.str_of_int n +:+ " " +:+ (if n =? 1 then one else many)].

Definition render_components (hours minutes seconds : Z) : string :=
  "σε " +:+ PyStr.join " και "
    (component hours "ώρα" "ώρες"
     ++ component minutes "λεπτό" "λεπτά"
     ++ component seconds "δευτερόλεπτο" "δευτερόλεπτα").

(** The strategies of the endpoint resolution, tried in order until one
    yields a value; a strategy that raises has failed. *)
Fixpoint first_success {S : Type} (strategies : list (M S (option pyval))) : M S pyval :=
  match strategies with
  | [] => ret PNone
  | strategy :: rest =>
      r <- try_except strategy (fun _ => ret None) ;;
      match r with
      | Some v => ret v
      | None => first_success rest
      end
  end.








(** The JSON object such metadata decodes from: absent fields are absent
    keys. *)
Definition field (k : string) (v : option string) : list (string * pyval) :=
  match v with
  | Some s => [(k, PStr s)]
  | None => []
  end.









End Spec.

(** What the writing loop holds after a prefix of the buffer, in terms of
    the records emitted so far. *)
Record emit_invariant (fav : string) (st : EmitSt) (emitted : list record) : Prop := {
  inv_out : out_f st = flat_map (entry_lines fav) emitted;
  inv_urls : forall u, u ∈ added_urls st <-> In (Some u) (map rec_stream_url emitted);
  inv_keys : forall k, PyStr.truthy k = true ->
                       (k ∈ added_keys st <-> In k (map key_norm emitted))
}.


(** The value the worker goes on with: what the resolution returned, None
    when it raised, and the watch URL in place of a falsy value when the
    fallback is on. *)
Definition resolved (fallback_watch : bool) (watch_url : string) (o : outcome pyval) : pyval :=
  let stream_url := match o with Returns v => v | Raises _ => PNone end in
  if negb (Py.truthy stream_url) && fallback_watch then PStr watch_url else stream_url.

(** ** Vocabulary of the statements about runs *)

(** A computation that always ends, and one that always ends in a value. *)
Definition total {S A : Type} (m : M S A) : Prop :=
  forall st, exists o st', m st = Some (o, st').

Definition never_raises {S A : Type} (m : M S A) : Prop :=
  forall st, exists a st', m st = Some (Returns a, st').

(** An event that is a call of the given command, or a pause. *)
Definition runs_only (cmd : list string) (timeout : Z) (ev : event) : Prop :=
  ev = EvRun cmd timeout \/ exists seconds, ev = EvSleep seconds.

(** A computation that adds to the trace only events of one kind. *)
Definition traces {W A : Type} (P : event -> Prop) (m : M (St W) A) : Prop :=
  forall st o st', m st = Some (o, st') ->
                   exists evs, trace st' = trace st ++ evs /\ Forall P evs.

(** A strategy yields a value, or fails: it ends without one, or raises. *)
Definition yields {S : Type} (strategy : M S (option pyval)) (st : S) (v : pyval) (st' : S) : Prop :=
  strategy st = Some (Returns (Some v), st').

Definition fails {S : Type} (strategy : M S (option pyval)) (st st' : S) : Prop :=
  strategy st = Some (Returns None, st') \/ exists e, strategy st = Some (Raises e, st').

(** What follows the first call when [k] calls in a row fail, the first of
    them being failure number [S done]: pause [backoff * i], call again. *)
Definition backoff_trace (cmd : list string) (timeout : Z) (backoff : Q)
    (done k : nat) : list event :=
  flat_map (fun i => [EvSleep (backoff * inject_Z (Z.of_nat i)); EvRun cmd timeout])
           (seq (S done) k).

Section Worlds.

Variable World : Type.
Variable subprocess_run :
  list string -> Z -> World -> outcome CompletedProcess * World.

(** The world after [n] calls of one command, and the outcome of the call
    that follows them. *)
Fixpoint world_after (cmd : list string) (timeout : Z) (n : nat) (w : World) : World :=
  match n with
  | O => w
  | S n' => world_after cmd timeout n' (snd (subprocess_run cmd timeout w))
  end.

Definition attempt_outcome (cmd : list string) (timeout : Z) (n : nat) (w : World)
    : outcome CompletedProcess :=
  fst (subprocess_run cmd timeout (world_after cmd timeout n w)).

(** A tool that fails on every call. *)
Definition always_fails : Prop :=
  forall cmd timeout w, exists e, fst (subprocess_run cmd timeout w) = Raises e.

End Worlds.

(** ** Concrete worlds, to run the model on *)

(** A tool that answers by the command alone. *)
Definition stateless_run (answers : list string -> outcome CompletedProcess)
    (cmd : list string) (timeout : Z) (w : unit) : outcome CompletedProcess * unit :=
  (answers cmd, w).

(** A tool whose every call times out. *)
Definition always_timeout (cmd : list string) : outcome CompletedProcess :=
  Raises TimeoutExpired.

(** A tool that answers from a script, one entry per call, and times out
    once the script is over. *)
Definition scripted_run (cmd : list string) (timeout : Z)
    (w : list (outcome CompletedProcess))
    : outcome CompletedProcess * list (outcome CompletedProcess) :=
  match w with
  | [] => (Raises TimeoutExpired, [])
  | r :: rest => (r, rest)
  end.

(** [json.loads] where it is not reached, or fails. *)
Definition json_loads_fails (s : string) : outcome pyval := Raises ValueError.



(** The document [{"url": 1}] and a [json.loads] that decodes it. *)
Definition url_is_a_number : string := "{" +:+ quote +:+ "url" +:+ quote +:+ ": 1}".

Definition json_loads_url_number (s : string) : outcome pyval :=
  if String.eqb s url_is_a_number then Returns (PDict [("url", PInt 1)])
  else Raises ValueError.

(** A tool that prints nothing useful for [-g] and that document for [-j]. *)
Definition answers_url_number (cmd : list string) : outcome CompletedProcess :=
  if existsb (String.eqb "-j") cmd then Returns (mkProc url_is_a_number "")
  else Returns (mkProc "" "ERROR: unavailable").

(** The document [{"url": "https://cdn/live.m3u8"}], a [json.loads] that
    decodes it, and a tool that prints it for [-j]. *)
Definition url_is_a_string : string :=
  "{" +:+ quote +:+ "url" +:+ quote +:+ ": " +:+ quote +:+ "https://cdn/live.m3u8"
  +:+ quote +:+ "}".

Definition json_loads_url_string (s : string) : outcome pyval :=
  if String.eqb s url_is_a_string
  then Returns (PDict [("url", PStr "https://cdn/live.m3u8")])
  else Raises ValueError.

Definition answers_url_string (cmd : list string) : outcome CompletedProcess :=
  if existsb (String.eqb "-j") cmd then Returns (mkProc url_is_a_string "")
  else Returns (mkProc "" "ERROR: unavailable").

Definition test_config (fallback : bool) : Config :=
  mkConfig "worstvideo+bestaudio/best" 60 2 None None fallback true false
           "https://www.google.com/s2/favicons?domain_url=https://www.youtube.com&sz=128".

(** ** More of the script, and the vocabulary of the further properties *)

(** [fmt] as [main] builds it from the quality settings (strings). *)
Definition format_string (video_quality audio_quality quality_custom_format : string) : string :=
  if negb (String.eqb video_quality "custom") && negb (String.eqb audio_quality "custom")
  then video_quality +:+ "video+" +:+ audio_quality +:+ "audio/best"
  else if String.eqb video_quality "custom" || String.eqb audio_quality "custom"
       then PyStr.or_str (Some quality_custom_format) "worstvideo+bestaudio/best"
       else "worstvideo+bestaudio/best".

(** ** Lower case next to ASCII patterns

    What [is_manifest_url] looks for in the lower case of a URL is ASCII
    text.  A pattern is tame when no character from outside ASCII can take
    part in an occurrence of it after lowering: its bytes are ASCII, none
    is [k] (the lower case of the Kelvin sign U+212A) and it does not end
    in [i] (the lower case of the dotted capital U+0130 is [i] with a
    combining dot behind it). *)
Fixpoint tame (p : string) : bool :=
  match p with
  | EmptyString => true
  | String c p' =>
      Utf8.is_ascii c && negb (Ascii.eqb c "k") && negb (String.eqb p "i") && tame p'
  end.

(** A character as [Utf8.chars] reads it: an ASCII byte, or a code point
    from 128 on (or a stray byte) with bytes that are not ASCII. *)
Definition char_ok (x : N * string) : Prop :=
  ((fst x < 128)%N /\ snd x = String (ascii_of_N (fst x)) "")
  \/ ((128 <= fst x)%N /\ snd x <> "" /\ PyStr.no_ascii (snd x) = true).

(** The bytes of a list of characters, as they are and with the letters A
    to Z lowered. *)
Definition bytes_of (l : list (N * string)) : string :=
  fold_right (fun x acc => snd x +:+ acc) "" l.

Definition ascii_of (l : list (N * string)) : string :=
  fold_right (fun x acc => PyStr.lower_ascii (snd x) +:+ acc) "" l.

(** What the table of lower-case mappings is checked for: a run lies in
    ASCII, or is the Kelvin sign, or has its images outside ASCII. *)
Definition run_ok (r : N * N * N * N) : bool :=
  let '(first, last, step, image) := r in
  ((last <? 128) || ((first =? 8490) && (last =? 8490) && (image =? 107))
   || ((128 <=? image) && (image + (last - first) <? 1114112)))%N.

(** On ASCII the table lowers the letters A to Z and nothing else. *)
Definition low_ok (c : N) : bool :=
  String.eqb (match Unicode.to_lower c with
              | Some l => Utf8.encode_cp l
              | None => String (ascii_of_N c) ""
              end)
             (String (PyStr.lower_char (ascii_of_N c)) "").

(** [s.startswith("http://") or s.startswith("https://")] *)
Definition begins_with_scheme (s : string) : bool :=
  PyStr.startswith s "http://" || PyStr.startswith s "https://".

(** The character [c] occurs in [s]. *)
Fixpoint has_char (c : ascii) (s : string) : bool :=
  match s with
  | EmptyString => false
  | String x s' => Ascii.eqb x c || has_char c s'
  end.

(** A field as [--print] writes it and [get_minimal_meta] reads it back
    whole: it holds no tab and no line boundary. *)
Definition one_field (s : string) : bool :=
  negb (has_char "009" s) && PyStr.free_of PyStr.linebreaks s.

(** A metadata field as [get_minimal_meta] may return it. *)
Definition clean_field (o : option string) : Prop :=
  match o with
  | None => True
  | Some s => PyStr.truthy s = true /\ PyStr.strip s = s
  end.

(** The calls of the external tool and the pauses in a trace. *)
Definition is_run (ev : event) : bool :=
  match ev with EvRun _ _ => true | EvSleep _ => false end.

Definition calls (evs : list event) : nat := length (List.filter is_run evs).

Definition pauses (evs : list event) : nat :=
  length (List.filter (fun ev => negb (is_run ev)) evs).

(** A computation that calls the external tool at most [n] times. *)
Definition within {W A : Type} (n : nat) (m : M (St W) A) : Prop :=
  forall st o st', m st = Some (o, st') ->
                   exists evs, trace st' = trace st ++ evs /\ (calls evs <= n)%nat.

Definition is_dict (v : pyval) : bool :=
  match v with PDict _ => true | _ => false end.

(** The record of the future of line [i], if that future returned. *)
Definition returned (futs : list (option (outcome record))) (i : nat) : option record :=
  match futs !! i with
  | Some (Some (Returns r)) => Some r
  | _ => None
  end.

(** A record the writing loop looks at beyond its first two tests: it has
    an endpoint, and the endpoint is not the special entry's. *)
Definition candidate (special : option string) (r : record) : bool :=
  PyStr.otruthy (rec_stream_url r)
  && negb (PyStr.otruthy special && opt_str_eqb (rec_stream_url r) special).

(** [r[4] and is_manifest_url(r[4])], the test of [first_manifest] *)
Definition has_manifest (r : record) : bool :=
  match rec_stream_url r with
  | Some u => PyStr.truthy u && is_manifest_url u
  | None => false
  end.

(** * Properties *)

(** ** Strings and tokens *)

Lemma append_cons c a b : String c a +:+ b = String c (a +:+ b).
Proof. reflexivity. Qed.

Lemma append_nil_r a : a +:+ "" = a.
Proof. induction a as [|c a IH]; [reflexivity|]. rewrite append_cons, IH. reflexivity. Qed.

Lemma append_assoc a b c : (a +:+ b) +:+ c = a +:+ (b +:+ c).
Proof.
  induction a as [|x a IH]; [reflexivity|].
  rewrite !append_cons, IH. reflexivity.
Qed.

Lemma length_append a b :
  String.length (a +:+ b) = (String.length a + String.length b)%nat.
Proof. induction a as [|c a IH]; [reflexivity|]. rewrite append_cons. simpl. rewrite IH. reflexivity. Qed.

Lemma append_inv_head a b c : a +:+ b = a +:+ c -> b = c.
Proof.
  induction a as [|x a IH]; [trivial|]. rewrite !append_cons. intros [= H]. apply IH, H.
Qed.

Lemma append_same_length a b : a +:+ b = b -> a = "".
Proof.
  intros H. apply (f_equal String.length) in H. rewrite length_append in H.
  destruct a; [reflexivity | simpl in H; lia].
Qed.

Lemma drop_prefix_spec p s r : PyStr.drop_prefix p s = Some r <-> s = p +:+ r.
Proof.
  revert s. induction p as [|a p IH]; intros s; simpl.
  - split; [intros [= ->]; reflexivity | intros ->; reflexivity].
  - destruct s as [|b s]; [split; discriminate|].
    rewrite append_cons. destruct (Ascii.eqb_spec a b) as [-> | Hne].
    + rewrite IH. split; [intros ->; reflexivity | intros [= ->]; reflexivity].
    + split; [discriminate | intros [= E _]; congruence].
Qed.

Lemma behind_cons t ts s :
  PyStr.behind (t :: ts) s
  = match PyStr.drop_prefix t s with
    | Some r => Some r
    | None => PyStr.behind ts s
    end.
Proof. reflexivity. Qed.

Lemma behind_some ts s r :
  PyStr.behind ts s = Some r -> exists t, In t ts /\ s = t +:+ r.
Proof.
  induction ts as [|t ts IH]; [discriminate|]. rewrite behind_cons.
  destruct (PyStr.drop_prefix t s) as [r'|] eqn:E; cbv iota.
  - intros [= <-]. apply (proj1 (drop_prefix_spec _ _ _)) in E. exists t. split; [left; reflexivity | exact E].
  - intros H. apply IH in H as (t' & Hin & Hs). exists t'. split; [right; exact Hin | exact Hs].
Qed.

Lemma behind_none ts s t r :
  PyStr.behind ts s = None -> In t ts -> s <> t +:+ r.
Proof.
  induction ts as [|t0 ts IH]; [intros _ []|]. rewrite behind_cons.
  destruct (PyStr.drop_prefix t0 s) as [r'|] eqn:E; cbv iota; [discriminate|].
  intros H [-> | Hin]; [|apply IH; assumption].
  intros Hs. apply (proj2 (drop_prefix_spec _ _ _)) in Hs. congruence.
Qed.

(** Two ways to cut one string: one of the first parts begins the other. *)
Lemma append_cut x y t r :
  x +:+ y = t +:+ r ->
  (exists x', x = t +:+ x' /\ r = x' +:+ y)
  \/ (exists c t', t = x +:+ String c t' /\ y = String c t' +:+ r).
Proof.
  revert t. induction x as [|a x IH]; intros t.
  - destruct t as [|c t'].
    + intros H. left. exists "". split; [reflexivity | symmetry; exact H].
    + intros H. right. exists c, t'. split; [reflexivity | exact H].
  - destruct t as [|c t'].
    + intros H. left. exists (String a x). split; [reflexivity | symmetry; exact H].
    + rewrite !append_cons. intros [= -> H]. apply IH in H as [(x' & -> & ->) | (d & t'' & -> & ->)].
      * left. exists x'. split; reflexivity.
      * right. exists d, t''. split; reflexivity.
Qed.

Lemma no_ascii_app p d q : PyStr.no_ascii (p +:+ String d q) = true -> Utf8.is_ascii d = false.
Proof.
  induction p as [|c p IH].
  - change ("" +:+ String d q) with (String d q). simpl.
    intros H. apply andb_prop in H as [H _]. apply negb_true_iff, H.
  - rewrite append_cons. simpl. intros H. apply andb_prop in H as [_ H]. apply IH, H.
Qed.

(** The white space tokens: none is empty, behind its first byte a token
    has no ASCII byte, and none begins another. *)
Lemma whitespace_token t :
  In t PyStr.whitespace ->
  exists c rest, t = String c rest /\ PyStr.no_ascii rest = true.
Proof.
  assert (H : forallb (fun t => match t with
                                | String _ rest => PyStr.no_ascii rest
                                | EmptyString => false
                                end) PyStr.whitespace = true) by (vm_compute; reflexivity).
  rewrite forallb_forall in H. intros Hin. apply H in Hin.
  destruct t as [|c rest]; [discriminate|]. exists c, rest. split; [reflexivity | exact Hin].
Qed.

Lemma whitespace_prefix_free t t' u :
  In t PyStr.whitespace -> In t' PyStr.whitespace -> t' = t +:+ u -> u = "".
Proof.
  assert (H : forallb (PyStr.begins_no_other PyStr.whitespace) PyStr.whitespace = true)
    by (vm_compute; reflexivity).
  rewrite forallb_forall in H. intros Hin Hin' E. apply H in Hin.
  unfold PyStr.begins_no_other in Hin. rewrite forallb_forall in Hin.
  specialize (Hin t' Hin'). apply (proj2 (drop_prefix_spec _ _ _)) in E. rewrite E in Hin.
  destruct u; [reflexivity | discriminate].
Qed.

(** A string begins with at most one white space token. *)
Lemma behind_whitespace t r :
  In t PyStr.whitespace -> PyStr.behind PyStr.whitespace (t +:+ r) = Some r.
Proof.
  intros Hin. destruct (PyStr.behind PyStr.whitespace (t +:+ r)) as [r'|] eqn:E.
  - apply behind_some in E as (t' & Hin' & E). f_equal.
    apply append_cut in E as [(x' & -> & ->) | (c & t'' & -> & _)].
    + apply (whitespace_prefix_free t' _ x' Hin') in Hin; [|reflexivity].
      subst x'. reflexivity.
    + apply (whitespace_prefix_free t _ (String c t'') Hin) in Hin'; [|reflexivity].
      discriminate.
  - exfalso. apply (behind_none _ _ t r E Hin). reflexivity.
Qed.

Lemma behind_whitespace_app x r y :
  PyStr.behind PyStr.whitespace x = Some r ->
  PyStr.behind PyStr.whitespace (x +:+ y) = Some (r +:+ y).
Proof.
  intros H. apply behind_some in H as (t & Hin & ->).
  rewrite append_assoc. apply behind_whitespace, Hin.
Qed.

Lemma behind_whitespace_shorter s r :
  PyStr.behind PyStr.whitespace s = Some r -> (String.length r < String.length s)%nat.
Proof.
  intros H. apply behind_some in H as (t & Hin & ->).
  apply whitespace_token in Hin as (c & rest & -> & _).
  rewrite length_append. simpl. lia.
Qed.

(** ** Trimming *)

Lemma lstrip_within_enough n :
  forall m s, (String.length s <= n)%nat -> (String.length s <= m)%nat ->
              PyStr.lstrip_within n s = PyStr.lstrip_within m s.
Proof.
  induction n as [|n IH]; intros m s Hn Hm.
  - destruct s; [|simpl in Hn; lia]. destruct m; reflexivity.
  - destruct m as [|m].
    + destruct s; [reflexivity | simpl in Hm; lia].
    + cbn [PyStr.lstrip_within].
      destruct (PyStr.behind PyStr.whitespace s) as [r|] eqn:E; [|reflexivity].
      apply behind_whitespace_shorter in E. apply IH; lia.
Qed.

(** The equation of [lstrip]. *)
Lemma lstrip_eq s :
  PyStr.lstrip s
  = match PyStr.behind PyStr.whitespace s with
    | Some r => PyStr.lstrip r
    | None => s
    end.
Proof.
  unfold PyStr.lstrip. destruct s as [|c s]; [reflexivity|].
  cbn [String.length PyStr.lstrip_within].
  destruct (PyStr.behind PyStr.whitespace (String c s)) as [r|] eqn:E; [|reflexivity].
  apply behind_whitespace_shorter in E. simpl in E. apply lstrip_within_enough; lia.
Qed.

(** Induction along [lstrip]. *)
Lemma lstrip_induction (P : string -> Prop) :
  (forall s, (forall r, PyStr.behind PyStr.whitespace s = Some r -> P r) -> P s) ->
  forall s, P s.
Proof.
  intros Hstep s. remember (String.length s) as n eqn:En.
  revert s En. induction n as [n IH] using lt_wf_ind. intros s ->.
  apply Hstep. intros r Hr. apply behind_whitespace_shorter in Hr.
  apply (IH (String.length r)); [exact Hr | reflexivity].
Qed.

Lemma lstrip_done s : PyStr.behind PyStr.whitespace (PyStr.lstrip s) = None.
Proof.
  induction s as [s IH] using lstrip_induction. rewrite lstrip_eq.
  destruct (PyStr.behind PyStr.whitespace s) as [r|] eqn:E; [apply IH; reflexivity | exact E].
Qed.

Lemma lstrip_fixed s : PyStr.behind PyStr.whitespace s = None -> PyStr.lstrip s = s.
Proof. intros H. rewrite lstrip_eq, H. reflexivity. Qed.

Lemma lstrip_idempotent s : PyStr.lstrip (PyStr.lstrip s) = PyStr.lstrip s.
Proof. apply lstrip_fixed, lstrip_done. Qed.

(** [lstrip] takes a blank part from the front. *)
Lemma lstrip_split s : exists a, s = a +:+ PyStr.lstrip s /\ PyStr.lstrip a = "".
Proof.
  induction s as [s IH] using lstrip_induction. rewrite (lstrip_eq s).
  destruct (PyStr.behind PyStr.whitespace s) as [r|] eqn:E.
  - destruct (IH r eq_refl) as (a & Ha & Hb).
    apply behind_some in E as (t & Hin & ->). exists (t +:+ a).
    split; [rewrite append_assoc, <- Ha; reflexivity|].
    rewrite lstrip_eq, (behind_whitespace _ _ Hin). exact Hb.
  - exists "". split; reflexivity.
Qed.

Lemma lstrip_length s : (String.length (PyStr.lstrip s) <= String.length s)%nat.
Proof.
  destruct (lstrip_split s) as (a & H & _). rewrite H at 2. rewrite length_append. lia.
Qed.

Lemma lstrip_fixed_inv s : PyStr.lstrip s = s -> PyStr.behind PyStr.whitespace s = None.
Proof. intros H. rewrite <- H. apply lstrip_done. Qed.

(** A blank front does not count. *)
Lemma lstrip_app_blank x y : PyStr.lstrip x = "" -> PyStr.lstrip (x +:+ y) = PyStr.lstrip y.
Proof.
  induction x as [x IH] using lstrip_induction. intros H. rewrite lstrip_eq in H.
  destruct (PyStr.behind PyStr.whitespace x) as [r|] eqn:E.
  - rewrite lstrip_eq, (behind_whitespace_app _ _ y E). apply IH; [reflexivity | exact H].
  - subst x. reflexivity.
Qed.

(** White space that runs up to an ASCII byte ends there: a text that is
    blank as a whole is blank on either side of that place. *)
Lemma lstrip_blank_cut x c y :
  Utf8.is_ascii c = true ->
  PyStr.lstrip (x +:+ String c y) = "" ->
  PyStr.lstrip x = "" /\ PyStr.lstrip (String c y) = "".
Proof.
  intros Hc. induction x as [x IH] using lstrip_induction. intros H.
  destruct x as [|a x']; [split; [reflexivity | exact H]|].
  rewrite lstrip_eq in H.
  destruct (PyStr.behind PyStr.whitespace (String a x' +:+ String c y)) as [r|] eqn:E;
    [|discriminate H].
  apply behind_some in E as (t & Hin & E).
  apply append_cut in E as [(x1 & E1 & ->) | (d & t' & -> & E2)].
  - assert (Hb : PyStr.behind PyStr.whitespace (String a x') = Some x1)
      by (rewrite E1; apply behind_whitespace, Hin).
    destruct (IH x1 Hb H) as [H1 H2]. split; [|exact H2].
    rewrite lstrip_eq, Hb. exact H1.
  - exfalso. rewrite append_cons in E2. injection E2 as <- _.
    apply whitespace_token in Hin as (c0 & rest & Et & Hrest).
    rewrite append_cons in Et. injection Et as _ <-.
    apply no_ascii_app in Hrest. congruence.
Qed.

(** A text that begins with no white space keeps doing so when a text
    that begins with an ASCII byte is put behind it. *)
Lemma behind_whitespace_joint x c y :
  x <> "" -> Utf8.is_ascii c = true ->
  PyStr.behind PyStr.whitespace x = None ->
  PyStr.behind PyStr.whitespace (x +:+ String c y) = None.
Proof.
  intros Hx Hc Hn.
  destruct (PyStr.behind PyStr.whitespace (x +:+ String c y)) as [r|] eqn:E; [|reflexivity].
  exfalso. apply behind_some in E as (t & Hin & E).
  apply append_cut in E as [(x1 & E1 & ->) | (d & t' & -> & E2)].
  - apply (behind_none _ _ t x1 Hn Hin), E1.
  - rewrite append_cons in E2. injection E2 as <- _.
    apply whitespace_token in Hin as (c0 & rest & Et & Hrest).
    destruct x as [|a x']; [contradiction|].
    rewrite append_cons in Et. injection Et as _ <-.
    apply no_ascii_app in Hrest. congruence.
Qed.

Lemma rstrip_cons c s :
  PyStr.rstrip (String c s)
  = if PyStr.is_empty (PyStr.lstrip (String c s)) then "" else String c (PyStr.rstrip s).
Proof. reflexivity. Qed.

Lemma is_empty_true s : PyStr.is_empty s = true <-> s = "".
Proof. destruct s; split; (reflexivity || discriminate). Qed.

Lemma rstrip_blank s : PyStr.lstrip s = "" -> PyStr.rstrip s = "".
Proof. destruct s as [|c s]; [reflexivity|]. intros H. rewrite rstrip_cons, H. reflexivity. Qed.

(** [rstrip] takes a blank part from the end. *)
Lemma rstrip_split s : exists w, s = PyStr.rstrip s +:+ w /\ PyStr.lstrip w = "".
Proof.
  induction s as [|c s (w & Hs & Hw)]; [exists ""; split; reflexivity|].
  rewrite rstrip_cons. destruct (PyStr.is_empty (PyStr.lstrip (String c s))) eqn:E.
  - apply is_empty_true in E. exists (String c s). split; [reflexivity | exact E].
  - exists w. split; [rewrite append_cons, <- Hs; reflexivity | exact Hw].
Qed.

Lemma rstrip_length s : (String.length (PyStr.rstrip s) <= String.length s)%nat.
Proof.
  destruct (rstrip_split s) as (w & H & _). rewrite H at 2. rewrite length_append. lia.
Qed.

Lemma rstrip_idempotent s : PyStr.rstrip (PyStr.rstrip s) = PyStr.rstrip s.
Proof.
  induction s as [|c s IH]; [reflexivity|].
  rewrite rstrip_cons. destruct (PyStr.is_empty (PyStr.lstrip (String c s))) eqn:E;
    [reflexivity|].
  rewrite rstrip_cons, IH.
  destruct (PyStr.is_empty (PyStr.lstrip (String c (PyStr.rstrip s)))) eqn:E'; [|reflexivity].
  exfalso. apply is_empty_true in E'.
  destruct (rstrip_split s) as (w & Hs & Hw).
  assert (H : PyStr.lstrip (String c s) = "").
  { rewrite Hs, <- append_cons, (lstrip_app_blank _ _ E'). exact Hw. }
  rewrite H in E. discriminate E.
Qed.

(** An ASCII byte is where white space to the end can be told from the
    rest: behind it, [rstrip] works on its own. *)
Lemma rstrip_joint a c b :
  Utf8.is_ascii c = true ->
  PyStr.rstrip (String c b) <> "" ->
  PyStr.rstrip (a +:+ String c b) = a +:+ PyStr.rstrip (String c b).
Proof.
  intros Hc Hb. induction a as [|d a IH]; [reflexivity|].
  rewrite !append_cons, rstrip_cons, IH.
  destruct (PyStr.is_empty (PyStr.lstrip (String d (a +:+ String c b)))) eqn:E; [|reflexivity].
  exfalso. apply is_empty_true in E. rewrite <- append_cons in E.
  apply lstrip_blank_cut in E as [_ E]; [|exact Hc]. apply Hb, rstrip_blank, E.
Qed.

Lemma rstrip_joint_blank a c b :
  Utf8.is_ascii c = true ->
  PyStr.lstrip (String c b) = "" ->
  PyStr.rstrip (a +:+ String c b) = PyStr.rstrip a.
Proof.
  intros Hc Hb. induction a as [|d a IH]; [apply rstrip_blank, Hb|].
  rewrite append_cons, !rstrip_cons, IH.
  replace (PyStr.is_empty (PyStr.lstrip (String d (a +:+ String c b))))
    with (PyStr.is_empty (PyStr.lstrip (String d a))); [reflexivity|].
  apply eq_true_iff_eq. rewrite !is_empty_true, <- append_cons. split.
  - intros H. rewrite (lstrip_app_blank _ _ H). exact Hb.
  - intros H. apply lstrip_blank_cut in H as [H _]; [exact H | exact Hc].
Qed.

Lemma strip_lstrip s : PyStr.lstrip (PyStr.strip s) = PyStr.strip s.
Proof.
  unfold PyStr.strip. apply lstrip_fixed.
  destruct (PyStr.behind PyStr.whitespace (PyStr.rstrip (PyStr.lstrip s))) as [r|] eqn:E;
    [|reflexivity].
  exfalso. destruct (rstrip_split (PyStr.lstrip s)) as (w & Hs & _).
  pose proof (lstrip_done s) as Hd. rewrite Hs in Hd.
  rewrite (behind_whitespace_app _ _ w E) in Hd. discriminate Hd.
Qed.

Lemma rstrip_strip s : PyStr.rstrip (PyStr.strip s) = PyStr.strip s.
Proof. unfold PyStr.strip. apply rstrip_idempotent. Qed.

Lemma strip_idempotent s : PyStr.strip (PyStr.strip s) = PyStr.strip s.
Proof. unfold PyStr.strip at 1. rewrite strip_lstrip. apply rstrip_strip. Qed.

(** A trimmed text is trimmed on either side. *)
Lemma clean_lstrip s : PyStr.strip s = s -> PyStr.lstrip s = s.
Proof. intros H. rewrite <- H. apply strip_lstrip. Qed.

Lemma clean_rstrip s : PyStr.strip s = s -> PyStr.rstrip s = s.
Proof. intros H. rewrite <- H at 1. rewrite rstrip_strip. exact H. Qed.

Lemma truthy_nonempty s : PyStr.truthy s = true <-> s <> EmptyString.
Proof. destruct s; unfold PyStr.truthy; simpl; split; intros; congruence. Qed.

(** ** Lines *)

Lemma linebreak_token t :
  In t PyStr.linebreaks ->
  (exists c rest, t = String c rest) /\ PyStr.cut_ok PyStr.linebreaks "" t = true.
Proof.
  assert (H : forallb (fun t => negb (PyStr.is_empty t)
                                && PyStr.cut_ok PyStr.linebreaks "" t)
                PyStr.linebreaks = true) by (vm_compute; reflexivity).
  rewrite forallb_forall in H. intros Hin. apply H in Hin.
  apply andb_prop in Hin as [Hne Hcut]. split; [|exact Hcut].
  destruct t as [|c rest]; [discriminate|]. eauto.
Qed.

Lemma cut_ok_cons tokens x c rest :
  PyStr.cut_ok tokens x (String c rest)
  = (PyStr.is_empty x || negb (Utf8.is_ascii c)
     || match PyStr.behind tokens x with Some _ => true | None => false end)
    && PyStr.cut_ok tokens (x +:+ String c "") rest.
Proof. reflexivity. Qed.

(** A token that is cut before an ASCII byte leaves a part that begins
    with a token. *)
Lemma cut_ok_spec tokens q :
  forall p d t',
    PyStr.cut_ok tokens p (q +:+ String d t') = true ->
    p +:+ q <> "" -> Utf8.is_ascii d = true ->
    PyStr.behind tokens (p +:+ q) <> None.
Proof.
  induction q as [|a q IH]; intros p d t' H Hne Hd.
  - change ("" +:+ String d t') with (String d t') in H. rewrite cut_ok_cons in H.
    rewrite append_nil_r in Hne |- *.
    apply andb_prop in H as [H _]. rewrite Hd in H. simpl in H.
    destruct p; [contradiction|]. simpl in H.
    destruct (PyStr.behind tokens (String a p)); [discriminate | discriminate H].
  - rewrite append_cons, cut_ok_cons in H. apply andb_prop in H as [_ H].
    replace (p +:+ String a q) with ((p +:+ String a "") +:+ q)
      by (rewrite append_assoc; reflexivity).
    apply (IH _ d t' H); [|exact Hd].
    rewrite append_assoc. destruct p; discriminate.
Qed.

Lemma behind_linebreaks_joint x c y :
  x <> "" -> Utf8.is_ascii c = true ->
  PyStr.behind PyStr.linebreaks x = None ->
  PyStr.behind PyStr.linebreaks (x +:+ String c y) = None.
Proof.
  intros Hx Hc Hn.
  destruct (PyStr.behind PyStr.linebreaks (x +:+ String c y)) as [r|] eqn:E; [|reflexivity].
  exfalso. apply behind_some in E as (t & Hin & E).
  apply append_cut in E as [(x1 & E1 & ->) | (d & t' & -> & E2)].
  - apply (behind_none _ _ t x1 Hn Hin), E1.
  - rewrite append_cons in E2. injection E2 as <- _.
    apply linebreak_token in Hin as [_ Hcut].
    apply (cut_ok_spec _ x "" c t' Hcut); [exact Hx | exact Hc | exact Hn].
Qed.

Lemma behind_linebreaks_shorter s r :
  PyStr.behind PyStr.linebreaks s = Some r -> (String.length r < String.length s)%nat.
Proof.
  intros H. apply behind_some in H as (t & Hin & ->).
  apply linebreak_token in Hin as [(c & rest & ->) _].
  rewrite length_append. simpl. lia.
Qed.

Lemma splitlines_within_enough n :
  forall m s, (String.length s <= n)%nat -> (String.length s <= m)%nat ->
              PyStr.splitlines_within n s = PyStr.splitlines_within m s.
Proof.
  induction n as [|n IH]; intros m s Hn Hm.
  - destruct s; [|simpl in Hn; lia]. destruct m; reflexivity.
  - destruct m as [|m].
    + destruct s; [reflexivity | simpl in Hm; lia].
    + cbn [PyStr.splitlines_within]. destruct s as [|c s]; [reflexivity|].
      simpl in Hn, Hm.
      destruct (PyStr.behind PyStr.linebreaks (String c s)) as [r|] eqn:E.
      * apply behind_linebreaks_shorter in E. simpl in E. f_equal. apply IH; lia.
      * f_equal. apply IH; lia.
Qed.

(** The equation of [splitlines]. *)
Lemma splitlines_eq c s :
  PyStr.splitlines (String c s)
  = match PyStr.behind PyStr.linebreaks (String c s) with
    | Some r => "" :: PyStr.splitlines r
    | None => PyStr.cons_char c (PyStr.splitlines s)
    end.
Proof.
  unfold PyStr.splitlines. cbn [String.length PyStr.splitlines_within].
  destruct (PyStr.behind PyStr.linebreaks (String c s)) as [r|] eqn:E.
  - apply behind_linebreaks_shorter in E. simpl in E. f_equal.
    apply splitlines_within_enough; lia.
  - reflexivity.
Qed.

Lemma free_of_cons tokens c s :
  PyStr.free_of tokens (String c s)
  = match PyStr.behind tokens (String c s) with
    | Some _ => false
    | None => PyStr.free_of tokens s
    end.
Proof. reflexivity. Qed.

(** A text without line boundary is one line. *)
Lemma splitlines_one s :
  s <> "" -> PyStr.free_of PyStr.linebreaks s = true -> PyStr.splitlines s = [s].
Proof.
  induction s as [|c s IH]; [contradiction|].
  intros _ H. rewrite free_of_cons in H. rewrite splitlines_eq.
  destruct (PyStr.behind PyStr.linebreaks (String c s)); [discriminate|].
  destruct s as [|c' s]; [reflexivity|]. rewrite IH by (discriminate || exact H).
  reflexivity.
Qed.

Lemma free_of_joint x c y :
  Utf8.is_ascii c = true ->
  PyStr.free_of PyStr.linebreaks x = true ->
  PyStr.free_of PyStr.linebreaks (String c y) = true ->
  PyStr.free_of PyStr.linebreaks (x +:+ String c y) = true.
Proof.
  intros Hc Hx Hy. induction x as [|a x IH]; [exact Hy|].
  rewrite free_of_cons in Hx.
  destruct (PyStr.behind PyStr.linebreaks (String a x)) eqn:E; [discriminate|].
  rewrite append_cons, free_of_cons, <- append_cons.
  rewrite behind_linebreaks_joint by (discriminate || assumption).
  apply IH, Hx.
Qed.

(** ** Lower case *)

Lemma encode_cp_nonempty c : Utf8.encode_cp c <> "".
Proof.
  unfold Utf8.encode_cp.
  repeat match goal with |- context [if ?b then _ else _] => destruct b end; discriminate.
Qed.

Lemma chars_head b0 s :
  exists c b rest, Utf8.chars (String b0 s) = (c, String b0 b) :: rest.
Proof.
  cbn [Utf8.chars]. unfold Utf8.stray.
  repeat match goal with
         | |- context [if ?b then _ else _] => destruct b
         | |- context [match ?x with EmptyString => _ | String _ _ => _ end] => destruct x
         end; eauto.
Qed.

Lemma append_nonempty a b : a <> "" -> a +:+ b <> "".
Proof. destruct a; [contradiction | discriminate]. Qed.

Lemma truthy_lower s : PyStr.truthy (PyStr.lower s) = PyStr.truthy s.
Proof.
  destruct s as [|b0 s]; [reflexivity|].
  unfold PyStr.lower. destruct (chars_head b0 s) as (c & b & rest & ->).
  simpl PyStr.truthy at 2. apply truthy_nonempty. cbn [PyStr.lower_from].
  apply append_nonempty.
  repeat match goal with |- context [if ?b then _ else _] => destruct b end;
    try apply encode_cp_nonempty; try (apply append_nonempty, encode_cp_nonempty).
  destruct (Unicode.to_lower c); [apply encode_cp_nonempty | discriminate].
Qed.

(** ** Lower case and ASCII patterns *)

Lemma lower_char_idempotent c : PyStr.lower_char (PyStr.lower_char c) = PyStr.lower_char c.
Proof.
  destruct c as [[] [] [] [] [] [] [] []]; reflexivity.
Qed.

Lemma prefix_cons a p b t :
  String.prefix (String a p) (String b t) = Ascii.eqb a b && String.prefix p t.
Proof.
  simpl. destruct (ascii_dec a b) as [-> | Hne].
  - rewrite Ascii.eqb_refl. reflexivity.
  - apply Ascii.eqb_neq in Hne. rewrite Hne. reflexivity.
Qed.

Lemma tame_cons c p :
  tame (String c p) = true ->
  Utf8.is_ascii c = true /\ c <> "k"%char /\ String c p <> "i" /\ tame p = true.
Proof.
  cbn [tame]. rewrite !andb_true_iff, !negb_true_iff.
  intros [[[H1 H2] H3] H4]. repeat split; try assumption.
  - apply Ascii.eqb_neq, H2.
  - apply String.eqb_neq, H3.
Qed.

Lemma prefix_barrier p x t :
  tame p = true -> p <> "" -> x <> "" -> PyStr.no_ascii x = true ->
  String.prefix p (x +:+ t) = false.
Proof.
  intros Hp Hne Hx Hn. destruct p as [|c p]; [contradiction|].
  destruct x as [|b x]; [contradiction|].
  apply tame_cons in Hp as (Hc & _). simpl in Hn. apply andb_prop in Hn as [Hb _].
  change (String b x +:+ t) with (String b (x +:+ t)). rewrite prefix_cons.
  destruct (Ascii.eqb_spec c b) as [-> | _]; [|reflexivity].
  rewrite Hc in Hb. discriminate Hb.
Qed.

Lemma prefix_kelvin p t :
  tame p = true -> p <> "" -> String.prefix p (String "k" t) = false.
Proof.
  intros Hp Hne. destruct p as [|c p]; [contradiction|].
  apply tame_cons in Hp as (_ & Hk & _). rewrite prefix_cons.
  destruct (Ascii.eqb_spec c "k"); [contradiction | reflexivity].
Qed.

Lemma prefix_dotted p w t :
  tame p = true -> p <> "" -> w <> "" -> PyStr.no_ascii w = true ->
  String.prefix p (String "i" (w +:+ t)) = false.
Proof.
  intros Hp Hne Hw Hn. destruct p as [|c p]; [contradiction|].
  apply tame_cons in Hp as (_ & _ & Hi & Hp). rewrite prefix_cons.
  destruct (Ascii.eqb_spec c "i") as [-> | _]; [|reflexivity].
  simpl. apply prefix_barrier; try assumption. intros ->. contradiction.
Qed.

Lemma contains_cons m b t :
  PyStr.contains m (String b t) = String.prefix m (String b t) || PyStr.contains m t.
Proof. reflexivity. Qed.

Lemma no_ascii_cons b x :
  PyStr.no_ascii (String b x) = true -> Utf8.is_ascii b = false /\ PyStr.no_ascii x = true.
Proof.
  simpl. intros H. apply andb_prop in H as [H1 H2]. split; [|exact H2].
  apply negb_true_iff, H1.
Qed.

Lemma contains_barrier m x t :
  tame m = true -> m <> "" -> PyStr.no_ascii x = true ->
  PyStr.contains m (x +:+ t) = PyStr.contains m t.
Proof.
  intros Hm Hne. induction x as [|b x IH]; intros Hn; [reflexivity|].
  change (String b x +:+ t) with (String b (x +:+ t)).
  rewrite contains_cons.
  change (String b (x +:+ t)) with (String b x +:+ t).
  rewrite prefix_barrier by (assumption || discriminate).
  apply no_ascii_cons in Hn as [_ Hn]. apply IH, Hn.
Qed.

Lemma is_ascii_of_N n : (n < 256)%N -> Utf8.is_ascii (ascii_of_N n) = (n <? 128)%N.
Proof.
  intros H. unfold Utf8.is_ascii, Utf8.byte. rewrite N_ascii_embedding by exact H.
  reflexivity.
Qed.

Lemma high_byte n : (128 <= n < 256)%N -> negb (Utf8.is_ascii (ascii_of_N n)) = true.
Proof.
  intros H. rewrite is_ascii_of_N by lia. apply negb_true_iff, N.ltb_ge. lia.
Qed.

Lemma encode_cp_barrier l :
  (128 <= l < 1114112)%N -> PyStr.no_ascii (Utf8.encode_cp l) = true.
Proof.
  intros H. unfold Utf8.encode_cp.
  destruct (N.ltb_spec l 128); [lia|].
  pose proof (N.mod_lt l 64 ltac:(lia)) as M0.
  pose proof (N.mod_lt (l / 64) 64 ltac:(lia)) as M1.
  pose proof (N.mod_lt (l / 4096) 64 ltac:(lia)) as M2.
  assert (D0 : (l < 2048 -> l / 64 < 32)%N)
    by (intros; apply N.Div0.div_lt_upper_bound; lia).
  assert (D1 : (l < 65536 -> l / 4096 < 16)%N)
    by (intros; apply N.Div0.div_lt_upper_bound; lia).
  assert (D2 : (l < 1114112 -> l / 262144 < 5)%N)
    by (intros; apply N.Div0.div_lt_upper_bound; lia).
  generalize dependent (l mod 64)%N. generalize dependent ((l / 64) mod 64)%N.
  generalize dependent ((l / 4096) mod 64)%N. generalize dependent (l / 64)%N.
  generalize dependent (l / 4096)%N. generalize dependent (l / 262144)%N.
  intros q3 D2 q2 D1 q1 D0 r2 M2 r1 M1 r0 M0.
  destruct (N.ltb_spec l 2048).
  { cbn [Utf8.of_bytes PyStr.no_ascii]. rewrite !high_byte by lia. reflexivity. }
  destruct (N.ltb_spec l 65536).
  { cbn [Utf8.of_bytes PyStr.no_ascii]. rewrite !high_byte by lia. reflexivity. }
  destruct (N.ltb_spec l 1114112); [|lia].
  cbn [Utf8.of_bytes PyStr.no_ascii]. rewrite !high_byte by lia. reflexivity.
Qed.

Lemma to_lower_run c l :
  Unicode.to_lower c = Some l ->
  exists first last step image,
    In (first, last, step, image) Unicode.lower_runs
    /\ (first <= c <= last)%N /\ l = (image + (c - first))%N.
Proof.
  unfold Unicode.to_lower.
  destruct (List.filter _ Unicode.lower_runs) as [|[[[first last] step] image] rest] eqn:E;
    [discriminate|].
  intros [= <-].
  assert (Hin : In (first, last, step, image)
                   (List.filter
                      (fun r => let '(first, last, step, _) := r in
                                ((first <=? c) && (c <=? last)
                                 && ((c - first) mod step =? 0))%N)
                      Unicode.lower_runs))
    by (rewrite E; left; reflexivity).
  apply filter_In in Hin as [Hin Hc].
  apply andb_prop in Hc as [Hc _]. apply andb_prop in Hc as [H1 H2].
  apply N.leb_le in H1, H2.
  exists first, last, step, image. repeat split; assumption.
Qed.

Lemma lower_runs_ok : forallb run_ok Unicode.lower_runs = true.
Proof. vm_compute. reflexivity. Qed.

Lemma to_lower_high c l :
  (128 <= c)%N -> Unicode.to_lower c = Some l ->
  (c = 8490%N /\ l = 107%N) \/ (128 <= l < 1114112)%N.
Proof.
  intros Hc H. apply to_lower_run in H as (first & last & step & image & Hin & Hr & ->).
  pose proof (proj1 (forallb_forall run_ok Unicode.lower_runs) lower_runs_ok _ Hin) as Hok.
  unfold run_ok in Hok. rewrite !orb_true_iff, !andb_true_iff in Hok.
  destruct Hok as [[Hok | [[H1 H2] H3]] | [H1 H2]].
  - apply N.ltb_lt in Hok. lia.
  - apply N.eqb_eq in H1, H2, H3. left. lia.
  - apply N.leb_le in H1. apply N.ltb_lt in H2. right. lia.
Qed.

Lemma low_ok_all : forallb low_ok (map N.of_nat (seq 0 128)) = true.
Proof. vm_compute. reflexivity. Qed.

Lemma low_ok_spec c :
  low_ok c = true ->
  match Unicode.to_lower c with
  | Some l => Utf8.encode_cp l
  | None => String (ascii_of_N c) ""
  end = String (PyStr.lower_char (ascii_of_N c)) "".
Proof. unfold low_ok. apply String.eqb_eq. Qed.

Lemma low_in c : (c < 128)%N -> In c (map N.of_nat (seq 0 128)).
Proof.
  intros Hc. apply in_map_iff. exists (N.to_nat c). split; [apply N2Nat.id|].
  apply in_seq. lia.
Qed.

Lemma to_lower_low c :
  (c < 128)%N ->
  match Unicode.to_lower c with
  | Some l => Utf8.encode_cp l
  | None => String (ascii_of_N c) ""
  end = String (PyStr.lower_char (ascii_of_N c)) "".
Proof.
  intros Hc. apply low_ok_spec.
  exact (proj1 (forallb_forall low_ok (map N.of_nat (seq 0 128))) low_ok_all c (low_in c Hc)).
Qed.

Lemma lower_ascii_app a b :
  PyStr.lower_ascii (a +:+ b) = PyStr.lower_ascii a +:+ PyStr.lower_ascii b.
Proof. induction a as [|c a IH]; [reflexivity|]. simpl. rewrite IH. reflexivity. Qed.

Lemma lower_char_high b : Utf8.is_ascii b = false -> PyStr.lower_char b = b.
Proof.
  unfold Utf8.is_ascii, Utf8.byte, PyStr.lower_char. intros H. apply N.ltb_ge in H.
  assert (Hn : (128 <= nat_of_ascii b)%nat).
  { unfold nat_of_ascii. lia. }
  destruct (Nat.leb_spec 65 (nat_of_ascii b)); [|reflexivity].
  destruct (Nat.leb_spec (nat_of_ascii b) 90); [lia | reflexivity].
Qed.

Lemma lower_ascii_barrier x : PyStr.no_ascii x = true -> PyStr.lower_ascii x = x.
Proof.
  induction x as [|b x IH]; [reflexivity|]. intros H.
  apply no_ascii_cons in H as [Hb Hx]. simpl. rewrite (lower_char_high _ Hb), (IH Hx).
  reflexivity.
Qed.

Lemma is_cont_high b : Utf8.is_cont b = true -> negb (Utf8.is_ascii b) = true.
Proof.
  unfold Utf8.is_cont, Utf8.is_ascii. intros H. apply andb_prop in H as [H _].
  apply N.leb_le in H. apply negb_true_iff, N.ltb_ge. exact H.
Qed.

Lemma stray_ok b0 :
  (128 <= Utf8.byte b0)%N -> char_ok (Utf8.stray b0).
Proof.
  intros H. right. cbn [Utf8.stray fst snd PyStr.no_ascii].
  split; [lia|]. split; [discriminate|].
  unfold Utf8.is_ascii. replace (Utf8.byte b0 <? 128)%N with false; [reflexivity|].
  symmetry. apply N.ltb_ge, H.
Qed.

Lemma chars_step b0 s :
  exists x s',
    Utf8.chars (String b0 s) = x :: Utf8.chars s'
    /\ String b0 s = snd x +:+ s'
    /\ (String.length s' < String.length (String b0 s))%nat
    /\ char_ok x.
Proof.
  cbn [Utf8.chars]. cbv zeta.
  destruct (N.ltb_spec (Utf8.byte b0) 128) as [H0 | H0].
  { exists (Utf8.byte b0, String b0 ""), s. repeat split; [simpl; lia|].
    left. cbn [fst snd]. split; [exact H0|].
    unfold Utf8.byte. rewrite ascii_N_embedding. reflexivity. }
  assert (Hb0 : negb (Utf8.is_ascii b0) = true).
  { unfold Utf8.is_ascii. apply negb_true_iff, N.ltb_ge, H0. }
  assert (Hstray : exists x s',
             Utf8.stray b0 :: Utf8.chars s = x :: Utf8.chars s'
             /\ String b0 s = snd x +:+ s'
             /\ (String.length s' < String.length (String b0 s))%nat
             /\ char_ok x).
  { exists (Utf8.stray b0), s. repeat split; [simpl; lia | apply stray_ok, H0]. }
  set (rest := Utf8.chars s) in *.
  destruct s as [|b1 s2]; [exact Hstray|]. cbv beta iota.
  destruct (_ && Utf8.is_cont b1) eqn:E2.
  { apply andb_prop in E2 as [E2 C1]. apply andb_prop in E2 as [L0 U0].
    apply N.leb_le in L0. apply N.ltb_lt in U0.
    eexists (_, _), s2. split; [reflexivity|]. split; [reflexivity|].
    split; [simpl; lia|]. right. cbn [fst snd PyStr.no_ascii].
    rewrite Hb0, (is_cont_high _ C1).
    split; [|split; [discriminate | reflexivity]].
    assert (Utf8.byte b0 - 192 = Utf8.byte b0 mod 32)%N as <-
      by (apply (N.mod_unique _ 32 6); lia).
    lia. }
  destruct s2 as [|b2 s3]; [exact Hstray|]. cbv beta iota.
  match goal with |- context [if ?c then _ else _] => destruct c eqn:E3 end.
  { rewrite !andb_true_iff in E3. destruct E3 as [[[[_ C1] C2] L3] _].
    apply N.leb_le in L3.
    eexists (_, _), s3. split; [reflexivity|]. split; [reflexivity|].
    split; [simpl; lia|]. right. cbn [fst snd PyStr.no_ascii].
    rewrite Hb0, (is_cont_high _ C1), (is_cont_high _ C2).
    split; [lia | split; [discriminate | reflexivity]]. }
  destruct s3 as [|b3 s4]; [exact Hstray|]. cbv beta iota.
  match goal with |- context [if ?c then _ else _] => destruct c eqn:E4 end;
    [|exact Hstray].
  rewrite !andb_true_iff in E4. destruct E4 as [[[[_ C1] C2] C3] [L4 _]].
  apply N.leb_le in L4.
  eexists (_, _), s4. split; [reflexivity|]. split; [reflexivity|].
  split; [simpl; lia|]. right. cbn [fst snd PyStr.no_ascii].
  rewrite Hb0, (is_cont_high _ C1), (is_cont_high _ C2), (is_cont_high _ C3).
  split; [lia | split; [discriminate | reflexivity]].
Qed.

Lemma chars_ok_within n : forall s,
  (String.length s <= n)%nat ->
  Forall char_ok (Utf8.chars s) /\ bytes_of (Utf8.chars s) = s.
Proof.
  induction n as [|n IH]; intros s Hn.
  - destruct s; [split; [constructor | reflexivity] | simpl in Hn; lia].
  - destruct s as [|b0 s]; [split; [constructor | reflexivity]|].
    destruct (chars_step b0 s) as (x & s' & E & Hs & Hl & Hx).
    destruct (IH s') as [IH1 IH2]; [simpl in Hn, Hl; lia|].
    rewrite E. split; [constructor; assumption|].
    cbn [bytes_of fold_right]. fold (bytes_of (Utf8.chars s')). rewrite IH2.
    symmetry. exact Hs.
Qed.

Lemma chars_ok s : Forall char_ok (Utf8.chars s).
Proof. apply (chars_ok_within (String.length s)). lia. Qed.

Lemma chars_bytes s : bytes_of (Utf8.chars s) = s.
Proof. apply (chars_ok_within (String.length s)). lia. Qed.

Lemma ascii_of_bytes l : ascii_of l = PyStr.lower_ascii (bytes_of l).
Proof.
  induction l as [|x l IH]; [reflexivity|].
  cbn [ascii_of bytes_of fold_right]. fold (ascii_of l). fold (bytes_of l).
  rewrite lower_ascii_app, IH. reflexivity.
Qed.

Lemma lower_ascii_chars s : PyStr.lower_ascii s = ascii_of (Utf8.chars s).
Proof. rewrite ascii_of_bytes, chars_bytes. reflexivity. Qed.

Lemma prefix_nil t : String.prefix "" t = true.
Proof. destruct t; reflexivity. Qed.

Lemma lower_from_cons before c bytes rest :
  PyStr.lower_from before ((c, bytes) :: rest)
  = (if (c =? 931)%N then
       Utf8.encode_cp (if PyStr.final_sigma before (map fst rest) then 962 else 963)%N
     else if (c =? 304)%N then Utf8.encode_cp 105 +:+ Utf8.encode_cp 775
     else match Unicode.to_lower c with
          | Some l => Utf8.encode_cp l
          | None => bytes
          end)
    +:+ PyStr.lower_from (c :: before) rest.
Proof. reflexivity. Qed.

Lemma prefix_same p b t t2 :
  tame p = true ->
  (forall q, tame q = true -> String.prefix q t = String.prefix q t2) ->
  String.prefix p (String b t) = String.prefix p (String b t2).
Proof.
  intros Hp H. destruct p as [|a p]; [reflexivity|].
  rewrite !prefix_cons, (H p) by (apply tame_cons in Hp; tauto). reflexivity.
Qed.

(** A tame pattern occurs in the lower case of a text exactly when it
    occurs in the text with its letters A to Z lowered. *)
Lemma lower_from_agree l :
  Forall char_ok l ->
  forall before,
    (forall p, tame p = true ->
               String.prefix p (PyStr.lower_from before l) = String.prefix p (ascii_of l))
    /\ (forall m, tame m = true -> m <> "" ->
                  PyStr.contains m (PyStr.lower_from before l)
                  = PyStr.contains m (ascii_of l)).
Proof.
  induction 1 as [|[c bytes] l Hx Hl IH]; intros before; [split; reflexivity|].
  destruct (IH (c :: before)) as [IHp IHc]. rewrite lower_from_cons.
  cbn [ascii_of fold_right snd]. fold (ascii_of l).
  set (t := PyStr.lower_from (c :: before) l) in *. set (t2 := ascii_of l) in *.
  destruct Hx as [[Hc Hb] | (Hc & Hne & Hn)]; cbn [fst snd] in *.
  - destruct (N.eqb_spec c 931); [lia|]. destruct (N.eqb_spec c 304); [lia|].
    subst bytes. rewrite (to_lower_low c Hc). cbn [PyStr.lower_ascii].
    change (String ?x "" +:+ ?y) with (String x y).
    split.
    + intros p Hp. apply prefix_same; assumption.
    + intros m Hm Hm0. rewrite !contains_cons, (IHc m Hm Hm0).
      f_equal. apply prefix_same; assumption.
  - rewrite (lower_ascii_barrier _ Hn).
    assert (Hbar : forall out, out <> "" -> PyStr.no_ascii out = true ->
              (forall p, tame p = true ->
                         String.prefix p (out +:+ t) = String.prefix p (bytes +:+ t2))
              /\ (forall m, tame m = true -> m <> "" ->
                            PyStr.contains m (out +:+ t) = PyStr.contains m (bytes +:+ t2))).
    { intros out Ho Hno. split.
      - intros p Hp. destruct p as [|a p]; [rewrite !prefix_nil; reflexivity|].
        rewrite !prefix_barrier by (assumption || discriminate). reflexivity.
      - intros m Hm Hm0. rewrite !contains_barrier by assumption. apply IHc; assumption. }
    destruct (N.eqb_spec c 931) as [_ | _].
    { apply Hbar; destruct (PyStr.final_sigma _ _); (discriminate || reflexivity). }
    destruct (N.eqb_spec c 304) as [_ | _].
    { change ((Utf8.encode_cp 105 +:+ Utf8.encode_cp 775) +:+ t)
        with (String "i" (Utf8.encode_cp 775 +:+ t)).
      split.
      - intros p Hp. destruct p as [|a p]; [rewrite !prefix_nil; reflexivity|].
        rewrite prefix_dotted, prefix_barrier
          by (assumption || discriminate || reflexivity).
        reflexivity.
      - intros m Hm Hm0.
        rewrite contains_cons, prefix_dotted by (assumption || discriminate || reflexivity).
        rewrite !contains_barrier by (assumption || reflexivity).
        apply IHc; assumption. }
    destruct (Unicode.to_lower c) as [low|] eqn:El; [|apply Hbar; assumption].
    destruct (to_lower_high c low Hc El) as [[_ ->] | Hlow].
    + change (Utf8.encode_cp 107 +:+ t) with (String "k" t). split.
      * intros p Hp. destruct p as [|a p]; [rewrite !prefix_nil; reflexivity|].
        rewrite prefix_kelvin, prefix_barrier by (assumption || discriminate).
        reflexivity.
      * intros m Hm Hm0.
        rewrite contains_cons, prefix_kelvin by assumption.
        rewrite contains_barrier by assumption. apply IHc; assumption.
    + apply Hbar; [apply encode_cp_nonempty | apply encode_cp_barrier, Hlow].
Qed.

Lemma contains_lower m s :
  tame m = true -> m <> "" ->
  PyStr.contains m (PyStr.lower s) = PyStr.contains m (PyStr.lower_ascii s).
Proof.
  intros Hm Hne. unfold PyStr.lower. rewrite lower_ascii_chars.
  apply lower_from_agree; [apply chars_ok | exact Hm | exact Hne].
Qed.

(** Lowering the letters A to Z of a text in lower case changes nothing
    for a tame pattern. *)
Lemma lower_from_lowered l :
  Forall char_ok l ->
  forall before,
    (forall p, tame p = true ->
               String.prefix p (PyStr.lower_ascii (PyStr.lower_from before l))
               = String.prefix p (ascii_of l))
    /\ (forall m, tame m = true -> m <> "" ->
                  PyStr.contains m (PyStr.lower_ascii (PyStr.lower_from before l))
                  = PyStr.contains m (ascii_of l)).
Proof.
  induction 1 as [|[c bytes] l Hx Hl IH]; intros before; [split; reflexivity|].
  destruct (IH (c :: before)) as [IHp IHc]. rewrite lower_from_cons, lower_ascii_app.
  cbn [ascii_of fold_right snd]. fold (ascii_of l).
  set (t := PyStr.lower_ascii (PyStr.lower_from (c :: before) l)) in *.
  set (t2 := ascii_of l) in *.
  destruct Hx as [[Hc Hb] | (Hc & Hne & Hn)]; cbn [fst snd] in *.
  - destruct (N.eqb_spec c 931); [lia|]. destruct (N.eqb_spec c 304); [lia|].
    subst bytes. rewrite (to_lower_low c Hc). cbn [PyStr.lower_ascii].
    rewrite lower_char_idempotent.
    change (String ?x "" +:+ ?y) with (String x y).
    split.
    + intros p Hp. apply prefix_same; assumption.
    + intros m Hm Hm0. rewrite !contains_cons, (IHc m Hm Hm0).
      f_equal. apply prefix_same; assumption.
  - rewrite (lower_ascii_barrier _ Hn).
    assert (Hbar : forall out, out <> "" -> PyStr.no_ascii out = true ->
              (forall p, tame p = true ->
                         String.prefix p (PyStr.lower_ascii out +:+ t)
                         = String.prefix p (bytes +:+ t2))
              /\ (forall m, tame m = true -> m <> "" ->
                            PyStr.contains m (PyStr.lower_ascii out +:+ t)
                            = PyStr.contains m (bytes +:+ t2))).
    { intros out Ho Hno. rewrite (lower_ascii_barrier _ Hno). split.
      - intros p Hp. destruct p as [|a p]; [rewrite !prefix_nil; reflexivity|].
        rewrite !prefix_barrier by (assumption || discriminate). reflexivity.
      - intros m Hm Hm0. rewrite !contains_barrier by assumption. apply IHc; assumption. }
    destruct (N.eqb_spec c 931) as [_ | _].
    { apply Hbar; destruct (PyStr.final_sigma _ _); (discriminate || reflexivity). }
    destruct (N.eqb_spec c 304) as [_ | _].
    { change (PyStr.lower_ascii (Utf8.encode_cp 105 +:+ Utf8.encode_cp 775) +:+ t)
        with (String "i" (Utf8.encode_cp 775 +:+ t)).
      split.
      - intros p Hp. destruct p as [|a p]; [rewrite !prefix_nil; reflexivity|].
        rewrite prefix_dotted, prefix_barrier
          by (assumption || discriminate || reflexivity).
        reflexivity.
      - intros m Hm Hm0.
        rewrite contains_cons, prefix_dotted by (assumption || discriminate || reflexivity).
        rewrite !contains_barrier by (assumption || reflexivity).
        apply IHc; assumption. }
    destruct (Unicode.to_lower c) as [low|] eqn:El; [|apply Hbar; assumption].
    destruct (to_lower_high c low Hc El) as [[_ ->] | Hlow].
    + change (PyStr.lower_ascii (Utf8.encode_cp 107) +:+ t) with (String "k" t). split.
      * intros p Hp. destruct p as [|a p]; [rewrite !prefix_nil; reflexivity|].
        rewrite prefix_kelvin, prefix_barrier by (assumption || discriminate).
        reflexivity.
      * intros m Hm Hm0.
        rewrite contains_cons, prefix_kelvin by assumption.
        rewrite contains_barrier by assumption. apply IHc; assumption.
    + apply Hbar; [apply encode_cp_nonempty | apply encode_cp_barrier, Hlow].
Qed.

Lemma contains_lower_twice m s :
  tame m = true -> m <> "" ->
  PyStr.contains m (PyStr.lower (PyStr.lower s)) = PyStr.contains m (PyStr.lower s).
Proof.
  intros Hm Hne. rewrite (contains_lower m (PyStr.lower s)), (contains_lower m s)
    by assumption.
  rewrite (lower_ascii_chars s). unfold PyStr.lower.
  apply lower_from_lowered; [apply chars_ok | exact Hm | exact Hne].
Qed.

(** [is_manifest_url] with only the letters A to Z lowered. *)
Lemma is_manifest_url_ascii u :
  is_manifest_url u
  = if negb (PyStr.truthy u) then false
    else PyStr.contains ".m3u8" (PyStr.lower_ascii u)
         || PyStr.contains "manifest" (PyStr.lower_ascii u)
         || PyStr.contains "hls_playlist" (PyStr.lower_ascii u).
Proof.
  unfold is_manifest_url. cbv zeta.
  rewrite !contains_lower by (reflexivity || discriminate). reflexivity.
Qed.

(** ** Decimal digits *)

Lemma int_of_digits_nonneg s : 0 <= PyStr.int_of_digits s.
Proof.
  unfold PyStr.int_of_digits.
  assert (H : forall (l : list (N * string)) acc, 0 <= acc ->
                0 <= fold_left (fun acc c => 10 * acc + PyStr.digit_value (fst c)) l acc).
  { induction l as [|x l IH]; intros acc Hacc; [exact Hacc|].
    simpl. apply IH. unfold PyStr.digit_value.
    destruct (Unicode.decimal (fst x)); lia. }
  apply H. lia.
Qed.

(** ** Whole seconds *)

Lemma round_half_even_nonneg n d : 0 <= n -> 0 < d -> 0 <= round_half_even n d.
Proof.
  intros Hn Hd. unfold round_half_even.
  pose proof (Z.div_pos n d Hn Hd).
  destruct (_ <? _); [lia|]. destruct (_ <? _); [lia|]. destruct (Z.even _); lia.
Qed.

Lemma true_divide_int_sign a b : 0 < b -> a <= 0 -> true_divide_int a b <= 0.
Proof.
  intros Hb Ha. unfold true_divide_int.
  destruct (Z.abs a =? 0); [lia|]. cbv zeta.
  set (shift := _ - 52).
  assert (Hm : 0 <= (if 0 <=? shift
                     then round_half_even (Z.abs a) (b * 2 ^ shift)
                     else round_half_even (Z.abs a * 2 ^ (- shift)) b)).
  { destruct (Z.leb_spec 0 shift).
    - apply round_half_even_nonneg; [lia|].
      apply Z.mul_pos_pos; [exact Hb | apply Z.pow_pos_nonneg; lia].
    - apply round_half_even_nonneg; [|exact Hb].
      apply Z.mul_nonneg_nonneg; [lia | apply Z.pow_nonneg; lia]. }
  set (m := if 0 <=? shift then _ else _) in *.
  assert (Hv : 0 <= (if 0 <=? shift then m * 2 ^ shift else m / 2 ^ (- shift))).
  { destruct (Z.leb_spec 0 shift).
    - apply Z.mul_nonneg_nonneg; [exact Hm | apply Z.pow_nonneg; lia].
    - apply Z.div_pos; [exact Hm | apply Z.pow_pos_nonneg; lia]. }
  pose proof (proj2 (Z.sgn_nonpos a) Ha). nia.
Qed.

Lemma total_seconds_nonpositive delta : delta <= 0 -> total_seconds_int delta <= 0.
Proof. apply true_divide_int_sign. lia. Qed.

Lemma round_half_even_near n d :
  0 <= n -> 0 < d -> 2 * n - d <= 2 * d * round_half_even n d <= 2 * n + d.
Proof.
  intros Hn Hd. unfold round_half_even.
  pose proof (Z.div_mod n d ltac:(lia)) as E.
  pose proof (Z.mod_pos_bound n d Hd) as B.
  destruct (Z.ltb_spec (2 * (n mod d)) d); [nia|].
  destruct (Z.ltb_spec d (2 * (n mod d))); [nia|].
  destruct (Z.even (n / d)); nia.
Qed.

Lemma true_divide_int_small a :
  Z.abs a < 2 ^ 34 * 1000000 -> true_divide_int a 1000000 = Z.quot a 1000000.
Proof.
  intros Ha. unfold true_divide_int.
  destruct (Z.eqb_spec (Z.abs a) 0) as [H0 | H0].
  { assert (a = 0) by lia. subst a. reflexivity. }
  cbv zeta. set (n := Z.abs a) in *. set (b := 1000000) in *.
  assert (Hn : 0 < n) by lia.
  change (Z.log2 b) with 19.
  assert (Hlog : Z.log2 n < 54).
  { apply Z.log2_lt_pow2; [exact Hn|]. subst b.
    change (2 ^ 54) with 18014398509481984. change (2 ^ 34) with 17179869184 in Ha. lia. }
  set (k := Z.log2 n - 19) in *.
  set (e := if (if 0 <=? k then b * 2 ^ k <=? n else b <=? n * 2 ^ (- k))
            then k else k - 1).
  assert (He : e <= 33).
  { subst e. destruct (Z.leb_spec 0 k) as [Hk | Hk]; [|destruct (_ <=? _); lia].
    destruct (Z.leb_spec (b * 2 ^ k) n) as [Hc | Hc]; [|lia].
    destruct (Z.le_gt_cases k 33) as [|Hbig]; [assumption|]. exfalso.
    assert (2 ^ 34 <= 2 ^ k) by (apply Z.pow_le_mono_r; lia).
    subst b. nia. }
  set (shift := e - 52). destruct (Z.leb_spec 0 shift) as [Hs | Hs]; [lia|].
  set (P := 2 ^ (- shift)).
  assert (HP : 2 ^ 19 <= P) by (apply Z.pow_le_mono_r; lia).
  change (2 ^ 19) with 524288 in HP.
  pose proof (round_half_even_near (n * P) b ltac:(nia) ltac:(subst b; lia)) as [Hlo Hhi].
  set (m := round_half_even (n * P) b) in *.
  pose proof (Z.div_mod n b ltac:(subst b; lia)) as E.
  pose proof (Z.mod_pos_bound n b ltac:(subst b; lia)) as B.
  assert (Hq : m / P = n / b).
  { symmetry. apply Z.div_unique with (m - P * (n / b)); [|lia].
    left. subst b. nia. }
  rewrite Hq, Z.quot_div by (subst b; lia).
  change (Z.sgn b) with 1. change (Z.abs b) with b. fold n. lia.
Qed.

(** Below 2^34 seconds (544 years) the double is near enough to the
    quotient: the whole seconds are the delta cut towards zero. *)
Lemma total_seconds_int_small delta :
  Z.abs delta < 2 ^ 34 * 1000000 -> total_seconds_int delta = Z.quot delta 1000000.
Proof. apply true_divide_int_small. Qed.

(** ** The primitives on sample inputs

    [strip] removes the no-break space, the em space and the ideographic
    space like any other white space; [lower] maps every cased letter,
    the capital sigma by its position; [splitlines] cuts at NEL and at the
    line and paragraph separators; [EXPIRE_RE] matches without regard to
    case and takes the digits of any script, which [int] reads; and the
    whole seconds of a delta go through a double. *)

Example strip_unicode :
  PyStr.strip (Utf8.encode_cp 8195 +:+ "http://a" +:+ Utf8.encode_cp 160
               +:+ Utf8.encode_cp 12288)
  = "http://a"
  /\ PyStr.strip (Utf8.encode_cp 160) = ""
  /\ PyStr.strip ("a" +:+ Utf8.encode_cp 160 +:+ "b") = "a" +:+ Utf8.encode_cp 160 +:+ "b".
Proof. vm_compute. repeat split; reflexivity. Qed.

Example lower_unicode :
  PyStr.lower "Ωμέγα" = "ωμέγα"
  /\ PyStr.lower "ΟΔΥΣΣΕΥΣ" = "οδυσσευς"
  /\ PyStr.lower "Straße ÉCOLE" = "straße école"
  /\ PyStr.lower (Utf8.encode_cp 304) = "i" +:+ Utf8.encode_cp 775
  /\ PyStr.lower (Utf8.encode_cp 8490) = "k".
Proof. vm_compute. repeat split; reflexivity. Qed.

Example splitlines_unicode :
  PyStr.splitlines ("x" +:+ Utf8.encode_cp 8232 +:+ "http://a" +:+ Utf8.encode_cp 133
                    +:+ "b" +:+ Utf8.of_bytes [13; 10]%N +:+ "c" +:+ newline)
  = ["x"; "http://a"; "b"; "c"].
Proof. vm_compute. reflexivity. Qed.

Example expire_unicode :
  expire_re_search "https://h/expire/١٢٣/x" = Some "١٢٣"
  /\ PyStr.int_of_digits "١٢٣" = 123
  /\ expire_re_search ("https://h/EXP" +:+ Utf8.encode_cp 304 +:+ "RE/42") = Some "42"
  /\ expire_re_search "https://h/expire/x" = None.
Proof. vm_compute. repeat split; reflexivity. Qed.

Example total_seconds_double :
  total_seconds_int 20000000000999999 = 20000000001
  /\ total_seconds_int 19999999999999999 = 20000000000
  /\ total_seconds_int 17179869183999999 = 17179869183
  /\ total_seconds_int (-1500000) = -1
  /\ total_seconds_int 999999 = 0.
Proof. vm_compute. repeat split; reflexivity. Qed.

(** ** Normalization *)


Lemma rstrip_plain c s :
  PyStr.behind PyStr.whitespace (String c s) = None ->
  PyStr.rstrip (String c s) = String c (PyStr.rstrip s).
Proof. intros H. rewrite rstrip_cons, (lstrip_fixed _ H). reflexivity. Qed.

(** The watch URL of a trimmed reference is trimmed. *)
Lemma strip_watch y :
  PyStr.strip y = y -> y <> "" ->
  PyStr.strip ("https://www.youtube.com/watch?v=" +:+ y)
  = "https://www.youtube.com/watch?v=" +:+ y.
Proof.
  intros Hy Hne. unfold PyStr.strip.
  rewrite lstrip_fixed by reflexivity.
  change ("https://www.youtube.com/watch?v=" +:+ y)
    with ("https://www.youtube.com/watch?v" +:+ String "=" y).
  assert (He : PyStr.rstrip (String "=" y) = String "=" y)
    by (rewrite rstrip_plain by reflexivity; rewrite (clean_rstrip _ Hy); reflexivity).
  rewrite rstrip_joint; [rewrite He; reflexivity | reflexivity | rewrite He; discriminate].
Qed.

Lemma normalize_shape x :
  normalize_input_line x = EmptyString \/
  (PyStr.strip (normalize_input_line x) = normalize_input_line x /\
   (PyStr.startswith (normalize_input_line x) "http://"
    || PyStr.startswith (normalize_input_line x) "https://") = true).
Proof.
  unfold normalize_input_line.
  destruct (PyStr.truthy (PyStr.strip x)) eqn:Ht; simpl; [|left; reflexivity].
  right.
  destruct (PyStr.startswith (PyStr.strip x) "http://"
            || PyStr.startswith (PyStr.strip x) "https://") eqn:Hp; simpl.
  - split; [apply strip_idempotent | exact Hp].
  - split; [|reflexivity].
    apply strip_watch; [apply strip_idempotent | apply truthy_nonempty, Ht].
Qed.




(** ** Relative time *)

Lemma human_readable_expired delta :
  total_seconds_int delta <= 0 ->
  human_readable_delta_greek_full delta = "λήγει τώρα".
Proof.
  intros H. unfold human_readable_delta_greek_full.
  destruct (Z.leb_spec (total_seconds_int delta) 0); [reflexivity | lia].
Qed.

Lemma human_readable_components delta :
  0 < total_seconds_int delta ->
  let total := total_seconds_int delta in
  human_readable_delta_greek_full delta =
    Spec.render_components (total / 3600) (total mod 3600 / 60) (total mod 3600 mod 60).
Proof.
  intros H total. unfold human_readable_delta_greek_full.
  fold total.
  destruct (Z.leb_spec total 0); [subst total; lia|].
  unfold Spec.render_components, Spec.component.
  destruct (total / 3600 =? 0), (total mod 3600 / 60 =? 0),
    (total mod 3600 mod 60 =? 0); reflexivity.
Qed.

(** C9: the whole seconds of the delta, [int(delta.total_seconds())], are
    split into hours, minutes and seconds; the components that are not zero
    are rendered largest first, joined by the connective; a delta of zero or
    below (and any delta of less than a second) renders "expires now";
    3661 seconds render as 1 hour, 1 minute and 1 second.  The whole
    seconds are the delta cut towards zero as long as it is shorter than
    2^34 seconds; from there on the double that [total_seconds] returns can
    round up to the next second, as for 20000000000.999999 s, rendered with
    21 seconds and not 20. *)
Theorem C9_relative_time_rendering :
  (forall delta, delta <= 0 -> human_readable_delta_greek_full delta = "λήγει τώρα")
  /\ (forall delta,
        total_seconds_int delta <= 0 ->
        human_readable_delta_greek_full delta = "λήγει τώρα")
  /\ (forall delta,
        0 < total_seconds_int delta ->
        exists hours minutes seconds,
          total_seconds_int delta = 3600 * hours + 60 * minutes + seconds
          /\ 0 <= hours /\ 0 <= minutes < 60 /\ 0 <= seconds < 60
          /\ human_readable_delta_greek_full delta
             = Spec.render_components hours minutes seconds)
  /\ human_readable_delta_greek_full (3661 * 1000000)
     = "σε 1 ώρα και 1 λεπτό και 1 δευτερόλεπτο"
  /\ (forall delta,
        Z.abs delta < 2 ^ 34 * 1000000 ->
        total_seconds_int delta = Z.quot delta 1000000)
  /\ (total_seconds_int 20000000000999999 = 20000000001
      /\ human_readable_delta_greek_full 20000000000999999
         = "σε 5555555 ώρες και 33 λεπτά και 21 δευτερόλεπτα").
Proof.
  split; [|split; [exact human_readable_expired
                  | split; [|split; [reflexivity
                                    | split; [exact total_seconds_int_small
                                             | split; vm_compute; reflexivity]]]]].
  - intros delta H. apply human_readable_expired, total_seconds_nonpositive, H.
  - intros delta H. set (total := total_seconds_int delta) in *.
    exists (total / 3600), (total mod 3600 / 60), (total mod 3600 mod 60).
    pose proof (Z.div_mod total 3600 ltac:(lia)) as H1.
    pose proof (Z.div_mod (total mod 3600) 60 ltac:(lia)) as H2.
    pose proof (Z.mod_pos_bound total 3600 ltac:(lia)) as H3.
    pose proof (Z.mod_pos_bound (total mod 3600) 60 ltac:(lia)) as H4.
    pose proof (Z.div_pos total 3600 ltac:(lia) ltac:(lia)) as H5.
    pose proof (Z.div_pos (total mod 3600) 60 ltac:(lia) ltac:(lia)) as H6.
    pose proof (Z.div_lt_upper_bound (total mod 3600) 60 60 ltac:(lia) ltac:(lia)) as H7.
    repeat split; try lia.
    apply human_readable_components. exact H.
Qed.

(** A delta of -1.5 s is expired; 7325.9 s split into hours, minutes,
    seconds; so is a delta of 2^34 seconds less a microsecond. *)
Lemma C9_witness :
  human_readable_delta_greek_full (-1500000) = "λήγει τώρα"
  /\ (exists hours minutes seconds,
        total_seconds_int 7325900000 = 3600 * hours + 60 * minutes + seconds
        /\ 0 <= hours /\ 0 <= minutes < 60 /\ 0 <= seconds < 60
        /\ human_readable_delta_greek_full 7325900000
           = Spec.render_components hours minutes seconds)
  /\ total_seconds_int 7325900000 = Z.quot 7325900000 1000000
  /\ (exists hours minutes seconds,
        total_seconds_int (2 ^ 34 * 1000000 - 1) = 3600 * hours + 60 * minutes + seconds
        /\ 0 <= hours /\ 0 <= minutes < 60 /\ 0 <= seconds < 60
        /\ human_readable_delta_greek_full (2 ^ 34 * 1000000 - 1)
           = Spec.render_components hours minutes seconds).
Proof.
  split; [|split; [|split]].
  - apply (proj1 C9_relative_time_rendering). lia.
  - apply (proj1 (proj2 (proj2 C9_relative_time_rendering))). reflexivity.
  - apply (proj1 (proj2 (proj2 (proj2 (proj2 C9_relative_time_rendering))))).
    vm_compute. reflexivity.
  - apply (proj1 (proj2 (proj2 C9_relative_time_rendering))). reflexivity.
Defined.

(** ** Pre-fetch deduplication *)

Lemma dedup_inputs_snoc l x :
  dedup_inputs (l ++ [x]) = dedup_step (dedup_inputs l) x.
Proof. unfold dedup_inputs. rewrite fold_left_app. reflexivity. Qed.

Lemma existsb_eqb_In k (l : list string) :
  existsb (String.eqb k) l = true <-> In k l.
Proof.
  rewrite existsb_exists. split.
  - intros (x & Hx & He). apply String.eqb_eq in He. subst. exact Hx.
  - intros H. exists k. split; [exact H | apply String.eqb_refl].
Qed.

(** The set of seen keys holds the non-empty keys of the lines read so far. *)
Lemma seen_input_lines_spec l k :
  k ∈ seen_input_lines (dedup_inputs l) <->
  PyStr.truthy k = true /\ In k (map Spec.dedup_key l).
Proof.
  induction l as [|x l IH] using rev_ind.
  - simpl. split; [intros H; set_solver | intros [_ []]].
  - rewrite dedup_inputs_snoc, map_app, in_app_iff. unfold dedup_step.
    fold (Spec.dedup_key x).
    destruct (PyStr.truthy (Spec.dedup_key x)) eqn:Ht; simpl.
    + destruct (bool_decide (Spec.dedup_key x ∈ seen_input_lines (dedup_inputs l)))
        eqn:Hd; simpl.
      * apply bool_decide_eq_true in Hd. rewrite IH. split; [tauto|].
        intros [Hk [H | [<- | []]]]; [tauto|]. apply IH, Hd.
      * rewrite elem_of_union, elem_of_singleton, IH. split.
        -- intros [[? ?] | ->]; tauto.
        -- intros [Hk [H | [<- | []]]]; tauto.
    + rewrite IH. split; [tauto|].
      intros [Hk [H | [<- | []]]]; [tauto | congruence].
Qed.

Lemma seen_input_lines_decide l k :
  PyStr.truthy k = true ->
  bool_decide (k ∈ seen_input_lines (dedup_inputs l))
  = existsb (String.eqb k) (map Spec.dedup_key l).
Proof.
  intros Hk. apply Bool.eq_iff_eq_true.
  rewrite bool_decide_eq_true, seen_input_lines_spec, existsb_eqb_In. tauto.
Qed.

Lemma positions_snoc (l : list string) x :
  Spec.positions (l ++ [x]) = Spec.positions l ++ [length l].
Proof.
  unfold Spec.positions. rewrite length_app. simpl.
  rewrite seq_app. reflexivity.
Qed.

Lemma filter_positions_ext (f g : nat -> bool) (l : list string) :
  (forall i, (i < length l)%nat -> f i = g i) ->
  List.filter f (Spec.positions l) = List.filter g (Spec.positions l).
Proof.
  intros H. apply filter_ext_in. intros i Hi.
  apply in_seq in Hi. apply H. lia.
Qed.

Lemma survives_snoc_old l x i :
  (i < length l)%nat -> Spec.survives (l ++ [x]) i = Spec.survives l i.
Proof.
  intros Hi. unfold Spec.survives, Spec.seen_before.
  rewrite lookup_app_l by exact Hi.
  rewrite take_app_le by lia. reflexivity.
Qed.

Lemma reported_snoc_old l x i :
  (i < length l)%nat -> Spec.reported (l ++ [x]) i = Spec.reported l i.
Proof.
  intros Hi. unfold Spec.reported, Spec.seen_before.
  rewrite lookup_app_l by exact Hi.
  rewrite take_app_le by lia. reflexivity.
Qed.

Lemma seen_before_last l x :
  Spec.seen_before (l ++ [x]) (length l) x
  = existsb (String.eqb (Spec.dedup_key x)) (map Spec.dedup_key l).
Proof.
  unfold Spec.seen_before. rewrite take_app_le by lia.
  rewrite firstn_all. reflexivity.
Qed.

Lemma lookup_last (l : list string) x : (l ++ [x]) !! length l = Some x.
Proof. rewrite lookup_app_r by lia. rewrite Nat.sub_diag. reflexivity. Qed.

Lemma lines_at_app l ps qs :
  Spec.lines_at l (ps ++ qs) = Spec.lines_at l ps ++ Spec.lines_at l qs.
Proof. unfold Spec.lines_at. apply omap_app. Qed.

Lemma lines_at_snoc l x ps :
  Forall (fun i => (i < length l)%nat) ps ->
  Spec.lines_at (l ++ [x]) ps = Spec.lines_at l ps.
Proof.
  induction 1 as [|i ps Hi _ IH]; [reflexivity|].
  unfold Spec.lines_at in *.
  change (omap (fun j => (l ++ [x]) !! j) (i :: ps))
    with (match (l ++ [x]) !! i with
          | Some y => y :: omap (fun j => (l ++ [x]) !! j) ps
          | None => omap (fun j => (l ++ [x]) !! j) ps
          end).
  rewrite IH, lookup_app_l by exact Hi. reflexivity.
Qed.

Lemma filter_positions_bound f (l : list string) :
  Forall (fun i => (i < length l)%nat) (List.filter f (Spec.positions l)).
Proof.
  apply Forall_forall. intros i Hi.
  apply list_elem_of_In, filter_In in Hi as [Hi _].
  apply in_seq in Hi. lia.
Qed.

Lemma surviving_positions_snoc l x :
  Spec.surviving_positions (l ++ [x])
  = Spec.surviving_positions l
    ++ (if Spec.survives (l ++ [x]) (length l) then [length l] else []).
Proof.
  unfold Spec.surviving_positions. rewrite positions_snoc, List.filter_app. simpl.
  f_equal. apply filter_positions_ext. intros i Hi. apply survives_snoc_old, Hi.
Qed.

Lemma reported_positions_snoc l x :
  Spec.reported_positions (l ++ [x])
  = Spec.reported_positions l
    ++ (if Spec.reported (l ++ [x]) (length l) then [length l] else []).
Proof.
  unfold Spec.reported_positions. rewrite positions_snoc, List.filter_app. simpl.
  f_equal. apply filter_positions_ext. intros i Hi. apply reported_snoc_old, Hi.
Qed.

Lemma dedup_inputs_positions l :
  unique_inputs (dedup_inputs l) = Spec.lines_at l (Spec.surviving_positions l)
  /\ dedup_console (dedup_inputs l)
     = map skip_report (Spec.lines_at l (Spec.reported_positions l)).
Proof.
  induction l as [|x l [IHu IHc]] using rev_ind; [split; reflexivity|].
  rewrite dedup_inputs_snoc, surviving_positions_snoc, reported_positions_snoc.
  rewrite !lines_at_app, map_app.
  rewrite (lines_at_snoc l x (Spec.surviving_positions l))
    by apply filter_positions_bound.
  rewrite (lines_at_snoc l x (Spec.reported_positions l))
    by apply filter_positions_bound.
  unfold Spec.survives, Spec.reported. rewrite lookup_last, seen_before_last.
  unfold dedup_step. fold (Spec.dedup_key x).
  destruct (PyStr.truthy (Spec.dedup_key x)) eqn:Ht; simpl.
  - rewrite seen_input_lines_decide by exact Ht.
    destruct (existsb (String.eqb (Spec.dedup_key x)) (map Spec.dedup_key l));
      simpl; unfold Spec.lines_at in *; simpl; rewrite ?lookup_last, ?app_nil_r;
      rewrite IHu, IHc; split; reflexivity.
  - unfold Spec.lines_at in *. simpl. rewrite !app_nil_r. split; assumption.
Qed.

(** C8: pre-fetch deduplication keeps, in the original order, the lines
    whose lowercase-trimmed key has not occurred on an earlier line, and
    reports every later duplicate; the lines ["X"; " x "; "Y"; "X"] leave
    "X" then "Y", with reports for lines 2 and 4 (positions 1 and 3).  The
    key is the lower case of all letters: of five spellings of a Greek word
    the capitals, the one with a sigma that is not final and the accented
    one are kept. *)
Theorem C8_prefetch_dedup :
  (forall raw_lines,
      unique_inputs (dedup_inputs raw_lines)
      = Spec.lines_at raw_lines (Spec.surviving_positions raw_lines)
      /\ dedup_console (dedup_inputs raw_lines)
         = map skip_report (Spec.lines_at raw_lines (Spec.reported_positions raw_lines)))
  /\ (let raw_lines := read_raw_lines ["X"; " x "; "Y"; "X"] in
      unique_inputs (dedup_inputs raw_lines) = ["X"; "Y"]
      /\ Spec.surviving_positions raw_lines = [0; 2]%nat
      /\ Spec.reported_positions raw_lines = [1; 3]%nat
      /\ dedup_console (dedup_inputs raw_lines) = [skip_report "x"; skip_report "X"])
  /\ (let raw_lines := read_raw_lines ["ΟΔΟΣ"; "οδος"; "οδοσ"; "Οδός"; "ΟΔΌΣ"] in
      unique_inputs (dedup_inputs raw_lines) = ["ΟΔΟΣ"; "οδοσ"; "Οδός"]
      /\ dedup_console (dedup_inputs raw_lines)
         = [skip_report "οδος"; skip_report "ΟΔΌΣ"]).
Proof.
  split; [exact dedup_inputs_positions|].
  split; vm_compute; repeat split; reflexivity.
Qed.

(** ** Expiry aggregation *)

Lemma expire_epochs_filter buffered :
  expire_epochs buffered = List.filter Spec.nonzero (Spec.non_null_epochs buffered).
Proof.
  unfold expire_epochs, Spec.non_null_epochs.
  induction buffered as [|r rest IH]; [reflexivity|].
  simpl. rewrite IH. destruct (rec_expire_epoch r) as [e|]; [|reflexivity].
  simpl. unfold Spec.nonzero. destruct (e =? 0); reflexivity.
Qed.

Lemma fold_right_max_init a b es :
  fold_right Z.max (Z.max a b) es = Z.max b (fold_right Z.max a es).
Proof. induction es as [|x es IH]; simpl; [lia | rewrite IH; lia]. Qed.

Lemma fold_left_max_right es : forall e,
  fold_left Z.max es e = fold_right Z.max e es.
Proof.
  induction es as [|x es IH]; intros e; [reflexivity|].
  simpl. rewrite IH, fold_right_max_init. reflexivity.
Qed.

Lemma expire_max_max_of buffered :
  expire_max buffered = Spec.max_of (List.filter Spec.nonzero (Spec.non_null_epochs buffered)).
Proof.
  unfold expire_max. rewrite expire_epochs_filter.
  destruct (List.filter Spec.nonzero (Spec.non_null_epochs buffered)) as [|e es];
    [reflexivity|].
  simpl. rewrite fold_left_max_right. reflexivity.
Qed.

Lemma fold_right_max_is_max es : forall e,
  In (fold_right Z.max e es) (e :: es)
  /\ forall x, In x (e :: es) -> x <= fold_right Z.max e es.
Proof.
  induction es as [|y es IH]; intros e; simpl.
  - split; [left; reflexivity | intros x [<- | []]; lia].
  - destruct (IH e) as [Hin Hmax]. split.
    + destruct (Z.max_spec y (fold_right Z.max e es)) as [[_ ->] | [_ ->]].
      * destruct Hin as [H | H]; [left; exact H | right; right; exact H].
      * right; left; reflexivity.
    + intros x [<- | [<- | Hx]].
      * specialize (Hmax e (or_introl eq_refl)). lia.
      * lia.
      * specialize (Hmax x (or_intror Hx)). lia.
Qed.

Lemma max_of_is_max l m :
  Spec.max_of l = Some m -> In m l /\ forall x, In x l -> x <= m.
Proof.
  destruct l as [|e es]; [discriminate|].
  intros [= <-]. apply fold_right_max_is_max.
Qed.

Lemma in_non_null_epochs buffered e :
  In e (Spec.non_null_epochs buffered) <->
  exists r, In r buffered /\ rec_expire_epoch r = Some e.
Proof.
  unfold Spec.non_null_epochs. rewrite <- list_elem_of_In, list_elem_of_omap.
  split; intros (r & Hr & He); exists r; split; try exact He;
    apply list_elem_of_In; exact Hr.
Qed.

Lemma expire_max_none buffered :
  expire_max buffered = None <->
  forall r, In r buffered ->
            rec_expire_epoch r = None \/ rec_expire_epoch r = Some 0.
Proof.
  rewrite expire_max_max_of. split.
  - intros H r Hr. destruct (rec_expire_epoch r) as [e|] eqn:He; [|left; reflexivity].
    right. destruct (Z.eq_dec e 0) as [-> | Hne]; [reflexivity|]. exfalso.
    assert (Hin : In e (List.filter Spec.nonzero (Spec.non_null_epochs buffered))).
    { apply filter_In. split.
      - apply in_non_null_epochs. exists r. split; assumption.
      - unfold Spec.nonzero. destruct (Z.eqb_spec e 0); [contradiction | reflexivity]. }
    destruct (List.filter Spec.nonzero (Spec.non_null_epochs buffered));
      [destruct Hin | discriminate H].
  - intros H.
    destruct (List.filter Spec.nonzero (Spec.non_null_epochs buffered)) as [|e es] eqn:E;
      [reflexivity|]. exfalso.
    assert (Hin : In e (List.filter Spec.nonzero (Spec.non_null_epochs buffered)))
      by (rewrite E; left; reflexivity).
    apply filter_In in Hin as [Hin Hnz].
    apply in_non_null_epochs in Hin as (r & Hr & He).
    destruct (H r Hr) as [Hn | Hz]; [congruence|].
    rewrite He in Hz. injection Hz as ->. discriminate Hnz.
Qed.

(** C2, as stated, fails when the only expiry epochs are 0: the buffer is
    filtered by truthiness, so an epoch of 0 counts as absent.  A record
    with epoch 0 is what the worker returns for a line whose URL holds
    [expire/0] when the resolution falls back to that URL. *)
Lemma C2_counterexample :
  let r := mkRecord "https://h/expire/0" None (Some "https://h/expire/0") None
                    (Some "https://h/expire/0") (Some 0) in
  future_result unit (stateless_run always_timeout) json_loads_fails 4300%nat
                (test_config true) "https://h/expire/0" tt = Some (Returns r)
  /\ Spec.max_of (Spec.non_null_epochs [r]) = Some 0
  /\ expire_max [r] = None
  /\ expire_max [r] <> Spec.max_of (Spec.non_null_epochs [r]).
Proof. vm_compute. repeat split; discriminate. Qed.

(** C2 (amended): [expire_max] is the maximum of the expiry epochs of the
    buffered records that are neither null nor zero, and is undefined when
    there is none; for the epochs 100, 300 and None it is 300; when no
    record has an expiry (none but null or zero epochs), the title of the
    special entry renders the "not available" sentinel instead of a date. *)
Theorem C2_expiry_aggregation :
  (forall buffered,
      expire_max buffered
      = Spec.max_of (List.filter Spec.nonzero (Spec.non_null_epochs buffered)))
  /\ (forall buffered m,
        expire_max buffered = Some m ->
        m <> 0
        /\ (exists r, In r buffered /\ rec_expire_epoch r = Some m)
        /\ forall r e, In r buffered -> rec_expire_epoch r = Some e -> e <> 0 -> e <= m)
  /\ (forall buffered,
        expire_max buffered = None <->
        forall r, In r buffered ->
                  rec_expire_epoch r = None \/ rec_expire_epoch r = Some 0)
  /\ (forall a b c,
        expire_max [ mkRecord "a" None (Some "a") None (Some a) (Some 100);
                     mkRecord "b" None (Some "b") None (Some b) (Some 300);
                     mkRecord "c" None (Some "c") None c None ] = Some 300)
  /\ (forall format_local now_us favicon_service buffered,
        (forall r, In r buffered -> rec_expire_epoch r = None) ->
        special_extinf format_local now_us favicon_service buffered
        = build_special_extinf_only_expire not_available not_available
            (Some "info") (Some favicon_service)
        /\ special_title not_available not_available
           = "Λήξη συνδέσμων: μη διαθέσιμη (μη διαθέσιμη)").
Proof.
  split; [exact expire_max_max_of|].
  split; [|split; [exact expire_max_none|split; [reflexivity|]]].
  - intros buffered m H. rewrite expire_max_max_of in H.
    apply max_of_is_max in H as [Hin Hmax].
    apply filter_In in Hin as [Hin Hnz]. split; [|split].
    + intros ->. discriminate Hnz.
    + apply in_non_null_epochs, Hin.
    + intros r e Hr He Hne. apply Hmax, filter_In. split.
      * apply in_non_null_epochs. exists r. split; assumption.
      * unfold Spec.nonzero. destruct (Z.eqb_spec e 0); [contradiction | reflexivity].
  - intros format_local now_us favicon_service buffered H.
    split; [|reflexivity].
    unfold special_extinf.
    assert (Hn : expire_max buffered = None).
    { apply expire_max_none. intros r Hr. left. apply H, Hr. }
    rewrite Hn. reflexivity.
Qed.

(** A buffer whose only expiry epoch is 7. *)
Lemma C2_witness :
  let buffered := [ mkRecord "a" (Some "id") (Some "t") None (Some "https://s/expire/7/x") (Some 7);
                    mkRecord "b" None (Some "b") None None None ] in
  7 <> 0
  /\ (exists r, In r buffered /\ rec_expire_epoch r = Some 7)
  /\ forall r e, In r buffered -> rec_expire_epoch r = Some e -> e <> 0 -> e <= 7.
Proof.
  apply (proj1 (proj2 C2_expiry_aggregation)). reflexivity.
Defined.

(** ** Post-fetch deduplication *)

Lemma emit_loop_snoc fav special l r :
  emit_loop fav special (l ++ [r]) = emit_step fav special (emit_loop fav special l) r.
Proof. unfold emit_loop. rewrite fold_left_app. reflexivity. Qed.

Lemma survivors_snoc special l r :
  Spec.survivors special (l ++ [r])
  = Spec.first_seen_wins special (Spec.survivors special l) r.
Proof. unfold Spec.survivors. rewrite fold_left_app. reflexivity. Qed.

Lemma opt_str_eqb_eq a b : opt_str_eqb a b = true <-> a = b.
Proof.
  destruct a as [x|], b as [y|]; simpl; try (split; congruence).
  rewrite String.eqb_eq. split; congruence.
Qed.

Lemma existsb_same_url u (emitted : list record) :
  existsb (Spec.same_url u) emitted = true
  <-> In (Some u) (map rec_stream_url emitted).
Proof.
  rewrite existsb_exists, in_map_iff. unfold Spec.same_url.
  split; intros (e & H1 & H2); exists e.
  - apply opt_str_eqb_eq in H2. split; assumption.
  - split; [exact H2 | apply opt_str_eqb_eq, H1].
Qed.

Lemma existsb_same_key k (emitted : list record) :
  existsb (Spec.same_key k) emitted = true <-> In k (map key_norm emitted).
Proof.
  rewrite existsb_exists, in_map_iff. unfold Spec.same_key.
  split; intros (e & H1 & H2); exists e.
  - apply String.eqb_eq in H2. split; assumption.
  - split; [exact H2 | apply String.eqb_eq, H1].
Qed.

Lemma emit_loop_invariant fav special buffered :
  emit_invariant fav (emit_loop fav special buffered) (Spec.survivors special buffered).
Proof.
  induction buffered as [|r l IH] using rev_ind.
  - split; simpl; intros; [reflexivity | set_solver | set_solver].
  - rewrite emit_loop_snoc, survivors_snoc.
    destruct IH as [Hout Hurls Hkeys].
    set (st := emit_loop fav special l) in *.
    set (emitted := Spec.survivors special l) in *.
    unfold emit_step, Spec.first_seen_wins, Spec.passes.
    destruct (rec_stream_url r) as [u|] eqn:Hu; [|simpl; split; assumption].
    remember (PyStr.otruthy special && opt_str_eqb (Some u) special) as sp eqn:Hsp.
    simpl.
    destruct (PyStr.truthy u) eqn:Htu; simpl; [|split; assumption].
    destruct sp; simpl; [split; assumption|].
    assert (Hdu : bool_decide (u ∈ added_urls st) = existsb (Spec.same_url u) emitted).
    { apply Bool.eq_iff_eq_true.
      rewrite bool_decide_eq_true, Hurls, existsb_same_url. tauto. }
    assert (Hor : PyStr.or_str (Some u) "" = u).
    { unfold PyStr.or_str. rewrite Htu. reflexivity. }
    rewrite ?Hor, Hdu.
    destruct (existsb (Spec.same_url u) emitted) eqn:Heu; simpl.
    { split; simpl; assumption. }
    destruct (PyStr.truthy (key_norm r)) eqn:Htk; simpl.
    + assert (Hdk : bool_decide (key_norm r ∈ added_keys st)
                    = existsb (Spec.same_key (key_norm r)) emitted).
      { apply Bool.eq_iff_eq_true.
        rewrite bool_decide_eq_true, (Hkeys _ Htk), existsb_same_key. tauto. }
      rewrite Hdk.
      destruct (existsb (Spec.same_key (key_norm r)) emitted) eqn:Hek; simpl.
      { split; simpl; assumption. }
      split; simpl.
      * rewrite flat_map_app, Hout. simpl. rewrite ?app_nil_r. reflexivity.
      * intros v. rewrite elem_of_union, elem_of_singleton, Hurls, map_app, in_app_iff.
        simpl. rewrite Hu. split; [intros [H | ->]; tauto|].
        intros [H | [[= ->] | []]]; tauto.
      * intros k Hk. rewrite elem_of_union, elem_of_singleton, (Hkeys _ Hk), map_app,
          in_app_iff. simpl. split; [intros [H | ->]; tauto|].
        intros [H | [<- | []]]; tauto.
    + split; simpl.
      * rewrite flat_map_app, Hout. simpl. rewrite ?app_nil_r. reflexivity.
      * intros v. rewrite elem_of_union, elem_of_singleton, Hurls, map_app, in_app_iff.
        simpl. rewrite Hu. split; [intros [H | ->]; tauto|].
        intros [H | [[= ->] | []]]; tauto.
      * intros k Hk. rewrite (Hkeys _ Hk), map_app, in_app_iff. simpl.
        split; [tauto|]. intros [H | [<- | []]]; [exact H | congruence].
Qed.

(** The writing loop writes the entries of the survivors, in their order. *)
Lemma emit_loop_survivors fav special buffered :
  out_f (emit_loop fav special buffered)
  = flat_map (entry_lines fav) (Spec.survivors special buffered).
Proof. apply emit_loop_invariant. Qed.

Lemma survivors_sublist special buffered :
  sublist (Spec.survivors special buffered) buffered.
Proof.
  induction buffered as [|r l IH] using rev_ind; [constructor|].
  rewrite survivors_snoc. unfold Spec.first_seen_wins.
  destruct (Spec.passes special (Spec.survivors special l) r).
  - apply sublist_app; [exact IH | reflexivity].
  - rewrite <- (app_nil_r (Spec.survivors special l)).
    apply sublist_app; [exact IH | apply sublist_nil_l].
Qed.

Lemma survivors_nodup special buffered :
  NoDup (map rec_stream_url (Spec.survivors special buffered)).
Proof.
  induction buffered as [|r l IH] using rev_ind; [constructor|].
  rewrite survivors_snoc. unfold Spec.first_seen_wins.
  destruct (Spec.passes special (Spec.survivors special l) r) eqn:Hp; [|exact IH].
  rewrite map_app. simpl. apply NoDup_app. split; [exact IH|].
  split; [|apply NoDup_singleton].
  intros o Ho Hr. apply list_elem_of_singleton in Hr. subst o.
  unfold Spec.passes in Hp. destruct (rec_stream_url r) as [u|]; [|discriminate].
  apply list_elem_of_In, existsb_same_url in Ho. rewrite Ho in Hp.
  rewrite !andb_true_iff in Hp. destruct Hp as [[[_ _] Hp] _]. discriminate Hp.
Qed.

Lemma survivors_app_incl special l l' e :
  In e (Spec.survivors special l) -> In e (Spec.survivors special (l ++ l')).
Proof.
  intros He. induction l' as [|r l' IH] using rev_ind.
  - rewrite app_nil_r. exact He.
  - rewrite app_assoc, survivors_snoc. unfold Spec.first_seen_wins.
    destruct (Spec.passes _ _ r); [apply in_or_app; left|]; exact IH.
Qed.

Lemma passes_after_same_url special pre r1 mid r2 u :
  rec_stream_url r1 = Some u ->
  rec_stream_url r2 = Some u ->
  Spec.passes special (Spec.survivors special pre) r1 = true ->
  Spec.passes special (Spec.survivors special (pre ++ r1 :: mid)) r2 = false.
Proof.
  intros H1 H2 Hp.
  assert (Hin : In r1 (Spec.survivors special (pre ++ r1 :: mid))).
  { change (pre ++ r1 :: mid) with (pre ++ [r1] ++ mid). rewrite app_assoc.
    apply survivors_app_incl. rewrite survivors_snoc.
    unfold Spec.first_seen_wins. rewrite Hp. apply in_or_app. right. left. reflexivity. }
  unfold Spec.passes. rewrite H2.
  assert (He : existsb (Spec.same_url u)
                 (Spec.survivors special (pre ++ r1 :: mid)) = true).
  { apply existsb_same_url, in_map_iff. exists r1. split; assumption. }
  rewrite He. simpl. rewrite andb_false_r. reflexivity.
Qed.

Lemma truthy_iff s : PyStr.truthy s = true <-> s <> "".
Proof. destruct s; split; (discriminate || congruence || reflexivity). Qed.

Lemma not_existsb_same_url u (emitted : list record) :
  existsb (Spec.same_url u) emitted = false
  <-> ~ In (Some u) (map rec_stream_url emitted).
Proof.
  rewrite <- existsb_same_url. destruct (existsb _ _); split; congruence.
Qed.

(** The skip rules, spelled out: a record is emitted exactly when it has a
    non-empty endpoint, other than the special entry's, that no emitted
    record has, and its identity key is empty or no emitted record has it. *)
Lemma passes_iff special emitted r :
  Spec.passes special emitted r = true <->
  exists u, rec_stream_url r = Some u /\ u <> "" /\ special <> Some u
            /\ ~ In (Some u) (map rec_stream_url emitted)
            /\ (key_norm r = "" \/ ~ In (key_norm r) (map key_norm emitted)).
Proof.
  unfold Spec.passes. destruct (rec_stream_url r) as [u|].
  2:{ split; [discriminate | intros (u & [=] & _)]. }
  rewrite !andb_true_iff, !negb_true_iff, truthy_iff, not_existsb_same_url.
  split.
  - intros [[[Hu Hs] Hn] Hk]. exists u. repeat split; try assumption.
    + intros ->. simpl in Hs. rewrite String.eqb_refl, andb_true_r in Hs.
      apply truthy_iff in Hu. congruence.
    + apply andb_false_iff in Hk as [Hk | Hk].
      * left. destruct (key_norm r); [reflexivity | discriminate].
      * right. rewrite <- existsb_same_key. congruence.
  - intros (u' & [= <-] & Hu & Hs & Hn & Hk). repeat split; try assumption.
    + destruct (opt_str_eqb (Some u) special) eqn:E; [|apply andb_false_r].
      apply opt_str_eqb_eq in E. congruence.
    + destruct Hk as [-> | Hk]; [reflexivity|].
      apply andb_false_iff. right.
      destruct (existsb _ _) eqn:E; [|reflexivity].
      apply existsb_same_key in E. contradiction.
Qed.

(** The pass from a list of emitted records on: records are only added at
    the end, and none with an endpoint that is there already. *)
Lemma first_seen_wins_from special post :
  forall emitted,
  exists after,
    fold_left (Spec.first_seen_wins special) post emitted = emitted ++ after
    /\ forall x e, In x after -> In e emitted -> rec_stream_url x <> rec_stream_url e.
Proof.
  induction post as [|y post IH]; intros emitted.
  - exists []. split; [symmetry; apply app_nil_r | intros x e []].
  - simpl. unfold Spec.first_seen_wins at 2.
    destruct (Spec.passes special emitted y) eqn:Hp.
    + destruct (IH (emitted ++ [y])) as (after & E & H).
      exists (y :: after). split; [rewrite E, <- app_assoc; reflexivity|].
      intros x e [<- | Hx] He.
      * apply passes_iff in Hp as (u & Hu & _ & _ & Hn & _).
        rewrite Hu. intros Heq. apply Hn, in_map_iff. exists e. split; [congruence | exact He].
      * apply (H x e Hx). apply in_or_app. left. exact He.
    + apply IH.
Qed.

Lemma sublist_In {A : Type} (l1 l2 : list A) x : sublist l1 l2 -> In x l1 -> In x l2.
Proof.
  intros Hs Hx. apply list_elem_of_In. eapply sublist_submseteq in Hs.
  eapply elem_of_submseteq; [apply list_elem_of_In, Hx | exact Hs].
Qed.

(** The first record of an endpoint is the one entry of that endpoint,
    unless the endpoint is the special entry's or its identity key was
    emitted before it. *)
Lemma survivors_first_of_endpoint special pre r post u :
  rec_stream_url r = Some u -> u <> "" -> special <> Some u ->
  (forall x, In x pre -> rec_stream_url x <> Some u) ->
  (key_norm r = "" \/ ~ In (key_norm r) (map key_norm (Spec.survivors special pre))) ->
  exists after,
    Spec.survivors special (pre ++ r :: post) = Spec.survivors special pre ++ r :: after
    /\ forall x, In x after -> rec_stream_url x <> Some u.
Proof.
  intros Hu Hne Hs Hfirst Hk.
  assert (Hp : Spec.passes special (Spec.survivors special pre) r = true).
  { apply passes_iff. exists u. repeat split; try assumption.
    intros Hin. apply in_map_iff in Hin as (x & Hx & Hin).
    apply (Hfirst x); [|exact Hx].
    apply (sublist_In _ _ _ (survivors_sublist special pre) Hin). }
  unfold Spec.survivors at 1. rewrite fold_left_app. simpl.
  fold (Spec.survivors special pre). unfold Spec.first_seen_wins at 2. rewrite Hp.
  destruct (first_seen_wins_from special post (Spec.survivors special pre ++ [r]))
    as (after & E & H).
  exists after. split; [rewrite E, <- app_assoc; reflexivity|].
  intros x Hx. rewrite <- Hu. apply (H x r Hx). apply in_or_app. right. left. reflexivity.
Qed.

Lemma survivors_passed special buffered r :
  In r (Spec.survivors special buffered) ->
  exists u, rec_stream_url r = Some u /\ u <> "" /\ special <> Some u.
Proof.
  induction buffered as [|y l IH] using rev_ind; [intros []|].
  rewrite survivors_snoc. unfold Spec.first_seen_wins.
  destruct (Spec.passes special (Spec.survivors special l) y) eqn:Hp; [|exact IH].
  intros H. apply in_app_or in H as [H | [<- | []]]; [apply IH, H|].
  apply passes_iff in Hp as (u & Hu & Hne & Hs & _). exists u. repeat split; assumption.
Qed.

(** C3, as stated, fails in its consequence.  First buffer: B and C share
    an endpoint, but B is dropped for its identity key (that of A, emitted
    before), so the entry written for the endpoint is C's and not that of
    the first record.  Second buffer: two records share a manifest
    endpoint; it becomes the special entry's, and neither record is
    written. *)
Lemma C3_counterexample :
  let fav := "F" in
  let A := mkRecord "x1" (Some "k") (Some "T1") None (Some "https://s/1") None in
  let B := mkRecord "x2" (Some "K") (Some "T2") None (Some "https://s/2") None in
  let C := mkRecord "x3" (Some "k3") (Some "T3") None (Some "https://s/2") None in
  let R1 := mkRecord "y1" (Some "i1") (Some "U1") None (Some "https://s/live.m3u8") None in
  let R2 := mkRecord "y2" (Some "i2") (Some "U2") None (Some "https://s/live.m3u8") None in
  (rec_stream_url B = rec_stream_url C
   /\ out_f (emit_loop fav (special_url [A; B; C] ["x1"; "x2"; "x3"]) [A; B; C])
      = entry_lines fav A ++ entry_lines fav C)
  /\ (rec_stream_url R1 = rec_stream_url R2
      /\ out_f (emit_loop fav (special_url [R1; R2] ["y1"; "y2"]) [R1; R2]) = []).
Proof. vm_compute. repeat split; reflexivity. Qed.

(** C3 (amended): the writing loop is first-seen-wins, for every buffer:
    it writes exactly the entries of the survivors, in their order, and a
    record survives exactly when it has a non-empty stream endpoint, other
    than the special entry's, that no record emitted earlier in the pass
    has, and its identity key (identifier-or-title, trimmed and lowercased)
    is empty or that of no record emitted earlier.  So no two emitted
    entries share an endpoint; once a record is emitted, every later record
    with its endpoint is dropped; no emitted entry has the special entry's
    endpoint; and the first record of an endpoint is the one entry of that
    endpoint whenever the endpoint is not the special entry's and the
    record's identity key is empty or not emitted before it.  (When the
    first record is dropped for its key, a later record of the endpoint can
    be the one written.) *)
Theorem C3_postfetch_dedup :
  (forall fav special buffered,
      out_f (emit_loop fav special buffered)
      = flat_map (entry_lines fav) (Spec.survivors special buffered))
  /\ (forall special pre r,
        Spec.survivors special (pre ++ [r])
        = if Spec.passes special (Spec.survivors special pre) r
          then Spec.survivors special pre ++ [r]
          else Spec.survivors special pre)
  /\ (forall special emitted r,
        Spec.passes special emitted r = true <->
        exists u, rec_stream_url r = Some u /\ u <> "" /\ special <> Some u
                  /\ ~ In (Some u) (map rec_stream_url emitted)
                  /\ (key_norm r = "" \/ ~ In (key_norm r) (map key_norm emitted)))
  /\ (forall special buffered,
        sublist (Spec.survivors special buffered) buffered
        /\ NoDup (map rec_stream_url (Spec.survivors special buffered))
        /\ forall r, In r (Spec.survivors special buffered) ->
                     exists u, rec_stream_url r = Some u /\ u <> "" /\ special <> Some u)
  /\ (forall special pre r1 mid r2 u,
        rec_stream_url r1 = Some u ->
        rec_stream_url r2 = Some u ->
        Spec.passes special (Spec.survivors special pre) r1 = true ->
        Spec.passes special (Spec.survivors special (pre ++ r1 :: mid)) r2 = false)
  /\ (forall special pre r post u,
        rec_stream_url r = Some u -> u <> "" -> special <> Some u ->
        (forall x, In x pre -> rec_stream_url x <> Some u) ->
        (key_norm r = ""
         \/ ~ In (key_norm r) (map key_norm (Spec.survivors special pre))) ->
        exists after,
          Spec.survivors special (pre ++ r :: post)
          = Spec.survivors special pre ++ r :: after
          /\ forall x, In x after -> rec_stream_url x <> Some u).
Proof.
  split; [exact emit_loop_survivors|].
  split; [intros; apply survivors_snoc|].
  split; [exact passes_iff|].
  split; [intros; split; [apply survivors_sublist
                         | split; [apply survivors_nodup | apply survivors_passed]]|].
  split; [exact passes_after_same_url | exact survivors_first_of_endpoint].
Qed.

(** A buffer of five records.  The second is dropped for its identity key
    (its title, the Greek identifier of the first in capitals and between
    blanks; it has no identifier); the third is the first of its endpoint
    and is written; the fourth has no endpoint; the fifth shares the
    endpoint of the third and is dropped. *)
Lemma C3_witness :
  let special := Some "https://w" in
  let r1 := mkRecord "x1" (Some "ωμέγα") (Some "T1") None (Some "https://s/1") None in
  let r2 := mkRecord "x2" (Some "") (Some (" ΩΜΈΓΑ" +:+ Utf8.encode_cp 160)) None
                     (Some "https://s/2") None in
  let r3 := mkRecord "x3" (Some "k3") (Some "T3") None (Some "https://s/3") None in
  let r4 := mkRecord "x4" (Some "k4") (Some "T4") None None None in
  let r5 := mkRecord "x5" (Some "k5") (Some "T5") None (Some "https://s/3") None in
  Spec.survivors special [r1; r2] = [r1]
  /\ Spec.passes special (Spec.survivors special ([r1; r2] ++ r3 :: [r4])) r5 = false
  /\ exists after,
       Spec.survivors special ([r1; r2] ++ r3 :: [r4; r5]) = [r1] ++ r3 :: after
       /\ forall x, In x after -> rec_stream_url x <> Some "https://s/3".
Proof.
  intros special r1 r2 r3 r4 r5.
  split; [reflexivity|]. split.
  - apply (proj1 (proj2 (proj2 (proj2 (proj2 C3_postfetch_dedup))))
             special [r1; r2] r3 [r4] r5 "https://s/3"); reflexivity.
  - apply (proj2 (proj2 (proj2 (proj2 (proj2 C3_postfetch_dedup))))
             special [r1; r2] r3 [r4; r5] "https://s/3");
      [reflexivity | discriminate | discriminate | | right].
    + intros x [<- | [<- | []]]; discriminate.
    + intros [H | []]. vm_compute in H. discriminate H.
Defined.

(** ** Running computations *)

Lemma bind_inv {S A B : Type} (m : M S A) (k : A -> M S B) st o st' :
  bind m k st = Some (o, st') ->
  (exists a st1, m st = Some (Returns a, st1) /\ k a st1 = Some (o, st'))
  \/ (exists e, m st = Some (Raises e, st') /\ o = Raises e).
Proof.
  unfold bind. destruct (m st) as [[[a | e] st1]|]; [| |discriminate].
  - intros H. left. exists a, st1. split; [reflexivity | exact H].
  - intros [= <- <-]. right. exists e. split; reflexivity.
Qed.

Lemma try_except_inv {S A : Type} (m : M S A) (h : exn -> M S A) st o st' :
  try_except m h st = Some (o, st') ->
  (exists a, m st = Some (Returns a, st') /\ o = Returns a)
  \/ (exists e st1, m st = Some (Raises e, st1) /\ h e st1 = Some (o, st')).
Proof.
  unfold try_except. destruct (m st) as [[[a | e] st1]|]; [| |discriminate].
  - intros [= <- <-]. left. exists a. split; reflexivity.
  - intros H. right. exists e, st1. split; [reflexivity | exact H].
Qed.

Lemma total_bind {S A B : Type} (m : M S A) (k : A -> M S B) :
  total m -> (forall a, total (k a)) -> total (bind m k).
Proof.
  intros Hm Hk st. unfold bind.
  destruct (Hm st) as ([a | e] & st1 & ->); [apply Hk | eauto].
Qed.

Lemma never_raises_total {S A : Type} (m : M S A) : never_raises m -> total m.
Proof. intros H st. destruct (H st) as (a & st' & ->). eauto. Qed.

Lemma never_raises_bind {S A B : Type} (m : M S A) (k : A -> M S B) :
  never_raises m -> (forall a, never_raises (k a)) -> never_raises (bind m k).
Proof.
  intros Hm Hk st. unfold bind.
  destruct (Hm st) as (a & st1 & ->). apply Hk.
Qed.

Lemma never_raises_try {S A : Type} (m : M S A) (h : exn -> M S A) :
  total m -> (forall e, never_raises (h e)) -> never_raises (try_except m h).
Proof.
  intros Hm Hh st. unfold try_except.
  destruct (Hm st) as ([a | e] & st1 & ->); [eauto | apply Hh].
Qed.

Lemma never_raises_ret {S A : Type} (a : A) : never_raises (@ret S A a).
Proof. intros st. unfold ret. eauto. Qed.

Lemma total_lift {S A : Type} (o : outcome A) : total (@lift S A o).
Proof. intros st. unfold lift. eauto. Qed.

Lemma total_ret {S A : Type} (a : A) : total (@ret S A a).
Proof. apply never_raises_total, never_raises_ret. Qed.




(** ** The retry loop *)

Section RetryFacts.

Variable World : Type.
Variable subprocess_run :
  list string -> Z -> World -> outcome CompletedProcess * World.

Variables (args_list : list string) (cookies cookies_from_browser : option string).
Variables (timeout retries : Z) (backoff : Q).

#[local] Abbreviation cmd := (yt_dlp_command args_list cookies cookies_from_browser).
#[local] Abbreviation loop :=
  (fun fuel => retry_loop World subprocess_run fuel args_list cookies
                          cookies_from_browser timeout retries backoff).
#[local] Abbreviation outcome_at := (attempt_outcome World subprocess_run cmd timeout).
#[local] Abbreviation after := (world_after World subprocess_run cmd timeout).

Lemma run_yt_dlp_cmd_step w tr :
  run_yt_dlp_cmd World subprocess_run args_list cookies cookies_from_browser timeout
                 (mkSt w tr)
  = Some (outcome_at 0%nat w, mkSt (after 1%nat w) (tr ++ [EvRun cmd timeout])).
Proof.
  unfold run_yt_dlp_cmd, run_cmd, attempt_outcome. simpl.
  destruct (subprocess_run cmd timeout w) as [o w']. reflexivity.
Qed.

(** One turn of the loop, by the outcome of the call. *)
Lemma retry_loop_step fuel attempt w tr :
  loop (S fuel) attempt (mkSt w tr)
  = match outcome_at 0%nat w with
    | Returns p => Some (Returns p, mkSt (after 1%nat w) (tr ++ [EvRun cmd timeout]))
    | Raises e =>
        if attempt + 1 >? retries
        then Some (Raises e, mkSt (after 1%nat w) (tr ++ [EvRun cmd timeout]))
        else loop fuel (attempt + 1)
               (mkSt (after 1%nat w)
                     ((tr ++ [EvRun cmd timeout])
                      ++ [EvSleep (backoff * inject_Z (attempt + 1))]))
    end.
Proof.
  cbn [retry_loop]. unfold try_except. rewrite run_yt_dlp_cmd_step.
  destruct (outcome_at 0%nat w) as [p | e]; [reflexivity|].
  destruct e; destruct (attempt + 1 >? retries); reflexivity.
Qed.

Lemma backoff_trace_S done k :
  backoff_trace cmd timeout backoff done (S k)
  = EvSleep (backoff * inject_Z (Z.of_nat (S done))) :: EvRun cmd timeout
    :: backoff_trace cmd timeout backoff (S done) k.
Proof. reflexivity. Qed.

(** [k] failed calls, each retried, then a call that succeeds. *)
Lemma retry_loop_success k : forall fuel done w tr p,
  (k < fuel)%nat ->
  (forall i, (i < k)%nat -> exists e, outcome_at i w = Raises e) ->
  outcome_at k w = Returns p ->
  (k = 0%nat \/ Z.of_nat (done + k) <= retries) ->
  loop fuel (Z.of_nat done) (mkSt w tr)
  = Some (Returns p,
          mkSt (after (S k) w)
               (tr ++ EvRun cmd timeout :: backoff_trace cmd timeout backoff done k)).
Proof.
  induction k as [|k IH]; intros fuel done w tr p Hfuel Hfail Hok Hret;
    (destruct fuel as [|fuel]; [lia|]); rewrite retry_loop_step.
  - rewrite Hok. reflexivity.
  - destruct (Hfail 0%nat ltac:(lia)) as [e He]. rewrite He.
    destruct (Z.gtb_spec (Z.of_nat done + 1) retries) as [Hgt | Hle]; [lia|].
    replace (Z.of_nat done + 1) with (Z.of_nat (S done)) by lia.
    rewrite (IH fuel (S done) _ _ p); try lia.
    + rewrite backoff_trace_S, <- !app_assoc. reflexivity.
    + intros i Hi. apply (Hfail (S i)). lia.
    + exact Hok.
Qed.

(** [k] failed calls, each retried, then one failure too many. *)
Lemma retry_loop_exhausted k : forall fuel done w tr,
  (k < fuel)%nat ->
  (forall i, (i <= k)%nat -> exists e, outcome_at i w = Raises e) ->
  (k = 0%nat \/ Z.of_nat (done + k) <= retries) ->
  retries < Z.of_nat (done + k) + 1 ->
  exists e,
    outcome_at k w = Raises e
    /\ loop fuel (Z.of_nat done) (mkSt w tr)
       = Some (Raises e,
               mkSt (after (S k) w)
                    (tr ++ EvRun cmd timeout :: backoff_trace cmd timeout backoff done k)).
Proof.
  induction k as [|k IH]; intros fuel done w tr Hfuel Hfail Hret Hend;
    (destruct fuel as [|fuel]; [lia|]); rewrite retry_loop_step.
  - destruct (Hfail 0%nat ltac:(lia)) as [e He]. exists e. rewrite He.
    split; [reflexivity|].
    destruct (Z.gtb_spec (Z.of_nat done + 1) retries) as [Hgt | Hle]; [reflexivity | lia].
  - destruct (Hfail 0%nat ltac:(lia)) as [e0 He0]. rewrite He0.
    destruct (Z.gtb_spec (Z.of_nat done + 1) retries) as [Hgt | Hle]; [lia|].
    replace (Z.of_nat done + 1) with (Z.of_nat (S done)) by lia.
    destruct (IH fuel (S done) (after 1%nat w)
                 ((tr ++ [EvRun cmd timeout])
                  ++ [EvSleep (backoff * inject_Z (Z.of_nat (S done)))]))
      as (e & He & Hrun); try lia.
    + intros i Hi. apply (Hfail (S i)). lia.
    + exists e. split; [exact He|].
      rewrite Hrun, backoff_trace_S, <- !app_assoc. reflexivity.
Qed.

(** The loop ends within [retries + 1] calls. *)
Lemma retry_loop_total fuel : forall attempt st,
  (Z.to_nat (retries - attempt) < fuel)%nat ->
  exists o st', loop fuel attempt st = Some (o, st').
Proof.
  induction fuel as [|fuel IH]; intros attempt [w tr] Hfuel; [lia|].
  rewrite retry_loop_step. destruct (outcome_at 0%nat w) as [p | e]; [eauto|].
  destruct (Z.gtb_spec (attempt + 1) retries) as [Hgt | Hle]; [eauto|].
  apply IH. lia.
Qed.

(** Whatever the loop returns, some call returned it. *)
Lemma retry_loop_returns fuel : forall attempt st p st',
  loop fuel attempt st = Some (Returns p, st') ->
  exists w, fst (subprocess_run cmd timeout w) = Returns p.
Proof.
  induction fuel as [|fuel IH]; intros attempt [w tr] p st'; [discriminate|].
  rewrite retry_loop_step. unfold attempt_outcome. simpl world_after.
  destruct (fst (subprocess_run cmd timeout w)) as [q | e] eqn:E.
  - intros [= <- <-]. exists w. exact E.
  - destruct (attempt + 1 >? retries); [discriminate | apply IH].
Qed.

(** Whatever the tool does, the loop calls, then pauses and calls again
    [k] times, the pauses growing by [backoff] each time. *)
Lemma retry_loop_shape fuel : forall done st o st',
  loop fuel (Z.of_nat done) st = Some (o, st') ->
  exists k,
    (k <= Z.to_nat (retries - Z.of_nat done))%nat
    /\ trace st' = trace st ++ EvRun cmd timeout :: backoff_trace cmd timeout backoff done k.
Proof.
  induction fuel as [|fuel IH]; intros done [w tr] o st'; [discriminate|].
  rewrite retry_loop_step. destruct (outcome_at 0%nat w) as [p | e].
  - intros [= <- <-]. exists 0%nat. split; [lia | reflexivity].
  - destruct (Z.gtb_spec (Z.of_nat done + 1) retries) as [Hgt | Hle].
    + intros [= <- <-]. exists 0%nat. split; [lia | reflexivity].
    + replace (Z.of_nat done + 1) with (Z.of_nat (S done)) by lia.
      intros H. apply IH in H as (k & Hk & E). exists (S k). split; [lia|].
      rewrite E, backoff_trace_S. cbn [trace]. rewrite <- !app_assoc. reflexivity.
Qed.

(** The loop does nothing but call its command and pause. *)
Lemma retry_loop_traces fuel : forall attempt,
  traces (runs_only cmd timeout) (loop fuel attempt).
Proof.
  induction fuel as [|fuel IH]; intros attempt [w tr] o st'; [discriminate|].
  rewrite retry_loop_step.
  assert (Hrun : runs_only cmd timeout (EvRun cmd timeout)) by (left; reflexivity).
  destruct (outcome_at 0%nat w) as [p | e].
  - intros [= <- <-]. exists [EvRun cmd timeout]. split; [reflexivity|].
    constructor; [exact Hrun | constructor].
  - destruct (attempt + 1 >? retries).
    + intros [= <- <-]. exists [EvRun cmd timeout]. split; [reflexivity|].
      constructor; [exact Hrun | constructor].
    + intros H. apply IH in H as (evs & E & F). simpl in E.
      exists (EvRun cmd timeout :: EvSleep (backoff * inject_Z (attempt + 1)) :: evs).
      split; [rewrite E, <- !app_assoc; reflexivity|].
      constructor; [exact Hrun|]. constructor; [right; eauto | exact F].
Qed.

End RetryFacts.

(** ** Strategies tried in order *)

Lemma first_success_yield {S : Type} (s : M S (option pyval)) rest st v st1 :
  yields s st v st1 ->
  Spec.first_success (s :: rest) st = Some (Returns v, st1).
Proof.
  unfold yields. intros H. simpl. unfold bind, try_except. rewrite H. reflexivity.
Qed.

Lemma first_success_fail {S : Type} (s : M S (option pyval)) rest st st1 :
  fails s st st1 ->
  Spec.first_success (s :: rest) st = Spec.first_success rest st1.
Proof.
  unfold fails. intros [H | [e H]]; simpl; unfold bind, try_except; rewrite H;
    reflexivity.
Qed.

Lemma yields_or_fails {S : Type} (s : M S (option pyval)) st :
  total s ->
  (exists v st1, yields s st v st1) \/ (exists st1, fails s st st1).
Proof.
  intros H. destruct (H st) as ([[v|] | e] & st1 & Hs).
  - left. exists v, st1. exact Hs.
  - right. exists st1. left. exact Hs.
  - right. exists st1. right. exists e. exact Hs.
Qed.

(** ** The first http line of an output *)

Lemma first_http_line_loop_some lines l :
  first_http_line_loop lines = Some l ->
  exists pre ln post,
    lines = pre ++ ln :: post /\ l = PyStr.strip ln
    /\ begins_with_scheme l = true
    /\ Forall (fun x => begins_with_scheme (PyStr.strip x) = false) pre.
Proof.
  induction lines as [|x rest IH]; [discriminate|].
  simpl. fold (begins_with_scheme (PyStr.strip x)).
  destruct (begins_with_scheme (PyStr.strip x)) eqn:Hp.
  - intros [= <-]. exists [], x, rest. repeat split; [exact Hp | constructor].
  - intros H. apply IH in H as (pre & ln & post & -> & -> & Hl & Hpre).
    exists (x :: pre), ln, post. repeat split; [exact Hl | constructor; assumption].
Qed.

Lemma first_http_line_loop_none lines :
  first_http_line_loop lines = None <->
  Forall (fun x => begins_with_scheme (PyStr.strip x) = false) lines.
Proof.
  induction lines as [|x rest IH]; [split; [constructor | reflexivity]|].
  simpl. fold (begins_with_scheme (PyStr.strip x)).
  destruct (begins_with_scheme (PyStr.strip x)) eqn:Hp.
  - split; [discriminate|]. intros H. apply Forall_cons in H as [H _]. congruence.
  - rewrite IH. split; [intros H; constructor; assumption|].
    intros H. apply Forall_cons in H as [_ H]. exact H.
Qed.

Lemma first_http_line_shape text l :
  first_http_line text = Some l -> begins_with_scheme l = true /\ PyStr.strip l = l.
Proof.
  unfold first_http_line. destruct text as [|c text]; simpl negb; cbv iota;
    [discriminate|].
  intros H. apply first_http_line_loop_some in H as (pre & ln & post & _ & -> & Hl & _).
  split; [exact Hl | apply strip_idempotent].
Qed.

Lemma first_http_line_truthy text l :
  first_http_line text = Some l -> PyStr.truthy l = true.
Proof.
  intros H. apply first_http_line_shape in H as [H _].
  destruct l; [discriminate H | reflexivity].
Qed.

(** ** The resolver client *)

Section ResolverFacts.

Variable World : Type.
Variable subprocess_run :
  list string -> Z -> World -> outcome CompletedProcess * World.
Variable json_loads : string -> outcome pyval.
Variable int_max_str_digits : nat.

#[local] Abbreviation with_retries := (run_yt_dlp_cmd_with_retries World subprocess_run).

Lemma run_yt_dlp_cmd_with_retries_total args cookies cfb timeout retries backoff :
  total (with_retries args cookies cfb timeout retries backoff).
Proof.
  intros st. unfold run_yt_dlp_cmd_with_retries. apply retry_loop_total. lia.
Qed.

Lemma run_yt_dlp_cmd_with_retries_traces args cookies cfb timeout retries backoff :
  traces (runs_only (yt_dlp_command args cookies cfb) timeout)
         (with_retries args cookies cfb timeout retries backoff).
Proof. unfold run_yt_dlp_cmd_with_retries. apply retry_loop_traces. Qed.

Lemma run_yt_dlp_cmd_with_retries_returns args cookies cfb timeout retries backoff st p st' :
  with_retries args cookies cfb timeout retries backoff st = Some (Returns p, st') ->
  exists w, fst (subprocess_run (yt_dlp_command args cookies cfb) timeout w) = Returns p.
Proof. unfold run_yt_dlp_cmd_with_retries. apply retry_loop_returns. Qed.

Lemma get_minimal_meta_never_raises url timeout cookies cfb retries :
  never_raises (get_minimal_meta World subprocess_run url timeout cookies cfb retries).
Proof.
  unfold get_minimal_meta. apply never_raises_try; [|intros e; apply never_raises_ret].
  apply total_bind; [apply run_yt_dlp_cmd_with_retries_total|].
  intros proc. destruct (negb _); [apply total_ret|].
  apply total_bind; [apply total_lift | intros first; apply total_ret].
Qed.

Lemma direct_default_total url timeout cookies cfb retries :
  total (direct_default World subprocess_run url timeout cookies cfb retries).
Proof.
  unfold direct_default. apply total_bind; [apply run_yt_dlp_cmd_with_retries_total|].
  intros proc. destruct (first_http_line _) as [l|]; [|apply total_ret].
  destruct (PyStr.truthy l); apply total_ret.
Qed.

Lemma direct_quality_total url fmt timeout cookies cfb retries :
  total (direct_quality World subprocess_run url fmt timeout cookies cfb retries).
Proof.
  unfold direct_quality. destruct (PyStr.truthy fmt); [|apply total_ret].
  apply total_bind; [apply run_yt_dlp_cmd_with_retries_total|].
  intros proc. destruct (first_http_line _) as [l|]; [|apply total_ret].
  destruct (PyStr.truthy l); apply total_ret.
Qed.

Lemma json_metadata_total url timeout cookies cfb retries :
  total (json_metadata World subprocess_run json_loads url timeout cookies cfb retries).
Proof.
  unfold json_metadata. apply total_bind; [apply run_yt_dlp_cmd_with_retries_total|].
  intros proc. destruct (PyStr.truthy _); [|apply total_ret].
  apply total_bind; [apply total_lift | intros parsed; apply total_lift].
Qed.




(** The function is the chain of its three strategies. *)
Lemma get_stream_url_first_success url fmt timeout cookies cfb retries :
  get_stream_url_with_ytdlp World subprocess_run json_loads url fmt timeout cookies
                            cfb retries
  = Spec.first_success
      [ direct_default World subprocess_run url timeout cookies cfb retries;
        direct_quality World subprocess_run url fmt timeout cookies cfb retries;
        json_metadata World subprocess_run json_loads url timeout cookies cfb retries ].
Proof. reflexivity. Qed.

Lemma first_success_never_raises (strategies : list (M (St World) (option pyval))) :
  Forall total strategies -> never_raises (Spec.first_success strategies).
Proof.
  induction 1 as [|s rest Hs _ IH]; [apply never_raises_ret|].
  simpl. apply never_raises_bind.
  - apply never_raises_try; [exact Hs | intros e; apply never_raises_ret].
  - intros [v|]; [apply never_raises_ret | exact IH].
Qed.

Lemma get_stream_url_never_raises url fmt timeout cookies cfb retries :
  never_raises (get_stream_url_with_ytdlp World subprocess_run json_loads url fmt
                  timeout cookies cfb retries).
Proof.
  rewrite get_stream_url_first_success. apply first_success_never_raises.
  repeat constructor;
    [apply direct_default_total | apply direct_quality_total | apply json_metadata_total].
Qed.

End ResolverFacts.

(** ** Strategy (c) on metadata of the expected shape *)






Lemma first_url_cons f rest :
  first_url (f :: rest)
  = obind (Py.get f "url")
          (fun u => if Py.truthy u then Returns (Some u) else first_url rest).
Proof. reflexivity. Qed.

Lemma first_m3u8_url_cons f rest :
  first_m3u8_url (f :: rest)
  = obind (Py.get f "url") (fun urlf =>
      if Py.truthy urlf then
        obind (Py.get f "ext") (fun ext =>
          obind (Py.contains ".m3u8" (Py.or_ ext (PStr ""))) (fun in_ext =>
            if in_ext then Returns (Some urlf)
            else
              obind (Py.get f "protocol") (fun protocol =>
                obind (Py.contains "m3u8" (Py.or_ protocol (PStr ""))) (fun in_protocol =>
                  if in_protocol then Returns (Some urlf) else first_m3u8_url rest))))
      else first_m3u8_url rest).
Proof. reflexivity. Qed.






Lemma scan_parsed_dict d :
  scan_parsed (PDict d)
  = obind (Py.get (PDict d) "url") (fun u =>
      if Py.truthy u then Returns (Some u)
      else
        obind (Py.get (PDict d) "requested_formats") (fun req =>
          obind (match req with
                 | PList ((_ :: _) as l) => first_url l
                 | _ => Returns None
                 end) (fun r =>
            match r with
            | Some v => Returns (Some v)
            | None =>
                obind (Py.get (PDict d) "formats") (fun formats =>
                  obind (Py.iter (Py.or_ formats (PList []))) (fun fs =>
                    obind (first_m3u8_url fs) (fun r =>
                      match r with
                      | Some v => Returns (Some v)
                      | None => first_url fs
                      end)))
            end))).
Proof. reflexivity. Qed.




(** ** Strategy (c) on any document that has a reading *)












(** ** The order of the strategies *)

Section StrategyOrder.

Variable World : Type.
Variable subprocess_run :
  list string -> Z -> World -> outcome CompletedProcess * World.
Variable json_loads : string -> outcome pyval.

Variables (url fmt : string) (timeout : Z) (cookies cfb : option string) (retries : Z).

#[local] Abbreviation with_retries :=
  (fun args => run_yt_dlp_cmd_with_retries World subprocess_run args cookies cfb
                 timeout retries default_backoff).
#[local] Abbreviation strategy_a :=
  (direct_default World subprocess_run url timeout cookies cfb retries).
#[local] Abbreviation strategy_b :=
  (direct_quality World subprocess_run url fmt timeout cookies cfb retries).
#[local] Abbreviation strategy_c :=
  (json_metadata World subprocess_run json_loads url timeout cookies cfb retries).
#[local] Abbreviation get_stream_url :=
  (get_stream_url_with_ytdlp World subprocess_run json_loads url fmt timeout cookies
                             cfb retries).

Lemma http_line_yields (proc : CompletedProcess) (st : St World) v st1 :
  match first_http_line (PyStr.strip (proc_text proc)) with
  | Some l => if PyStr.truthy l then ret (Some (PStr l)) else ret None
  | None => ret None
  end st = Some (Returns (Some v), st1) ->
  st1 = st /\ exists l, first_http_line (PyStr.strip (proc_text proc)) = Some l
                        /\ v = PStr l.
Proof.
  destruct (first_http_line _) as [l|]; [|discriminate].
  destruct (PyStr.truthy l); [|discriminate].
  intros [= <- <-]. split; [reflexivity|]. exists l. split; reflexivity.
Qed.

Lemma direct_default_yields st v st1 :
  yields strategy_a st v st1 ->
  exists proc l,
    with_retries ["-g"; url] st = Some (Returns proc, st1)
    /\ first_http_line (PyStr.strip (proc_text proc)) = Some l /\ v = PStr l.
Proof.
  unfold yields, direct_default. intros H.
  apply bind_inv in H as [(proc & st' & Hrun & H) | (e & _ & [=])].
  apply http_line_yields in H as (-> & l & Hl & ->).
  exists proc, l. split; [exact Hrun | split; [exact Hl | reflexivity]].
Qed.

Lemma direct_quality_yields st v st1 :
  yields strategy_b st v st1 ->
  PyStr.truthy fmt = true
  /\ exists proc l,
       with_retries ["-f"; fmt; "-g"; url] st = Some (Returns proc, st1)
       /\ first_http_line (PyStr.strip (proc_text proc)) = Some l /\ v = PStr l.
Proof.
  unfold yields, direct_quality. destruct (PyStr.truthy fmt); [|discriminate].
  intros H. split; [reflexivity|].
  apply bind_inv in H as [(proc & st' & Hrun & H) | (e & _ & [=])].
  apply http_line_yields in H as (-> & l & Hl & ->).
  exists proc, l. split; [exact Hrun | split; [exact Hl | reflexivity]].
Qed.





Lemma direct_quality_skipped st :
  PyStr.truthy fmt = false -> fails strategy_b st st.
Proof. intros H. left. unfold direct_quality. rewrite H. reflexivity. Qed.

Lemma json_metadata_scan st proc st1 parsed :
  with_retries ["-j"; url] st = Some (Returns proc, st1) ->
  PyStr.truthy (PyStr.strip (proc_text proc)) = true ->
  json_loads (PyStr.strip (proc_text proc)) = Returns parsed ->
  strategy_c st = Some (scan_parsed parsed, st1).
Proof.
  intros Hrun Ht Hj. unfold json_metadata, bind. rewrite Hrun, Ht.
  unfold lift. rewrite Hj. reflexivity.
Qed.

Lemma get_stream_url_a st v st1 :
  yields strategy_a st v st1 -> get_stream_url st = Some (Returns v, st1).
Proof. intros H. rewrite get_stream_url_first_success. apply first_success_yield, H. Qed.

Lemma get_stream_url_b st st1 v st2 :
  fails strategy_a st st1 -> yields strategy_b st1 v st2 ->
  get_stream_url st = Some (Returns v, st2).
Proof.
  intros Ha Hb. rewrite get_stream_url_first_success.
  rewrite (first_success_fail _ _ _ _ Ha). apply first_success_yield, Hb.
Qed.

Lemma get_stream_url_c st st1 st2 v st3 :
  fails strategy_a st st1 -> fails strategy_b st1 st2 -> yields strategy_c st2 v st3 ->
  get_stream_url st = Some (Returns v, st3).
Proof.
  intros Ha Hb Hc. rewrite get_stream_url_first_success.
  rewrite (first_success_fail _ _ _ _ Ha), (first_success_fail _ _ _ _ Hb).
  apply first_success_yield, Hc.
Qed.

Lemma get_stream_url_none st st1 st2 st3 :
  fails strategy_a st st1 -> fails strategy_b st1 st2 -> fails strategy_c st2 st3 ->
  get_stream_url st = Some (Returns PNone, st3).
Proof.
  intros Ha Hb Hc. rewrite get_stream_url_first_success.
  rewrite (first_success_fail _ _ _ _ Ha), (first_success_fail _ _ _ _ Hb),
    (first_success_fail _ _ _ _ Hc).
  reflexivity.
Qed.




End StrategyOrder.


(** ** The worker *)

Lemma find_expire_str imax s : exists ex, find_expire imax (PStr s) = Returns ex.
Proof.
  unfold find_expire. destruct (expire_re_search s) as [digits|]; [|eauto].
  destruct (py_int imax digits); eauto.
Qed.

Lemma find_expire_raises imax v e :
  find_expire imax v = Raises e -> e = TypeError /\ as_opt_str v = None.
Proof.
  destruct v; try (intros [= <-]; split; reflexivity).
  intros H. destruct (find_expire_str imax s) as [ex Hex]. congruence.
Qed.

Section WorkerFacts.

Variable World : Type.
Variable subprocess_run :
  list string -> Z -> World -> outcome CompletedProcess * World.
Variable json_loads : string -> outcome pyval.
Variable int_max_str_digits : nat.

Variables (fmt : string) (timeout : Z) (cookies cfb : option string).
Variables (fallback_watch no_metadata full_metadata : bool) (retries : Z).

#[local] Abbreviation worker :=
  (fun raw_line =>
     check_url_entry_buffered World subprocess_run json_loads int_max_str_digits
       raw_line fmt timeout cookies cfb fallback_watch no_metadata full_metadata retries).
#[local] Abbreviation metadata_of :=
  (fun line watch_url =>
     worker_metadata World subprocess_run line watch_url timeout cookies cfb
       no_metadata retries).
#[local] Abbreviation stream_of :=
  (fun watch_url =>
     get_stream_url_with_ytdlp World subprocess_run json_loads watch_url fmt timeout
       cookies cfb retries).
#[local] Abbreviation rest_of :=
  (fun line watch_url =>
     worker_stream World subprocess_run json_loads int_max_str_digits line watch_url
       fmt timeout cookies cfb fallback_watch retries).

Lemma worker_metadata_never_raises line watch_url :
  never_raises (metadata_of line watch_url).
Proof.
  unfold worker_metadata. destruct (negb no_metadata); [|apply never_raises_ret].
  apply never_raises_bind; [apply get_minimal_meta_never_raises|].
  intros [[m t] th]. destruct (_ || _); apply never_raises_ret.
Qed.

Lemma worker_metadata_title line watch_url st meta st1 :
  PyStr.truthy line = true ->
  metadata_of line watch_url st = Some (Returns meta, st1) ->
  PyStr.truthy (snd (fst meta)) = true.
Proof.
  intros Hl. unfold worker_metadata.
  destruct (negb no_metadata); [|intros [= <- <-]; exact Hl].
  intros H. apply bind_inv in H as [([[m t] th] & st' & _ & H) | (e & _ & [=])].
  destruct (_ || _); injection H as <- <-; [|exact Hl]. simpl.
  unfold PyStr.or_str. destruct t as [t|]; [|exact Hl].
  destruct (PyStr.truthy t) eqn:Ht; [exact Ht | exact Hl].
Qed.

(** The worker from the stream resolution on, by its outcome. *)
Lemma worker_stream_run line watch_url meta st1 o st2 :
  stream_of watch_url st1 = Some (o, st2) ->
  rest_of line watch_url meta st1
  = let v := resolved fallback_watch watch_url o in
    let '(meta_id, title, thumbnail) := meta in
    if Py.truthy v then
      match find_expire int_max_str_digits v with
      | Returns expire_epoch =>
          Some (Returns (mkRecord line meta_id (Some title) thumbnail (as_opt_str v)
                                  expire_epoch), st2)
      | Raises e => Some (Raises e, st2)
      end
    else
      Some (Returns (mkRecord line meta_id (Some title) thumbnail (as_opt_str v) None),
            st2).
Proof.
  intros H. destruct meta as [[meta_id title] thumbnail].
  unfold worker_stream, bind, try_except. rewrite H. unfold resolved.
  destruct o as [v | e]; unfold ret, lift.
  - destruct (Py.truthy (if negb (Py.truthy v) && fallback_watch
                         then PStr watch_url else v)); [|reflexivity].
    destruct (find_expire _ _); reflexivity.
  - destruct (Py.truthy (if negb (Py.truthy PNone) && fallback_watch
                         then PStr watch_url else PNone)); [|reflexivity].
    destruct (find_expire _ _); reflexivity.
Qed.

Lemma worker_run raw_line st meta st1 :
  PyStr.truthy (PyStr.strip raw_line) = true ->
  metadata_of (PyStr.strip raw_line) (normalize_input_line (PyStr.strip raw_line)) st
  = Some (Returns meta, st1) ->
  worker raw_line st
  = rest_of (PyStr.strip raw_line) (normalize_input_line (PyStr.strip raw_line)) meta st1.
Proof.
  intros Ht Hm. unfold check_url_entry_buffered. cbv zeta. rewrite Ht.
  unfold bind at 1. change (negb true) with false. cbv beta iota.
  rewrite Hm. reflexivity.
Qed.

Lemma worker_blank raw_line st :
  PyStr.truthy (PyStr.strip raw_line) = false ->
  worker raw_line st
  = Some (Returns (mkRecord (PyStr.strip raw_line) None None None None None), st).
Proof. intros Ht. unfold check_url_entry_buffered. cbv zeta. rewrite Ht. reflexivity. Qed.

(** The worker, split by its guard on the blank line and run up to the
    outcome of the stream resolution. *)
Ltac run_worker raw_line st :=
  let Ht := fresh "Ht" in
  let Hm := fresh "Hm" in
  let Hs := fresh "Hs" in
  destruct (PyStr.truthy (PyStr.strip raw_line)) eqn:Ht;
  [ destruct (worker_metadata_never_raises (PyStr.strip raw_line)
                (normalize_input_line (PyStr.strip raw_line)) st)
      as ([[?meta_id ?title] ?thumbnail] & ?st1 & Hm);
    rewrite (worker_run _ _ _ _ Ht Hm);
    match goal with
    | |- context [worker_stream _ _ _ _ _ _ _ _ _ _ _ _ _ ?s1] =>
        destruct (get_stream_url_never_raises World subprocess_run json_loads
                    (normalize_input_line (PyStr.strip raw_line)) fmt timeout cookies
                    cfb retries s1) as (?v & ?st2 & Hs)
    end;
    rewrite (worker_stream_run _ _ _ _ _ _ Hs); cbv zeta beta iota
  | rewrite (worker_blank _ _ Ht) ].

Lemma check_url_entry_buffered_total raw_line : total (worker raw_line).
Proof.
  intros st. run_worker raw_line st; [|eauto].
  destruct (Py.truthy _); [|eauto]. destruct (find_expire _ _); eauto.
Qed.

(** A record the worker returns carries the trimmed line. *)
Lemma worker_rec_line raw_line st r st' :
  worker raw_line st = Some (Returns r, st') -> rec_line r = PyStr.strip raw_line.
Proof.
  run_worker raw_line st; [|intros [= <- _]; reflexivity].
  destruct (Py.truthy _); [|intros [= <- _]; reflexivity].
  destruct (find_expire _ _); [intros [= <- _]; reflexivity | discriminate].
Qed.

(** The worker raises only when the expiry search meets a value that is
    not a string. *)
Lemma worker_raises raw_line st e st' :
  worker raw_line st = Some (Raises e, st') ->
  e = TypeError
  /\ exists st1 v,
       stream_of (normalize_input_line (PyStr.strip raw_line)) st1
       = Some (Returns v, st')
       /\ Py.truthy v = true /\ as_opt_str v = None.
Proof.
  run_worker raw_line st; [|discriminate].
  destruct (Py.truthy (resolved _ _ _)) eqn:Hv; [|discriminate].
  destruct (find_expire _ _) eqn:Hf; [discriminate|].
  intros [= <- <-]. apply find_expire_raises in Hf as [-> Hn].
  split; [reflexivity|]. exists st1, v. split; [assumption|].
  unfold resolved in Hv, Hn.
  destruct (negb (Py.truthy v) && fallback_watch) eqn:Hfb; [discriminate Hn|].
  split; assumption.
Qed.

End WorkerFacts.

(** ** A tool that always fails *)

Lemma normalize_truthy x :
  PyStr.truthy (PyStr.strip x) = true -> PyStr.truthy (normalize_input_line x) = true.
Proof.
  intros H. unfold normalize_input_line. rewrite H. simpl.
  destruct (negb _); [reflexivity | exact H].
Qed.

Section AlwaysFails.

Variable World : Type.
Variable subprocess_run :
  list string -> Z -> World -> outcome CompletedProcess * World.
Variable json_loads : string -> outcome pyval.
Variable int_max_str_digits : nat.

Hypothesis tool_fails : always_fails World subprocess_run.

Lemma with_retries_always_fails args cookies cfb timeout retries backoff st :
  exists e st',
    run_yt_dlp_cmd_with_retries World subprocess_run args cookies cfb timeout retries
      backoff st = Some (Raises e, st').
Proof.
  destruct (run_yt_dlp_cmd_with_retries_total World subprocess_run args cookies cfb
              timeout retries backoff st) as ([p | e] & st' & H); [|eauto].
  apply run_yt_dlp_cmd_with_retries_returns in H as [w Hw].
  destruct (tool_fails (yt_dlp_command args cookies cfb) timeout w) as [e He].
  congruence.
Qed.

Lemma get_minimal_meta_always_fails url timeout cookies cfb retries st :
  exists st',
    get_minimal_meta World subprocess_run url timeout cookies cfb retries st
    = Some (Returns (None, None, None), st').
Proof.
  unfold get_minimal_meta, try_except, bind.
  destruct (with_retries_always_fails
              ["--print"; "%(id)s" +:+ tab +:+ "%(title)s" +:+ tab +:+ "%(thumbnail)s"; url]
              cookies cfb timeout retries default_backoff st) as (e & st' & ->).
  exists st'. reflexivity.
Qed.

Lemma direct_default_always_fails url timeout cookies cfb retries st :
  exists st', fails (direct_default World subprocess_run url timeout cookies cfb retries)
                    st st'.
Proof.
  destruct (with_retries_always_fails ["-g"; url] cookies cfb timeout retries
              default_backoff st) as (e & st' & H).
  exists st'. right. exists e. unfold direct_default, bind. rewrite H. reflexivity.
Qed.

Lemma direct_quality_always_fails url fmt timeout cookies cfb retries st :
  exists st', fails (direct_quality World subprocess_run url fmt timeout cookies cfb
                       retries) st st'.
Proof.
  destruct (PyStr.truthy fmt) eqn:Hf.
  - destruct (with_retries_always_fails ["-f"; fmt; "-g"; url] cookies cfb timeout
                retries default_backoff st) as (e & st' & H).
    exists st'. right. exists e. unfold direct_quality, bind. rewrite Hf, H. reflexivity.
  - exists st. apply direct_quality_skipped, Hf.
Qed.

Lemma json_metadata_always_fails url timeout cookies cfb retries st :
  exists st', fails (json_metadata World subprocess_run json_loads url timeout cookies
                       cfb retries) st st'.
Proof.
  destruct (with_retries_always_fails ["-j"; url] cookies cfb timeout retries
              default_backoff st) as (e & st' & H).
  exists st'. right. exists e. unfold json_metadata, bind. rewrite H. reflexivity.
Qed.

Lemma get_stream_url_always_fails url fmt timeout cookies cfb retries st :
  exists st',
    get_stream_url_with_ytdlp World subprocess_run json_loads url fmt timeout cookies
      cfb retries st = Some (Returns PNone, st').
Proof.
  destruct (direct_default_always_fails url timeout cookies cfb retries st) as [st1 Ha].
  destruct (direct_quality_always_fails url fmt timeout cookies cfb retries st1)
    as [st2 Hb].
  destruct (json_metadata_always_fails url timeout cookies cfb retries st2) as [st3 Hc].
  exists st3. eapply get_stream_url_none; eassumption.
Qed.

Lemma worker_always_fails raw_line fmt timeout cookies cfb fallback_watch no_metadata
    full_metadata retries st :
  PyStr.truthy (PyStr.strip raw_line) = true ->
  exists r st',
    check_url_entry_buffered World subprocess_run json_loads int_max_str_digits
      raw_line fmt timeout cookies cfb fallback_watch no_metadata full_metadata retries
      st = Some (Returns r, st')
    /\ rec_stream_url r
       = if fallback_watch then Some (normalize_input_line (PyStr.strip raw_line))
         else None.
Proof.
  intros Ht.
  destruct (worker_metadata_never_raises World subprocess_run timeout cookies cfb
              no_metadata retries (PyStr.strip raw_line)
              (normalize_input_line (PyStr.strip raw_line)) st) as (meta & st1 & Hm).
  rewrite (worker_run _ _ _ _ _ _ _ _ _ _ _ _ _ _ _ _ Ht Hm).
  destruct (get_stream_url_always_fails (normalize_input_line (PyStr.strip raw_line))
              fmt timeout cookies cfb retries st1) as [st2 Hs].
  rewrite (worker_stream_run _ _ _ _ _ _ _ _ _ _ _ _ _ _ _ _ Hs).
  destruct meta as [[m t] th]. unfold resolved. simpl negb. simpl andb.
  destruct fallback_watch; cbv zeta.
  - simpl Py.truthy.
    assert (Hw : PyStr.truthy (normalize_input_line (PyStr.strip raw_line)) = true).
    { apply normalize_truthy. rewrite strip_idempotent. exact Ht. }
    rewrite Hw.
    destruct (find_expire_str int_max_str_digits
                (normalize_input_line (PyStr.strip raw_line))) as [ex ->].
    eexists _, st2. split; reflexivity.
  - simpl. eexists _, st2. split; reflexivity.
Qed.

End AlwaysFails.

(** ** Retry and backoff *)

(** C6: a resolver call that times out or fails in any other way is
    retried; [k <= retries] failures followed by a success return that
    success, after pauses of [backoff * 1], ..., [backoff * k]; when the
    first call and all [retries] retries fail, the last failure is raised,
    after pauses of [backoff * 1], ..., [backoff * retries].  With a tool
    that always fails the metadata come back empty, the stream resolution
    returns None, and the worker returns a record instead of raising. *)
Theorem C6_retry_linear_backoff
    (World : Type)
    (subprocess_run : list string -> Z -> World -> outcome CompletedProcess * World)
    (json_loads : string -> outcome pyval) (int_max_str_digits : nat)
    (args : list string) (cookies cfb : option string) (timeout retries : Z)
    (backoff : Q) :
  let cmd := yt_dlp_command args cookies cfb in
  let with_retries :=
    run_yt_dlp_cmd_with_retries World subprocess_run args cookies cfb timeout retries
                                backoff in
  let outcome_at := attempt_outcome World subprocess_run cmd timeout in
  let after := world_after World subprocess_run cmd timeout in
  (forall k w tr p,
      (k <= Z.to_nat retries)%nat ->
      (forall i, (i < k)%nat -> exists e, outcome_at i w = Raises e) ->
      outcome_at k w = Returns p ->
      with_retries (mkSt w tr)
      = Some (Returns p,
              mkSt (after (S k) w)
                   (tr ++ EvRun cmd timeout :: backoff_trace cmd timeout backoff 0 k)))
  /\ (forall w tr,
        (forall i, (i <= Z.to_nat retries)%nat -> exists e, outcome_at i w = Raises e) ->
        exists e,
          outcome_at (Z.to_nat retries) w = Raises e
          /\ with_retries (mkSt w tr)
             = Some (Raises e,
                     mkSt (after (S (Z.to_nat retries)) w)
                          (tr ++ EvRun cmd timeout
                              :: backoff_trace cmd timeout backoff 0 (Z.to_nat retries))))
  /\ (forall k,
        backoff_trace cmd timeout backoff 0 k
        = flat_map (fun i => [EvSleep (backoff * inject_Z (Z.of_nat i));
                              EvRun cmd timeout])
                   (seq 1 k))
  /\ (always_fails World subprocess_run ->
      forall url fmt fallback_watch no_metadata full_metadata raw_line st,
        (exists st',
            get_minimal_meta World subprocess_run url timeout cookies cfb retries st
            = Some (Returns (None, None, None), st'))
        /\ (exists st',
              get_stream_url_with_ytdlp World subprocess_run json_loads url fmt timeout
                cookies cfb retries st = Some (Returns PNone, st'))
        /\ (PyStr.truthy (PyStr.strip raw_line) = true ->
            exists r st',
              check_url_entry_buffered World subprocess_run json_loads
                int_max_str_digits raw_line fmt timeout cookies cfb fallback_watch
                no_metadata full_metadata retries st = Some (Returns r, st')
              /\ rec_stream_url r
                 = if fallback_watch
                   then Some (normalize_input_line (PyStr.strip raw_line))
                   else None)).
Proof.
  intros cmd with_retries outcome_at after.
  split; [|split; [|split; [reflexivity|]]].
  - intros k w tr p Hk Hfail Hok. subst with_retries.
    unfold run_yt_dlp_cmd_with_retries.
    apply (retry_loop_success World subprocess_run args cookies cfb timeout retries
             backoff k (S (Z.to_nat retries)) 0%nat w tr p); try assumption; lia.
  - intros w tr Hfail. subst with_retries. unfold run_yt_dlp_cmd_with_retries.
    apply (retry_loop_exhausted World subprocess_run args cookies cfb timeout retries
             backoff (Z.to_nat retries) (S (Z.to_nat retries)) 0%nat w tr);
      try assumption; lia.
  - intros Hfails url fmt fallback_watch no_metadata full_metadata raw_line st.
    split; [apply get_minimal_meta_always_fails, Hfails|].
    split; [apply get_stream_url_always_fails, Hfails|].
    intros Ht. apply worker_always_fails; assumption.
Qed.

(** Two failures, then a success, with two retries allowed; and a worker
    whose tool always times out. *)
Lemma C6_witness :
  let p := mkProc "https://cdn/video.m3u8" "" in
  let script := [Raises TimeoutExpired; Raises OSError; Returns p] in
  let cmd := yt_dlp_command ["-g"; "https://www.youtube.com/watch?v=abc"] None None in
  run_yt_dlp_cmd_with_retries (list (outcome CompletedProcess)) scripted_run
    ["-g"; "https://www.youtube.com/watch?v=abc"] None None 60 2 default_backoff
    (mkSt script [])
  = Some (Returns p,
          mkSt [] [ EvRun cmd 60; EvSleep (default_backoff * inject_Z 1);
                    EvRun cmd 60; EvSleep (default_backoff * inject_Z 2);
                    EvRun cmd 60 ])
  /\ exists r st',
       check_url_entry_buffered unit (stateless_run always_timeout) json_loads_fails
         4300%nat "abc" "worst" 60 None None true false false 2 (mkSt tt [])
       = Some (Returns r, st')
       /\ rec_stream_url r = Some (normalize_input_line (PyStr.strip "abc")).
Proof.
  intros p script cmd. split.
  - apply (proj1 (C6_retry_linear_backoff (list (outcome CompletedProcess)) scripted_run
                    json_loads_fails 4300%nat
                    ["-g"; "https://www.youtube.com/watch?v=abc"] None None 60 2
                    default_backoff) 2%nat script [] p).
    + simpl. lia.
    + intros [|[|i]] Hi; [eexists; reflexivity | eexists; reflexivity | lia].
    + reflexivity.
  - apply (proj2 (proj2 (proj2
             (C6_retry_linear_backoff unit (stateless_run always_timeout)
                json_loads_fails 4300%nat [] None None 60 2 default_backoff)))).
    + intros c t w. exists TimeoutExpired. reflexivity.
    + exact "u".
    + reflexivity.
Defined.

(** ** The lines that are submitted *)

Lemma unique_inputs_in raw_lines line :
  In line (unique_inputs (dedup_inputs raw_lines)) ->
  In line raw_lines /\ PyStr.truthy (Spec.dedup_key line) = true.
Proof.
  induction raw_lines as [|x l IH] using rev_ind; [intros []|].
  rewrite dedup_inputs_snoc. unfold dedup_step. fold (Spec.dedup_key x).
  rewrite in_app_iff.
  destruct (PyStr.truthy (Spec.dedup_key x)) eqn:Ht; simpl;
    [destruct (bool_decide _); simpl|]; try (intros H; apply IH in H; tauto).
  rewrite in_app_iff. intros [H | [<- | []]]; [apply IH in H; tauto|].
  split; [right; left; reflexivity | exact Ht].
Qed.

Lemma read_raw_lines_in f line :
  In line (read_raw_lines f) ->
  PyStr.strip line = line /\ PyStr.truthy line = true.
Proof.
  unfold read_raw_lines. rewrite in_map_iff. intros (x & <- & Hx).
  apply filter_In in Hx as [_ Hx]. split; [apply strip_idempotent | exact Hx].
Qed.

Lemma survivors_have_url special buffered e :
  In e (Spec.survivors special buffered) -> PyStr.otruthy (rec_stream_url e) = true.
Proof.
  induction buffered as [|r l IH] using rev_ind; [intros []|].
  rewrite survivors_snoc. unfold Spec.first_seen_wins.
  destruct (Spec.passes special (Spec.survivors special l) r) eqn:Hp; [|exact IH].
  rewrite in_app_iff. intros [H | [<- | []]]; [apply IH, H|].
  unfold Spec.passes in Hp. destruct (rec_stream_url r) as [u|]; [|discriminate].
  simpl. destruct (PyStr.truthy u); [reflexivity | discriminate].
Qed.

(** ** Fallback endpoint *)

(** C5: for every line that is submitted, when the stream resolution fails
    (it returns None, or raises), the worker returns a record whose stream
    endpoint is the normalized watch URL of the line if the fallback flag
    is on, and which has no endpoint if it is off; a record without
    endpoint makes the writing loop write nothing and is no survivor. *)
Theorem C5_fallback_endpoint
    (World : Type)
    (subprocess_run : list string -> Z -> World -> outcome CompletedProcess * World)
    (json_loads : string -> outcome pyval) (int_max_str_digits : nat)
    (f : list string) (line fmt : string) (timeout : Z) (cookies cfb : option string)
    (fallback_watch no_metadata full_metadata : bool) (retries : Z)
    (st st1 st2 : St World) (meta : option string * string * option string)
    (o : outcome pyval) :
  In line (unique_inputs (dedup_inputs (read_raw_lines f))) ->
  worker_metadata World subprocess_run line (normalize_input_line line) timeout cookies
    cfb no_metadata retries st = Some (Returns meta, st1) ->
  get_stream_url_with_ytdlp World subprocess_run json_loads (normalize_input_line line)
    fmt timeout cookies cfb retries st1 = Some (o, st2) ->
  (o = Returns PNone \/ exists e, o = Raises e) ->
  exists r,
    check_url_entry_buffered World subprocess_run json_loads int_max_str_digits line
      fmt timeout cookies cfb fallback_watch no_metadata full_metadata retries st
    = Some (Returns r, st2)
    /\ rec_line r = line
    /\ (fallback_watch = true -> rec_stream_url r = Some (normalize_input_line line))
    /\ (fallback_watch = false ->
        rec_stream_url r = None
        /\ (forall favicon_service special est,
               emit_step favicon_service special est r = est)
        /\ (forall special buffered, ~ In r (Spec.survivors special buffered))).
Proof.
  intros Hin Hm Hs Ho.
  apply unique_inputs_in in Hin as [Hin _].
  apply read_raw_lines_in in Hin as [Hstrip Ht].
  assert (Hrun := worker_run World subprocess_run json_loads int_max_str_digits fmt
                    timeout cookies cfb fallback_watch no_metadata full_metadata retries
                    line st meta st1).
  rewrite Hstrip in Hrun. rewrite (Hrun Ht Hm).
  rewrite (worker_stream_run _ _ _ _ _ _ _ _ _ _ _ _ _ _ _ _ Hs).
  destruct meta as [[m t] th].
  assert (Hres : resolved fallback_watch (normalize_input_line line) o
                 = if fallback_watch then PStr (normalize_input_line line) else PNone).
  { unfold resolved. destruct Ho as [-> | [e ->]]; destruct fallback_watch; reflexivity. }
  rewrite Hres. cbv zeta.
  destruct fallback_watch.
  - assert (Hw : PyStr.truthy (normalize_input_line line) = true).
    { apply normalize_truthy. rewrite Hstrip. exact Ht. }
    simpl Py.truthy. rewrite Hw.
    destruct (find_expire_str int_max_str_digits (normalize_input_line line)) as [ex ->].
    eexists. split; [reflexivity|]. split; [reflexivity|].
    split; [reflexivity | discriminate].
  - simpl. eexists. split; [reflexivity|]. split; [reflexivity|].
    split; [discriminate|]. intros _. split; [reflexivity|]. split.
    + intros favicon_service special est. reflexivity.
    + intros special buffered Hr. apply survivors_have_url in Hr. discriminate Hr.
Qed.

(** The line [abc123], a tool that always times out, the fallback on. *)
Lemma C5_witness :
  exists r,
    check_url_entry_buffered unit (stateless_run always_timeout) json_loads_fails
      4300%nat "abc123" "worst" 60 None None true true false 0 (mkSt tt [])
    = Some (Returns r,
            mkSt tt [ EvRun ["yt-dlp"; "-g"; "https://www.youtube.com/watch?v=abc123"] 60;
                      EvRun ["yt-dlp"; "-f"; "worst"; "-g";
                             "https://www.youtube.com/watch?v=abc123"] 60;
                      EvRun ["yt-dlp"; "-j"; "https://www.youtube.com/watch?v=abc123"] 60 ])
    /\ rec_line r = "abc123"
    /\ (true = true
        -> rec_stream_url r = Some (normalize_input_line "abc123"))
    /\ (true = false ->
        rec_stream_url r = None
        /\ (forall favicon_service special est,
               emit_step favicon_service special est r = est)
        /\ (forall special buffered, ~ In r (Spec.survivors special buffered))).
Proof.
  apply (C5_fallback_endpoint unit (stateless_run always_timeout) json_loads_fails
           4300%nat [" abc123 "; "ABC123"] "abc123" "worst" 60 None None true true false 0
           (mkSt tt []) (mkSt tt []) _ (None, "abc123", None) (Returns PNone)).
  - vm_compute. left. reflexivity.
  - reflexivity.
  - reflexivity.
  - left. reflexivity.
Defined.

(** ** What the stream resolution can return *)

Lemma obind_inv {A B : Type} (o : outcome A) (k : A -> outcome B) b :
  obind o k = Returns b -> exists a, o = Returns a /\ k a = Returns b.
Proof. destruct o as [a | e]; [|discriminate]. intros H. exists a. split; auto. Qed.

Lemma first_url_truthy fs v :
  first_url fs = Returns (Some v) -> Py.truthy v = true.
Proof.
  induction fs as [|f fs IH]; [discriminate|].
  rewrite first_url_cons. intros H. apply obind_inv in H as (u & _ & H).
  destruct (Py.truthy u) eqn:Hu; [injection H as <-; exact Hu | apply IH, H].
Qed.

Lemma first_m3u8_url_truthy fs v :
  first_m3u8_url fs = Returns (Some v) -> Py.truthy v = true.
Proof.
  induction fs as [|f fs IH]; [discriminate|].
  rewrite first_m3u8_url_cons. intros H. apply obind_inv in H as (u & _ & H).
  destruct (Py.truthy u) eqn:Hu; [|apply IH, H].
  apply obind_inv in H as (ext & _ & H). apply obind_inv in H as (in_ext & _ & H).
  destruct in_ext; [injection H as <-; exact Hu|].
  apply obind_inv in H as (protocol & _ & H).
  apply obind_inv in H as (in_protocol & _ & H).
  destruct in_protocol; [injection H as <-; exact Hu | apply IH, H].
Qed.

Lemma scan_parsed_truthy parsed v :
  scan_parsed parsed = Returns (Some v) -> Py.truthy v = true.
Proof.
  destruct parsed; try discriminate. rewrite scan_parsed_dict. intros H.
  apply obind_inv in H as (u & _ & H).
  destruct (Py.truthy u) eqn:Hu; [injection H as <-; exact Hu|].
  apply obind_inv in H as (req & _ & H). apply obind_inv in H as (r & Hr & H).
  destruct r as [w|].
  - injection H as <-.
    destruct req as [| | | | | |[|x l]|]; try discriminate Hr.
    apply first_url_truthy in Hr. exact Hr.
  - apply obind_inv in H as (formats & _ & H). apply obind_inv in H as (fs & _ & H).
    apply obind_inv in H as (r & Hr' & H). destruct r as [w|].
    + injection H as <-. apply first_m3u8_url_truthy in Hr'. exact Hr'.
    + apply first_url_truthy in H. exact H.
Qed.

Section StreamResults.

Variable World : Type.
Variable subprocess_run :
  list string -> Z -> World -> outcome CompletedProcess * World.
Variable json_loads : string -> outcome pyval.

Variables (url fmt : string) (timeout : Z) (cookies cfb : option string) (retries : Z).

Lemma json_metadata_yields st v st1 :
  yields (json_metadata World subprocess_run json_loads url timeout cookies cfb retries)
         st v st1 ->
  exists text parsed,
    json_loads text = Returns parsed /\ scan_parsed parsed = Returns (Some v).
Proof.
  unfold yields, json_metadata. intros H.
  apply bind_inv in H as [(proc & st' & _ & H) | (e & _ & [=])].
  destruct (PyStr.truthy _); [|discriminate].
  apply bind_inv in H as [(parsed & st'' & Hj & H) | (e & _ & [=])].
  unfold lift in Hj, H. injection Hj as Hj _. injection H as H _.
  eauto.
Qed.

(** The resolution returns None, a string, or what the scan of a decoded
    document gave. *)
Lemma get_stream_url_result st v st' :
  get_stream_url_with_ytdlp World subprocess_run json_loads url fmt timeout cookies cfb
    retries st = Some (Returns v, st') ->
  v = PNone
  \/ (exists s, v = PStr s /\ PyStr.truthy s = true)
  \/ (exists text parsed,
        json_loads text = Returns parsed /\ scan_parsed parsed = Returns (Some v)).
Proof.
  intros H.
  destruct (yields_or_fails
              (direct_default World subprocess_run url timeout cookies cfb retries) st
              (direct_default_total _ _ _ _ _ _ _))
    as [(va & st1 & Ha) | (st1 & Ha)].
  { rewrite (get_stream_url_a _ _ json_loads _ fmt _ _ _ _ _ _ _ Ha) in H.
    injection H as <- _.
    apply direct_default_yields in Ha as (proc & l & _ & Hl & ->).
    right. left. exists l. split; [reflexivity | eapply first_http_line_truthy, Hl]. }
  destruct (yields_or_fails
              (direct_quality World subprocess_run url fmt timeout cookies cfb retries)
              st1 (direct_quality_total _ _ _ _ _ _ _ _))
    as [(vb & st2 & Hb) | (st2 & Hb)].
  { rewrite (get_stream_url_b _ _ json_loads _ _ _ _ _ _ _ _ _ _ Ha Hb) in H.
    injection H as <- _.
    apply direct_quality_yields in Hb as (_ & proc & l & _ & Hl & ->).
    right. left. exists l. split; [reflexivity | eapply first_http_line_truthy, Hl]. }
  destruct (yields_or_fails
              (json_metadata World subprocess_run json_loads url timeout cookies cfb
                 retries) st2 (json_metadata_total _ _ _ _ _ _ _ _))
    as [(vc & st3 & Hc) | (st3 & Hc)].
  { rewrite (get_stream_url_c _ _ _ _ _ _ _ _ _ _ _ _ _ _ Ha Hb Hc) in H.
    injection H as <- _. right. right. eapply json_metadata_yields, Hc. }
  rewrite (get_stream_url_none _ _ _ _ _ _ _ _ _ _ _ _ _ Ha Hb Hc) in H.
  injection H as <- _. left. reflexivity.
Qed.

Lemma get_stream_url_none_or_truthy st v st' :
  get_stream_url_with_ytdlp World subprocess_run json_loads url fmt timeout cookies cfb
    retries st = Some (Returns v, st') ->
  v = PNone \/ Py.truthy v = true.
Proof.
  intros H. apply get_stream_url_result in H
    as [-> | [(s & -> & Hs) | (text & parsed & _ & Hscan)]].
  - left. reflexivity.
  - right. exact Hs.
  - right. eapply scan_parsed_truthy, Hscan.
Qed.

End StreamResults.

(** ** The worker at its boundary *)

(** C10, as stated, fails: when the tool prints [{"url": 1}] for [-j], the
    stream resolution returns the number 1, the expiry search raises
    [TypeError] outside every [try] of the worker, the worker raises, and
    the coordinator takes its [except] branch: nothing is buffered and the
    error is reported. *)
Lemma C10_counterexample :
  future_result unit (stateless_run answers_url_number) json_loads_url_number 4300%nat
                (test_config true) "abc" tt = Some (Raises TypeError)
  /\ run_pool unit (stateless_run answers_url_number) json_loads_url_number 4300%nat
              (test_config true) ["abc"] (fun _ => tt) [0%nat]
     = Some ([], ["Σφάλμα σε future"]).
Proof. split; reflexivity. Qed.

(** C10 (amended): metadata failures are absorbed inside
    [get_minimal_meta] and failures of the stream resolution inside
    [get_stream_url_with_ytdlp]: neither raises.  The worker always ends;
    it returns its 6-tuple whenever the stream resolution returns None or a
    string, in particular whenever the decoded metadata hold only string
    URLs; it raises only [TypeError], and only when the stream resolution
    returned a truthy value that is not a string, which is what the
    coordinator's [except] branch is left to catch. *)
Theorem C10_worker_boundary
    (World : Type)
    (subprocess_run : list string -> Z -> World -> outcome CompletedProcess * World)
    (json_loads : string -> outcome pyval) (int_max_str_digits : nat)
    (raw_line fmt : string) (timeout : Z) (cookies cfb : option string)
    (fallback_watch no_metadata full_metadata : bool) (retries : Z) :
  let worker :=
    check_url_entry_buffered World subprocess_run json_loads int_max_str_digits
      raw_line fmt timeout cookies cfb fallback_watch no_metadata full_metadata retries in
  let stream_of :=
    get_stream_url_with_ytdlp World subprocess_run json_loads
      (normalize_input_line (PyStr.strip raw_line)) fmt timeout cookies cfb retries in
  (forall url, never_raises (get_minimal_meta World subprocess_run url timeout cookies
                               cfb retries))
  /\ never_raises stream_of
  /\ total worker
  /\ (forall st e st',
        worker st = Some (Raises e, st') ->
        e = TypeError
        /\ exists st1 v,
             stream_of st1 = Some (Returns v, st')
             /\ Py.truthy v = true /\ as_opt_str v = None)
  /\ ((forall text parsed v,
          json_loads text = Returns parsed ->
          scan_parsed parsed = Returns (Some v) ->
          exists s, v = PStr s) ->
      never_raises worker).
Proof.
  intros worker stream_of.
  split; [intros url; apply get_minimal_meta_never_raises|].
  split; [apply get_stream_url_never_raises|].
  split; [apply check_url_entry_buffered_total|].
  split; [apply worker_raises|].
  intros Hjson st.
  destruct (check_url_entry_buffered_total World subprocess_run json_loads
              int_max_str_digits fmt timeout cookies cfb fallback_watch no_metadata
              full_metadata retries raw_line st) as ([r | e] & st' & H); [eauto|].
  exfalso. apply worker_raises in H as (_ & st1 & v & Hs & Hv & Hn).
  apply get_stream_url_result in Hs
    as [-> | [(s & -> & _) | (text & parsed & Hj & Hscan)]].
  - discriminate Hv.
  - discriminate Hn.
  - destruct (Hjson _ _ _ Hj Hscan) as [s ->]. discriminate Hn.
Qed.

(** A tool whose metadata hold a string URL: the worker never raises. *)
Lemma C10_witness :
  never_raises
    (check_url_entry_buffered unit (stateless_run answers_url_string)
       json_loads_url_string 4300%nat "abc" "worst" 60 None None true false false 2).
Proof.
  apply (proj2 (proj2 (proj2 (proj2
           (C10_worker_boundary unit (stateless_run answers_url_string)
              json_loads_url_string 4300%nat "abc" "worst" 60 None None true false
              false 2))))).
  intros text parsed v H. unfold json_loads_url_string in H.
  destruct (String.eqb text url_is_a_string); [|discriminate H].
  injection H as <-. intros [= <-]. exists "https://cdn/live.m3u8". reflexivity.
Defined.

(** ** The order of the playlist *)

Lemma lines_at_positions (l : list string) : Spec.lines_at l (Spec.positions l) = l.
Proof.
  induction l as [|x l IH] using rev_ind; [reflexivity|].
  rewrite positions_snoc, lines_at_app.
  rewrite lines_at_snoc by (apply Forall_forall; intros i Hi;
                            apply list_elem_of_In, in_seq in Hi; lia).
  unfold Spec.positions in IH |- *. rewrite IH.
  unfold Spec.lines_at. simpl. rewrite lookup_last. reflexivity.
Qed.

Lemma lines_at_cons (l : list string) i ps :
  Spec.lines_at l (i :: ps)
  = match l !! i with
    | Some x => x :: Spec.lines_at l ps
    | None => Spec.lines_at l ps
    end.
Proof. reflexivity. Qed.

Section PoolFacts.

Variable World : Type.
Variable subprocess_run :
  list string -> Z -> World -> outcome CompletedProcess * World.
Variable json_loads : string -> outcome pyval.
Variable int_max_str_digits : nat.
Variables (cfg : Config) (unique : list string) (worlds : nat -> World).

#[local] Abbreviation futs :=
  (futures World subprocess_run json_loads int_max_str_digits cfg unique worlds).

Lemma futures_lookup i :
  futs !! i
  = (fun line => future_result World subprocess_run json_loads int_max_str_digits cfg
                   line (worlds i)) <$> unique !! i.
Proof. unfold futures. apply list_lookup_imap. Qed.

Lemma future_result_total line w :
  exists o,
    future_result World subprocess_run json_loads int_max_str_digits cfg line w = Some o.
Proof.
  unfold future_result.
  destruct (check_url_entry_buffered_total World subprocess_run json_loads
              int_max_str_digits (cfg_fmt cfg) (cfg_timeout cfg) (cfg_cookies cfg)
              (cfg_cookies_from_browser cfg) (cfg_fallback_watch cfg)
              (cfg_no_metadata cfg) (cfg_full_metadata cfg) (cfg_retries cfg) line
              (mkSt w [])) as (o & st' & ->).
  eauto.
Qed.

Lemma future_result_line line w res :
  future_result World subprocess_run json_loads int_max_str_digits cfg line w
  = Some (Returns res) ->
  rec_line res = PyStr.strip line.
Proof.
  unfold future_result.
  destruct (check_url_entry_buffered _ _ _ _ _ _ _ _ _ _ _ _ _ _) as [[o st']|] eqn:E;
    [|discriminate].
  intros [= ->]. eapply worker_rec_line, E.
Qed.

(** The buffer grows by the records of the futures that return, in the
    order of completion. *)
Lemma collect_order completion : forall buffered console buffered' console',
  collect futs completion buffered console = Some (buffered', console') ->
  exists extra,
    buffered' = buffered ++ extra
    /\ sublist (map rec_line extra) (map PyStr.strip (Spec.lines_at unique completion)).
Proof.
  induction completion as [|i rest IH]; intros buffered console buffered' console'.
  - intros [= <- <-]. exists []. rewrite app_nil_r. split; [reflexivity | constructor].
  - simpl collect. rewrite futures_lookup, lines_at_cons.
    destruct (unique !! i) as [line|]; simpl; [|discriminate].
    destruct (future_result _ _ _ _ _ _ _) as [[res | e]|] eqn:E; [| |discriminate].
    + intros H. apply IH in H as (extra & -> & Hsub).
      exists (res :: extra). rewrite <- app_assoc. split; [reflexivity|].
      simpl. rewrite (future_result_line _ _ _ E). apply sublist_skip, Hsub.
    + intros H. apply IH in H as (extra & -> & Hsub).
      exists extra. split; [reflexivity | apply sublist_cons, Hsub].
Qed.

(** Every future completes, so the collection ends. *)
Lemma collect_total completion : forall buffered console,
  Forall (fun i => (i < length unique)%nat) completion ->
  exists buffered' console',
    collect futs completion buffered console = Some (buffered', console').
Proof.
  induction completion as [|i rest IH]; intros buffered console Hc; [simpl; eauto|].
  apply Forall_cons in Hc as [Hi Hc]. simpl collect. rewrite futures_lookup.
  destruct (lookup_lt_is_Some_2 unique i Hi) as [line ->]. simpl.
  destruct (future_result_total line (worlds i)) as [[res | e] ->]; apply IH, Hc.
Qed.

End PoolFacts.

Lemma sublist_map {A B : Type} (f : A -> B) (l1 l2 : list A) :
  sublist l1 l2 -> sublist (map f l1) (map f l2).
Proof.
  induction 1 as [|x l1 l2 _ IH|x l1 l2 _ IH]; simpl.
  - constructor.
  - apply sublist_skip, IH.
  - apply sublist_cons, IH.
Qed.

(** C1, as stated, fails: the buffer is filled in the order the workers
    complete and written in that order, and nothing puts it back in input
    order.  For the lines a, b, c (a's endpoint becomes the special
    entry's), completion in the order a, c, b writes c before b, and
    completion in submission order writes b before c. *)
Lemma C1_counterexample :
  let unique := ["a"; "b"; "c"] in
  let cfg := test_config true in
  let fav := cfg_favicon_service cfg in
  let pool := run_pool unit (stateless_run always_timeout) json_loads_fails 4300%nat
                       cfg unique (fun _ => tt) in
  let entry l :=
    mkRecord l None (Some l) None (Some ("https://www.youtube.com/watch?v=" +:+ l)) None in
  unique_inputs (dedup_inputs (read_raw_lines unique)) = unique
  /\ fst <$> pool [0; 1; 2]%nat = Some [entry "a"; entry "b"; entry "c"]
  /\ fst <$> pool [0; 2; 1]%nat = Some [entry "a"; entry "c"; entry "b"]
  /\ out_f (emit_loop fav (special_url [entry "a"; entry "b"; entry "c"] unique)
                      [entry "a"; entry "b"; entry "c"])
     = entry_lines fav (entry "b") ++ entry_lines fav (entry "c")
  /\ out_f (emit_loop fav (special_url [entry "a"; entry "c"; entry "b"] unique)
                      [entry "a"; entry "c"; entry "b"])
     = entry_lines fav (entry "c") ++ entry_lines fav (entry "b")
  /\ entry_lines fav (entry "c") ++ entry_lines fav (entry "b")
     <> entry_lines fav (entry "b") ++ entry_lines fav (entry "c").
Proof. vm_compute. repeat split; try reflexivity. discriminate. Qed.

(** C1 (amended): the surviving records are written in the order of the
    buffer, which is the order in which the workers complete: the run ends
    for every completion order over the submitted lines; the lines of the
    buffered records, and so the lines of the entries written after the
    special entry, are a subsequence of the input lines taken in completion
    order; they follow the order of the input lines when the workers
    complete in the order of submission. *)
Theorem C1_emission_order
    (World : Type)
    (subprocess_run : list string -> Z -> World -> outcome CompletedProcess * World)
    (json_loads : string -> outcome pyval) (int_max_str_digits : nat)
    (cfg : Config) (unique : list string) (worlds : nat -> World) :
  let pool := run_pool World subprocess_run json_loads int_max_str_digits cfg unique
                       worlds in
  (forall completion,
      Forall (fun i => (i < length unique)%nat) completion ->
      exists buffered console, pool completion = Some (buffered, console))
  /\ (forall completion buffered console,
        pool completion = Some (buffered, console) ->
        sublist (map rec_line buffered)
                (map PyStr.strip (Spec.lines_at unique completion))
        /\ forall favicon_service special,
             out_f (emit_loop favicon_service special buffered)
             = flat_map (entry_lines favicon_service) (Spec.survivors special buffered)
             /\ sublist (Spec.survivors special buffered) buffered
             /\ sublist (map rec_line (Spec.survivors special buffered))
                        (map PyStr.strip (Spec.lines_at unique completion)))
  /\ (forall buffered console special,
        pool (Spec.positions unique) = Some (buffered, console) ->
        sublist (map rec_line (Spec.survivors special buffered))
                (map PyStr.strip unique))
  /\ (forall format_local now_us created buffered,
        playlist format_local now_us created (cfg_favicon_service cfg) buffered unique
        = write_header created
          ++ special_lines format_local now_us (cfg_favicon_service cfg) buffered unique
          ++ flat_map (entry_lines (cfg_favicon_service cfg))
                      (Spec.survivors (special_url buffered unique) buffered)).
Proof.
  intros pool.
  assert (Horder : forall completion buffered console,
             pool completion = Some (buffered, console) ->
             sublist (map rec_line buffered)
                     (map PyStr.strip (Spec.lines_at unique completion))).
  { intros completion buffered console H. subst pool. unfold run_pool in H.
    apply collect_order in H as (extra & -> & Hsub). exact Hsub. }
  assert (Hsurv : forall completion buffered console special,
             pool completion = Some (buffered, console) ->
             sublist (map rec_line (Spec.survivors special buffered))
                     (map PyStr.strip (Spec.lines_at unique completion))).
  { intros completion buffered console special H.
    etransitivity; [|apply (Horder _ _ _ H)].
    apply sublist_map, survivors_sublist. }
  split; [|split; [|split]].
  - intros completion Hc. subst pool. unfold run_pool. apply collect_total, Hc.
  - intros completion buffered console H. split; [apply (Horder _ _ _ H)|].
    intros favicon_service special.
    split; [apply emit_loop_survivors|].
    split; [apply survivors_sublist | apply (Hsurv _ _ _ _ H)].
  - intros buffered console special H.
    pose proof (Hsurv _ _ _ special H) as Hs.
    rewrite lines_at_positions in Hs. exact Hs.
  - intros format_local now_us created buffered. unfold playlist.
    rewrite emit_loop_survivors. reflexivity.
Qed.

(** Three lines completing in the order c, a, b. *)
Lemma C1_witness :
  exists buffered console,
    run_pool unit (stateless_run always_timeout) json_loads_fails 4300%nat
             (test_config true) ["a"; "b"; "c"] (fun _ => tt) [2; 0; 1]%nat
    = Some (buffered, console).
Proof.
  apply (proj1 (C1_emission_order unit (stateless_run always_timeout) json_loads_fails
                  4300%nat (test_config true) ["a"; "b"; "c"] (fun _ => tt))).
  repeat constructor.
Defined.

(** * Further properties of the script *)

(** ** Characters and concatenation *)

Lemma contains_char c s : PyStr.contains (String c EmptyString) s = has_char c s.
Proof.
  induction s as [|x s IH]; [reflexivity|].
  simpl. rewrite IH. destruct (ascii_dec c x) as [-> | Hne].
  - rewrite Ascii.eqb_refl. destruct s; reflexivity.
  - destruct (Ascii.eqb_spec x c) as [-> | _]; [contradiction | reflexivity].
Qed.

Lemma has_char_app c a b : has_char c (a +:+ b) = has_char c a || has_char c b.
Proof.
  induction a as [|x a IH]; [reflexivity|].
  rewrite append_cons. simpl. rewrite IH, orb_assoc. reflexivity.
Qed.

Lemma has_char_replace_self c r s :
  has_char c r = false -> has_char c (PyStr.replace c r s) = false.
Proof.
  intros Hr. induction s as [|x s IH]; [reflexivity|].
  simpl. destruct (Ascii.eqb_spec x c) as [-> | Hne].
  - rewrite has_char_app, Hr, IH. reflexivity.
  - simpl. rewrite IH. destruct (Ascii.eqb_spec x c); [contradiction | reflexivity].
Qed.

Lemma replace_absent c r s : has_char c s = false -> PyStr.replace c r s = s.
Proof.
  induction s as [|x s IH]; [reflexivity|].
  simpl. destruct (Ascii.eqb x c); [discriminate|].
  simpl. intros H. rewrite IH by exact H. reflexivity.
Qed.

Lemma truthy_app_l a b : PyStr.truthy a = true -> PyStr.truthy (a +:+ b) = true.
Proof. destruct a; [discriminate | reflexivity]. Qed.

Lemma truthy_app_r a b : PyStr.truthy b = true -> PyStr.truthy (a +:+ b) = true.
Proof. destruct a; [trivial | reflexivity]. Qed.

Lemma truthy_lower_ascii s : PyStr.truthy (PyStr.lower_ascii s) = PyStr.truthy s.
Proof. destruct s; reflexivity. Qed.

(** ** [safe_attr] *)

(** X1: the value [safe_attr] returns holds no double quote, whatever it is
    given; None gives the empty string, and a string without double quote
    comes back unchanged. *)
Theorem safe_attr_no_quote :
  (forall s, PyStr.contains quote (safe_attr s) = false)
  /\ safe_attr None = ""
  /\ (forall s, PyStr.contains quote s = false -> safe_attr (Some s) = s).
Proof.
  split; [|split; [reflexivity|]].
  - intros s. unfold quote, safe_attr. rewrite contains_char.
    apply has_char_replace_self. reflexivity.
  - intros s. unfold quote, safe_attr. rewrite contains_char. intros H.
    unfold PyStr.or_str. destruct (PyStr.truthy s) eqn:Ht.
    + apply replace_absent, H.
    + destruct s; [reflexivity | discriminate Ht].
Qed.

(** A logo URL without double quote. *)
Lemma safe_attr_no_quote_witness :
  safe_attr (Some "https://i.ytimg.com/vi/abc/hq.jpg") = "https://i.ytimg.com/vi/abc/hq.jpg".
Proof. apply (proj2 (proj2 safe_attr_no_quote)). reflexivity. Defined.

(** ** [normalize_input_line], beyond idempotence *)

(** X2: a blank line normalizes to the empty string and only a blank line
    does; for any other line the result is trimmed and begins with
    [http://] or [https://]; a line without scheme becomes the watch URL of
    its trimmed text. *)
Theorem normalize_input_line_scheme (line : string) :
  (normalize_input_line line = "" <-> PyStr.strip line = "")
  /\ (PyStr.strip line <> "" ->
      begins_with_scheme (normalize_input_line line) = true
      /\ PyStr.strip (normalize_input_line line) = normalize_input_line line)
  /\ (PyStr.strip line <> "" ->
      begins_with_scheme (PyStr.strip line) = false ->
      normalize_input_line line
      = "https://www.youtube.com/watch?v=" +:+ PyStr.strip line).
Proof.
  assert (Hblank : normalize_input_line line = "" <-> PyStr.strip line = "").
  { unfold normalize_input_line.
    destruct (PyStr.strip line) as [|c s] eqn:E; simpl; [tauto|].
    destruct (negb _); split; discriminate. }
  split; [exact Hblank | split].
  - intros Hne. destruct (normalize_shape line) as [H | [Hs Hp]].
    + apply Hblank in H. contradiction.
    + split; [exact Hp | exact Hs].
  - intros Hne Hp. unfold normalize_input_line. unfold begins_with_scheme in Hp.
    rewrite Hp. apply truthy_nonempty in Hne. rewrite Hne. reflexivity.
Qed.

(** A line that is a no-break space is blank; an identifier between a
    no-break space and an ideographic space becomes its watch URL. *)
Lemma normalize_input_line_scheme_witness :
  normalize_input_line (Utf8.encode_cp 160) = ""
  /\ begins_with_scheme
       (normalize_input_line (Utf8.encode_cp 160 +:+ "dQw4w9WgXcQ" +:+ Utf8.encode_cp 12288))
     = true
  /\ normalize_input_line (Utf8.encode_cp 160 +:+ "dQw4w9WgXcQ" +:+ Utf8.encode_cp 12288)
     = "https://www.youtube.com/watch?v=dQw4w9WgXcQ".
Proof.
  split; [|split].
  - apply (proj2 (proj1 (normalize_input_line_scheme (Utf8.encode_cp 160)))).
    reflexivity.
  - apply (proj1 (proj2 (normalize_input_line_scheme
                           (Utf8.encode_cp 160 +:+ "dQw4w9WgXcQ" +:+ Utf8.encode_cp 12288)))).
    vm_compute. discriminate.
  - refine (proj2 (proj2 (normalize_input_line_scheme
                            (Utf8.encode_cp 160 +:+ "dQw4w9WgXcQ" +:+ Utf8.encode_cp 12288)))
              _ eq_refl).
    vm_compute. discriminate.
Defined.

(** ** The format descriptor of [main] *)

(** X3: the format descriptor [main] builds is never empty, so strategy (b)
    of the stream resolution is never skipped in a run; the last [else] of
    its construction is dead: a custom quality takes the custom format (or
    the default when that is empty), anything else the pattern
    [<video>video+<audio>audio/best]. *)
Theorem format_string_nonempty (video_quality audio_quality quality_custom_format : string) :
  PyStr.truthy (format_string video_quality audio_quality quality_custom_format) = true
  /\ format_string video_quality audio_quality quality_custom_format
     = if String.eqb video_quality "custom" || String.eqb audio_quality "custom"
       then (if PyStr.truthy quality_custom_format then quality_custom_format
             else "worstvideo+bestaudio/best")
       else video_quality +:+ "video+" +:+ audio_quality +:+ "audio/best".
Proof.
  unfold format_string.
  destruct (String.eqb video_quality "custom"), (String.eqb audio_quality "custom");
    simpl; (split; [|reflexivity]);
    try (destruct (PyStr.truthy quality_custom_format) eqn:E; [exact E | reflexivity]).
  apply truthy_app_r. reflexivity.
Qed.

(** ** [is_manifest_url] *)

Lemma lower_ascii_idempotent s :
  PyStr.lower_ascii (PyStr.lower_ascii s) = PyStr.lower_ascii s.
Proof.
  induction s as [|c s IH]; [reflexivity|].
  simpl. rewrite lower_char_idempotent, IH. reflexivity.
Qed.

(** X4: the manifest test is case-insensitive: two URLs that differ only in
    the case of their letters are both manifests or both not, and the empty
    URL is none.  This holds for the case of the letters A to Z alone, as
    for the lower case of all letters that [url.lower()] takes. *)
Theorem is_manifest_url_case_insensitive :
  (forall u u', PyStr.lower u = PyStr.lower u' -> is_manifest_url u = is_manifest_url u')
  /\ (forall u, is_manifest_url (PyStr.lower u) = is_manifest_url u)
  /\ is_manifest_url "" = false
  /\ (forall u u', PyStr.lower_ascii u = PyStr.lower_ascii u' ->
                   is_manifest_url u = is_manifest_url u')
  /\ (forall u, is_manifest_url (PyStr.lower_ascii u) = is_manifest_url u).
Proof.
  assert (H : forall u u', PyStr.lower_ascii u = PyStr.lower_ascii u' ->
                           is_manifest_url u = is_manifest_url u').
  { intros u u' E. rewrite !is_manifest_url_ascii.
    rewrite <- (truthy_lower_ascii u), <- (truthy_lower_ascii u'), E. reflexivity. }
  split; [|split; [|split; [reflexivity | split; [exact H|]]]].
  - intros u u' E. unfold is_manifest_url.
    rewrite <- (truthy_lower u), <- (truthy_lower u'), E. reflexivity.
  - intros u. unfold is_manifest_url. cbv zeta.
    rewrite truthy_lower, !contains_lower_twice by (reflexivity || discriminate).
    reflexivity.
  - intros u. apply H, lower_ascii_idempotent.
Qed.

(** The same playlist URL in upper and in lower case; and with a dotted
    capital I, whose lower case is not the [i] of [manifest]. *)
Lemma is_manifest_url_case_insensitive_witness :
  is_manifest_url "HTTPS://CDN/LIVE.M3U8" = is_manifest_url "https://cdn/live.m3u8"
  /\ is_manifest_url "https://cdn/MANİFEST/1" = is_manifest_url "https://cdn/manİfest/1".
Proof.
  split.
  - apply (proj1 is_manifest_url_case_insensitive). reflexivity.
  - apply (proj1 (proj2 (proj2 (proj2 is_manifest_url_case_insensitive)))). reflexivity.
Defined.

(** ** Relative time: when the sentinel is rendered *)

(** X5: "expires now" is rendered exactly for the deltas whose whole
    seconds are zero or negative; any other delta renders at least one and
    at most three components after the leading word. *)
Theorem human_readable_sentinel_iff (delta : timedelta) :
  (human_readable_delta_greek_full delta = "λήγει τώρα" <-> total_seconds_int delta <= 0)
  /\ (0 < total_seconds_int delta ->
      exists parts,
        parts <> [] /\ (length parts <= 3)%nat
        /\ human_readable_delta_greek_full delta = "σε " +:+ PyStr.join " και " parts).
Proof.
  assert (Hparts : 0 < total_seconds_int delta ->
            exists parts,
              parts <> [] /\ (length parts <= 3)%nat
              /\ human_readable_delta_greek_full delta
                 = "σε " +:+ PyStr.join " και " parts).
  { intros Hpos. rewrite (human_readable_components delta Hpos). cbv zeta.
    set (total := total_seconds_int delta) in *.
    unfold Spec.render_components. eexists. split; [|split; [|reflexivity]].
    - unfold Spec.component.
      destruct (Z.eqb_spec (total / 3600) 0) as [Hh|]; [|discriminate].
      destruct (Z.eqb_spec (total mod 3600 / 60) 0) as [Hm|]; [|discriminate].
      destruct (Z.eqb_spec (total mod 3600 mod 60) 0) as [Hs|]; [|discriminate].
      exfalso.
      pose proof (Z.div_mod total 3600 ltac:(lia)).
      pose proof (Z.div_mod (total mod 3600) 60 ltac:(lia)). lia.
    - unfold Spec.component.
      destruct (_ =? 0), (_ =? 0), (_ =? 0); simpl; lia. }
  split; [|exact Hparts]. split.
  - intros H. destruct (Z.le_gt_cases (total_seconds_int delta) 0) as [Hle | Hgt];
      [exact Hle|]. exfalso.
    destruct (Hparts ltac:(lia)) as (parts & _ & _ & E). rewrite E in H.
    rewrite !append_cons in H. discriminate H.
  - apply human_readable_expired.
Qed.

(** Ninety seconds. *)
Lemma human_readable_sentinel_iff_witness :
  exists parts,
    parts <> [] /\ (length parts <= 3)%nat
    /\ human_readable_delta_greek_full 90000000 = "σε " +:+ PyStr.join " και " parts.
Proof. apply (proj2 (human_readable_sentinel_iff 90000000)). reflexivity. Defined.

(** ** [first_http_line] *)

(** X6: [first_http_line] returns the first line of the text whose trimmed
    form begins with [http://] or [https://], trimmed; it returns None
    exactly when no line does (so also for the empty text). *)
Theorem first_http_line_first_match (text : string) :
  (forall l,
      first_http_line text = Some l ->
      begins_with_scheme l = true /\ PyStr.strip l = l
      /\ exists pre ln post,
           PyStr.splitlines text = pre ++ ln :: post /\ l = PyStr.strip ln
           /\ Forall (fun x => begins_with_scheme (PyStr.strip x) = false) pre)
  /\ (first_http_line text = None <->
      Forall (fun x => begins_with_scheme (PyStr.strip x) = false)
             (PyStr.splitlines text)).
Proof.
  unfold first_http_line. destruct text as [|c text]; simpl negb; cbv iota.
  - split; [discriminate|]. split; [constructor | reflexivity].
  - split; [|apply first_http_line_loop_none].
    intros l H. apply first_http_line_loop_some in H
      as (pre & ln & post & E & -> & Hl & Hpre).
    split; [exact Hl|]. split; [apply strip_idempotent|].
    exists pre, ln, post. repeat split; assumption.
Qed.

(** A warning, a line separator (U+2028), then two URLs on lines of their
    own, the first between a no-break space and a blank: the first URL is
    returned, trimmed. *)
Lemma first_http_line_first_match_witness :
  let text := "WARNING: slow" +:+ Utf8.encode_cp 8232 +:+ Utf8.encode_cp 160
              +:+ "https://cdn/a.m3u8 " +:+ newline +:+ "https://cdn/b.m3u8" in
  begins_with_scheme "https://cdn/a.m3u8" = true
  /\ PyStr.strip "https://cdn/a.m3u8" = "https://cdn/a.m3u8"
  /\ exists pre ln post,
       PyStr.splitlines text = pre ++ ln :: post /\ "https://cdn/a.m3u8" = PyStr.strip ln
       /\ Forall (fun x => begins_with_scheme (PyStr.strip x) = false) pre.
Proof.
  intros text. apply (proj1 (first_http_line_first_match text)). reflexivity.
Defined.

(** ** The command line *)



(** ** How often the external tool is called *)

Lemma calls_app a b : calls (a ++ b) = (calls a + calls b)%nat.
Proof. unfold calls. rewrite List.filter_app, length_app. reflexivity. Qed.

Lemma pauses_app a b : pauses (a ++ b) = (pauses a + pauses b)%nat.
Proof. unfold pauses. rewrite List.filter_app, length_app. reflexivity. Qed.

Section CallBounds.

Variable World : Type.
Variable subprocess_run :
  list string -> Z -> World -> outcome CompletedProcess * World.
Variable json_loads : string -> outcome pyval.
Variable int_max_str_digits : nat.

Lemma retry_loop_calls args cookies cfb timeout retries backoff fuel :
  forall attempt st o st',
    retry_loop World subprocess_run fuel args cookies cfb timeout retries backoff
               attempt st = Some (o, st') ->
    exists evs,
      trace st' = trace st ++ evs
      /\ calls evs = S (pauses evs)
      /\ (calls evs <= S (Z.to_nat (retries - attempt)))%nat.
Proof.
  induction fuel as [|fuel IH]; intros attempt [w tr] o st'; [discriminate|].
  rewrite retry_loop_step.
  destruct (attempt_outcome _ _ _ _ _ _) as [p | e].
  - intros [= <- <-]. eexists. split; [reflexivity|]. split; [reflexivity|].
    cbv [calls List.filter is_run length]. lia.
  - destruct (Z.gtb_spec (attempt + 1) retries) as [Hgt | Hle].
    + intros [= <- <-]. eexists. split; [reflexivity|]. split; [reflexivity|].
      cbv [calls List.filter is_run length]. lia.
    + intros H. apply IH in H as (evs & E & Hc & Hb). simpl in E.
      exists ([EvRun (yt_dlp_command args cookies cfb) timeout]
              ++ [EvSleep (backoff * inject_Z (attempt + 1))] ++ evs).
      split; [rewrite E, <- !app_assoc; reflexivity|].
      rewrite !calls_app, !pauses_app.
      change (calls [EvRun (yt_dlp_command args cookies cfb) timeout]) with 1%nat.
      change (pauses [EvRun (yt_dlp_command args cookies cfb) timeout]) with 0%nat.
      change (calls [EvSleep (backoff * inject_Z (attempt + 1))]) with 0%nat.
      change (pauses [EvSleep (backoff * inject_Z (attempt + 1))]) with 1%nat.
      split; lia.
Qed.

(** X8: whatever the tool does, what [run_yt_dlp_cmd_with_retries] does to
    the outside is: a call of the command, then [k] times a pause followed
    by another call, for some [k] up to [max(retries, 0)], the [i]-th pause
    lasting [backoff * i].  So it calls the tool at least once and at most
    [max(retries, 0) + 1] times, pauses exactly once between two calls, never
    before the first or after the last, and does nothing else. *)
Theorem run_yt_dlp_cmd_with_retries_bound
    args cookies cfb timeout retries backoff st o st' :
  run_yt_dlp_cmd_with_retries World subprocess_run args cookies cfb timeout retries
                              backoff st = Some (o, st') ->
  exists k evs,
    (k <= Z.to_nat retries)%nat
    /\ evs = EvRun (yt_dlp_command args cookies cfb) timeout
             :: flat_map (fun i => [ EvSleep (backoff * inject_Z (Z.of_nat i));
                                     EvRun (yt_dlp_command args cookies cfb) timeout ])
                         (seq 1 k)
    /\ trace st' = trace st ++ evs
    /\ (1 <= calls evs <= Z.to_nat retries + 1)%nat
    /\ S (pauses evs) = calls evs
    /\ Forall (runs_only (yt_dlp_command args cookies cfb) timeout) evs.
Proof.
  intros H.
  destruct (run_yt_dlp_cmd_with_retries_traces World subprocess_run args cookies cfb
              timeout retries backoff st o st' H) as (evs' & E' & F).
  unfold run_yt_dlp_cmd_with_retries in H.
  destruct (retry_loop_shape World subprocess_run args cookies cfb timeout retries
              backoff _ 0%nat st o st' H) as (k & Hk & Es).
  apply retry_loop_calls in H as (evs & E & Hc & Hb).
  assert (evs' = evs) by (rewrite E' in E; apply app_inv_head in E; exact E).
  subst evs'.
  assert (evs = EvRun (yt_dlp_command args cookies cfb) timeout
                :: backoff_trace (yt_dlp_command args cookies cfb) timeout backoff 0 k)
    by (rewrite Es in E; apply app_inv_head in E; symmetry; exact E).
  exists k, evs. split; [rewrite Z.sub_0_r in Hk; exact Hk|].
  split; [exact H|]. split; [exact E|].
  rewrite Z.sub_0_r in Hb. repeat split; try lia. exact F.
Qed.

Lemma with_retries_within args cookies cfb timeout retries backoff :
  within (Z.to_nat retries + 1)
         (run_yt_dlp_cmd_with_retries World subprocess_run args cookies cfb timeout
                                      retries backoff).
Proof.
  intros st o st' H. unfold run_yt_dlp_cmd_with_retries in H.
  apply retry_loop_calls in H as (evs & E & _ & Hb).
  rewrite Z.sub_0_r in Hb. exists evs. split; [exact E | lia].
Qed.

Lemma within_ret {A : Type} (a : A) : within 0 (@ret (St World) A a).
Proof. intros st o st' [= <- <-]. exists []. rewrite app_nil_r. split; [reflexivity | constructor]. Qed.

Lemma within_lift {A : Type} (o : outcome A) : within 0 (@lift (St World) A o).
Proof. intros st o' st' [= <- <-]. exists []. rewrite app_nil_r. split; [reflexivity | constructor]. Qed.

Lemma within_weaken {A : Type} n n' (m : M (St World) A) :
  (n <= n')%nat -> within n m -> within n' m.
Proof. intros Hn Hm st o st' H. destruct (Hm _ _ _ H) as (evs & E & Hc). exists evs. split; [exact E | lia]. Qed.

Lemma within_bind {A B : Type} n1 n2 (m : M (St World) A) (k : A -> M (St World) B) :
  within n1 m -> (forall a, within n2 (k a)) -> within (n1 + n2) (bind m k).
Proof.
  intros Hm Hk st o st' H.
  apply bind_inv in H as [(a & st1 & H1 & H2) | (e & H1 & _)].
  - destruct (Hm _ _ _ H1) as (ev1 & E1 & C1).
    destruct (Hk _ _ _ _ H2) as (ev2 & E2 & C2).
    exists (ev1 ++ ev2). rewrite E2, E1, app_assoc, calls_app. split; [reflexivity | lia].
  - destruct (Hm _ _ _ H1) as (ev1 & E1 & C1). exists ev1. split; [exact E1 | lia].
Qed.

Lemma within_try {A : Type} n1 n2 (m : M (St World) A) (h : exn -> M (St World) A) :
  within n1 m -> (forall e, within n2 (h e)) -> within (n1 + n2) (try_except m h).
Proof.
  intros Hm Hh st o st' H.
  apply try_except_inv in H as [(a & H1 & _) | (e & st1 & H1 & H2)].
  - destruct (Hm _ _ _ H1) as (ev1 & E1 & C1). exists ev1. split; [exact E1 | lia].
  - destruct (Hm _ _ _ H1) as (ev1 & E1 & C1).
    destruct (Hh _ _ _ _ H2) as (ev2 & E2 & C2).
    exists (ev1 ++ ev2). rewrite E2, E1, app_assoc, calls_app. split; [reflexivity | lia].
Qed.

Lemma get_minimal_meta_within url timeout cookies cfb retries :
  within (Z.to_nat retries + 1)
         (get_minimal_meta World subprocess_run url timeout cookies cfb retries).
Proof.
  unfold get_minimal_meta.
  eapply within_weaken; [|apply (within_try (Z.to_nat retries + 1) 0)].
  - lia.
  - eapply within_weaken; [|apply (within_bind (Z.to_nat retries + 1) 0)].
    + lia.
    + apply with_retries_within.
    + intros proc. destruct (negb _); [apply within_ret|].
      apply (within_bind 0 0); [apply within_lift | intros first; apply within_ret].
  - intros e. apply within_ret.
Qed.

Lemma http_line_within (m : option string) :
  within 0 (match m with
            | Some l => if PyStr.truthy l then @ret (St World) _ (Some (PStr l)) else ret None
            | None => ret None
            end).
Proof. destruct m as [l|]; [destruct (PyStr.truthy l)|]; apply within_ret. Qed.

Lemma direct_default_within url timeout cookies cfb retries :
  within (Z.to_nat retries + 1)
         (direct_default World subprocess_run url timeout cookies cfb retries).
Proof.
  unfold direct_default.
  eapply within_weaken; [|apply (within_bind (Z.to_nat retries + 1) 0)].
  - lia.
  - apply with_retries_within.
  - intros proc. apply http_line_within.
Qed.

Lemma direct_quality_within url fmt timeout cookies cfb retries :
  within (Z.to_nat retries + 1)
         (direct_quality World subprocess_run url fmt timeout cookies cfb retries).
Proof.
  unfold direct_quality. destruct (PyStr.truthy fmt).
  - eapply within_weaken; [|apply (within_bind (Z.to_nat retries + 1) 0)].
    + lia.
    + apply with_retries_within.
    + intros proc. apply http_line_within.
  - eapply within_weaken; [|apply within_ret]. lia.
Qed.

Lemma json_metadata_within url timeout cookies cfb retries :
  within (Z.to_nat retries + 1)
         (json_metadata World subprocess_run json_loads url timeout cookies cfb retries).
Proof.
  unfold json_metadata.
  eapply within_weaken; [|apply (within_bind (Z.to_nat retries + 1) 0)].
  - lia.
  - apply with_retries_within.
  - intros proc. destruct (PyStr.truthy _); [|apply within_ret].
    apply (within_bind 0 0); [apply within_lift | intros parsed; apply within_lift].
Qed.

Lemma strategy_within {A : Type} n (s : M (St World) (option A)) :
  within n s -> within n (try_except s (fun _ => ret None)).
Proof.
  intros H. eapply within_weaken; [|apply (within_try n 0)].
  - lia.
  - exact H.
  - intros e. apply within_ret.
Qed.

Lemma get_stream_url_within url fmt timeout cookies cfb retries :
  within (3 * (Z.to_nat retries + 1))
         (get_stream_url_with_ytdlp World subprocess_run json_loads url fmt timeout
                                    cookies cfb retries).
Proof.
  unfold get_stream_url_with_ytdlp, pass.
  set (n := (Z.to_nat retries + 1)%nat).
  eapply within_weaken; [|apply (within_bind n (n + n))]; [lia | |].
  - apply strategy_within, direct_default_within.
  - intros [v|]; [eapply within_weaken; [|apply within_ret]; lia|].
    apply (within_bind n n).
    + apply strategy_within, direct_quality_within.
    + intros [v|]; [eapply within_weaken; [|apply within_ret]; lia|].
      eapply within_weaken; [|apply (within_bind n 0)]; [lia | |].
      * apply strategy_within, json_metadata_within.
      * intros [v|]; apply within_ret.
Qed.

Lemma worker_stream_within line watch_url fmt timeout cookies cfb fallback_watch retries
    meta :
  within (3 * (Z.to_nat retries + 1))
         (worker_stream World subprocess_run json_loads int_max_str_digits line
                        watch_url fmt timeout cookies cfb fallback_watch retries meta).
Proof.
  unfold worker_stream. destruct meta as [[meta_id title] thumbnail].
  set (n := (3 * (Z.to_nat retries + 1))%nat).
  eapply within_weaken; [|apply (within_bind n 0)]; [lia | |].
  - eapply within_weaken; [|apply (within_try n 0)]; [lia | |].
    + apply get_stream_url_within.
    + intros e. apply within_ret.
  - intros v. apply (within_bind 0 0).
    + destruct (Py.truthy _); [apply within_lift | apply within_ret].
    + intros ex. apply within_ret.
Qed.

Lemma worker_metadata_within line watch_url timeout cookies cfb (no_metadata : bool)
    retries :
  within (if no_metadata then 0%nat else (Z.to_nat retries + 1)%nat)
         (worker_metadata World subprocess_run line watch_url timeout cookies cfb
                          no_metadata retries).
Proof.
  unfold worker_metadata. destruct no_metadata; simpl; [apply within_ret|].
  eapply within_weaken; [|apply (within_bind (Z.to_nat retries + 1) 0)]; [lia | |].
  - apply get_minimal_meta_within.
  - intros [[m t] th]. destruct (_ || _); apply within_ret.
Qed.

(** X9: a worker calls the external tool at most [4 * (max(retries, 0) + 1)]
    times, at most [3 * (max(retries, 0) + 1)] times when metadata are
    switched off, and not at all for a blank line. *)
Theorem check_url_entry_buffered_calls
    raw_line fmt timeout cookies cfb fallback_watch (no_metadata : bool) full_metadata
    retries st o st' :
  check_url_entry_buffered World subprocess_run json_loads int_max_str_digits raw_line
    fmt timeout cookies cfb fallback_watch no_metadata full_metadata retries st
  = Some (o, st') ->
  exists evs,
    trace st' = trace st ++ evs
    /\ (calls evs <= (if no_metadata then 3 else 4) * (Z.to_nat retries + 1))%nat
    /\ (PyStr.strip raw_line = "" -> evs = []).
Proof.
  unfold check_url_entry_buffered. cbv zeta.
  destruct (PyStr.strip raw_line) as [|c line] eqn:E.
  - simpl. intros [= <- <-]. exists []. rewrite app_nil_r.
    split; [reflexivity | split; [apply Nat.le_0_l | reflexivity]].
  - change (negb (PyStr.truthy (String c line))) with false. cbv iota.
    intros H.
    pose proof (within_bind
                  (if no_metadata then 0%nat else (Z.to_nat retries + 1)%nat)
                  (3 * (Z.to_nat retries + 1))%nat
                  (worker_metadata World subprocess_run (String c line)
                     (normalize_input_line (String c line)) timeout cookies cfb
                     no_metadata retries)
                  (fun meta =>
                     worker_stream World subprocess_run json_loads int_max_str_digits
                       (String c line) (normalize_input_line (String c line)) fmt
                       timeout cookies cfb fallback_watch retries meta)
                  (worker_metadata_within (String c line)
                     (normalize_input_line (String c line)) timeout cookies cfb
                     no_metadata retries)
                  (fun meta =>
                     worker_stream_within (String c line)
                       (normalize_input_line (String c line)) fmt timeout cookies cfb
                       fallback_watch retries meta)) as W.
    destruct (W _ _ _ H) as (evs & Ev & Hc). exists evs.
    split; [exact Ev|]. split; [destruct no_metadata; lia | discriminate].
Qed.

End CallBounds.

(** Three retries allowed, a tool that times out twice and then answers:
    three calls, with pauses of 1.5 s and 3 s between them. *)
Lemma run_yt_dlp_cmd_with_retries_bound_witness :
  let cmd := ["yt-dlp"; "-g"; "u"] in
  let script := [Raises TimeoutExpired; Raises TimeoutExpired;
                 Returns (mkProc "https://cdn/a.m3u8" "")] in
  exists k evs,
    (k <= Z.to_nat 3)%nat
    /\ evs = EvRun (yt_dlp_command ["-g"; "u"] None None) 60
             :: flat_map (fun i => [ EvSleep (default_backoff * inject_Z (Z.of_nat i));
                                     EvRun (yt_dlp_command ["-g"; "u"] None None) 60 ])
                         (seq 1 k)
    /\ [EvRun cmd 60; EvSleep (default_backoff * inject_Z 1); EvRun cmd 60;
        EvSleep (default_backoff * inject_Z 2); EvRun cmd 60] = [] ++ evs
    /\ (1 <= calls evs <= Z.to_nat 3 + 1)%nat
    /\ S (pauses evs) = calls evs
    /\ Forall (runs_only (yt_dlp_command ["-g"; "u"] None None) 60) evs.
Proof.
  intros cmd script.
  apply (run_yt_dlp_cmd_with_retries_bound (list (outcome CompletedProcess)) scripted_run
           ["-g"; "u"] None None 60 3 default_backoff (mkSt script [])
           (Returns (mkProc "https://cdn/a.m3u8" ""))
           (mkSt [] [EvRun cmd 60; EvSleep (default_backoff * inject_Z 1); EvRun cmd 60;
                     EvSleep (default_backoff * inject_Z 2); EvRun cmd 60])).
  reflexivity.
Defined.

(** The line [abc] with metadata on and a tool that always times out. *)
Lemma check_url_entry_buffered_calls_witness :
  exists o st' evs,
    check_url_entry_buffered unit (stateless_run always_timeout) json_loads_fails
      4300%nat "abc" "worst" 60 None None true false false 1 (mkSt tt [])
    = Some (o, st')
    /\ trace st' = [] ++ evs
    /\ (calls evs <= 4 * (Z.to_nat 1 + 1))%nat
    /\ (PyStr.strip "abc" = "" -> evs = []).
Proof.
  destruct (check_url_entry_buffered unit (stateless_run always_timeout) json_loads_fails
              4300%nat "abc" "worst" 60 None None true false false 1 (mkSt tt []))
    as [[o st']|] eqn:E; [|discriminate E].
  exists o, st'.
  destruct (check_url_entry_buffered_calls unit (stateless_run always_timeout)
              json_loads_fails 4300%nat "abc" "worst" 60 None None true false false 1
              (mkSt tt []) o st' E) as (evs & H).
  exists evs. split; [reflexivity | exact H].
Defined.

(** ** [get_minimal_meta]: what it returns *)

Lemma meta_field_clean parts i : clean_field (meta_field parts i).
Proof.
  unfold meta_field. destruct (nth_error parts i) as [p|]; [|exact I].
  destruct (PyStr.truthy (PyStr.strip p)) eqn:Ht; [|exact I].
  split; [exact Ht | apply strip_idempotent].
Qed.

(** X10: whatever the tool prints or does, [get_minimal_meta] returns a
    triple whose fields are each None or a trimmed, non-empty string: an
    empty field is never passed on as a value. *)
Theorem get_minimal_meta_fields
    (World : Type)
    (subprocess_run : list string -> Z -> World -> outcome CompletedProcess * World)
    url timeout cookies cfb retries st o st' :
  get_minimal_meta World subprocess_run url timeout cookies cfb retries st
  = Some (o, st') ->
  exists meta_id title thumbnail,
    o = Returns (meta_id, title, thumbnail)
    /\ clean_field meta_id /\ clean_field title /\ clean_field thumbnail.
Proof.
  unfold get_minimal_meta. intros H.
  apply try_except_inv in H as [(a & H & ->) | (e & st1 & _ & H)].
  - apply bind_inv in H as [(proc & st1 & _ & H) | (e & _ & [=])].
    destruct (negb _).
    + injection H as <- _. exists None, None, None. repeat split.
    + apply bind_inv in H as [(first & st2 & _ & H) | (e & _ & [=])].
      injection H as <- _. eexists _, _, _. split; [reflexivity|].
      repeat split; apply meta_field_clean.
  - injection H as <- _. exists None, None, None. repeat split.
Qed.

(** A tool that prints an identifier between a no-break space and a
    blank, a title of blanks only, and a thumbnail: the identifier and the
    thumbnail come back trimmed, the title as None. *)
Lemma get_minimal_meta_fields_witness :
  let line := Utf8.encode_cp 160 +:+ "abc123 " +:+ tab +:+ "  " +:+ tab
              +:+ " https://i/t.jpg" +:+ newline in
  exists meta_id title thumbnail,
    Returns (Some "abc123", @None string, Some "https://i/t.jpg")
    = Returns (meta_id, title, thumbnail)
    /\ clean_field meta_id /\ clean_field title /\ clean_field thumbnail.
Proof.
  intros line.
  apply (get_minimal_meta_fields (list (outcome CompletedProcess)) scripted_run
           "u" 60 None None 0 (mkSt [Returns (mkProc line "")] []) _
           (mkSt [] [EvRun ["yt-dlp"; "--print";
                            "%(id)s" +:+ tab +:+ "%(title)s" +:+ tab +:+ "%(thumbnail)s";
                            "u"] 60])).
  vm_compute. reflexivity.
Defined.

(** ** [get_minimal_meta]: the line it parses *)

Lemma clean_behind s :
  PyStr.strip s = s -> PyStr.behind PyStr.whitespace s = None.
Proof. intros H. apply lstrip_fixed_inv, clean_lstrip, H. Qed.

(** A trimmed field, then text that begins with an ASCII byte: the field
    keeps the front. *)
Lemma lstrip_field f c rest :
  PyStr.truthy f = true -> PyStr.strip f = f -> Utf8.is_ascii c = true ->
  PyStr.lstrip (f +:+ String c rest) = f +:+ String c rest.
Proof.
  intros Ht Hs Hc. apply lstrip_fixed, behind_whitespace_joint;
    [apply truthy_nonempty, Ht | exact Hc | apply clean_behind, Hs].
Qed.

(** The line feed the tool prints behind the last field is trimmed away. *)
Lemma rstrip_field f :
  PyStr.strip f = f -> PyStr.rstrip (f +:+ newline) = f.
Proof.
  intros Hs. unfold newline.
  rewrite rstrip_joint_blank by reflexivity. apply clean_rstrip, Hs.
Qed.

Lemma rstrip_tab_field f :
  PyStr.truthy f = true -> PyStr.strip f = f ->
  PyStr.rstrip (String "009" (f +:+ newline)) = String "009" f.
Proof.
  intros Ht Hs. rewrite rstrip_cons.
  rewrite (lstrip_eq (String "009" (f +:+ newline))).
  change (PyStr.behind PyStr.whitespace (String "009" (f +:+ newline)))
    with (Some (f +:+ newline)).
  unfold newline at 1. rewrite lstrip_field by (assumption || reflexivity).
  fold newline. rewrite rstrip_field by exact Hs.
  destruct f; [discriminate Ht | reflexivity].
Qed.

Lemma tab_app s : tab +:+ s = String "009" s.
Proof. reflexivity. Qed.

Lemma rstrip_tab_fields title thumbnail :
  PyStr.truthy thumbnail = true -> PyStr.strip thumbnail = thumbnail ->
  PyStr.rstrip (String "009" (title +:+ String "009" (thumbnail +:+ newline)))
  = String "009" (title +:+ String "009" thumbnail).
Proof.
  intros Ht Hs.
  change (String "009" (title +:+ String "009" (thumbnail +:+ newline)))
    with (String "009" title +:+ String "009" (thumbnail +:+ newline)).
  rewrite rstrip_joint; rewrite ?rstrip_tab_field by assumption;
    (reflexivity || discriminate).
Qed.

Lemma strip_printed meta_id title thumbnail :
  PyStr.truthy meta_id = true -> PyStr.strip meta_id = meta_id ->
  PyStr.truthy thumbnail = true -> PyStr.strip thumbnail = thumbnail ->
  PyStr.strip (meta_id +:+ tab +:+ title +:+ tab +:+ thumbnail +:+ newline)
  = meta_id +:+ tab +:+ title +:+ tab +:+ thumbnail.
Proof.
  intros Hi1 Hi2 Hh1 Hh2. unfold PyStr.strip. rewrite !tab_app.
  rewrite lstrip_field by (assumption || reflexivity).
  rewrite rstrip_joint; rewrite ?rstrip_tab_fields by assumption;
    (reflexivity || discriminate).
Qed.

Lemma strip_printed_one field :
  PyStr.truthy field = true -> PyStr.strip field = field ->
  PyStr.strip (field +:+ newline) = field.
Proof.
  intros H1 H2. unfold PyStr.strip, newline.
  rewrite lstrip_field by (assumption || reflexivity).
  fold newline. apply rstrip_field, H2.
Qed.

Lemma one_field_tab s : one_field s = true -> has_char "009" s = false.
Proof. unfold one_field. intros H. apply andb_prop in H as [H _]. apply negb_true_iff, H. Qed.

Lemma one_field_line s :
  one_field s = true -> PyStr.free_of PyStr.linebreaks s = true.
Proof. unfold one_field. intros H. apply andb_prop in H as [_ H]. exact H. Qed.

Lemma free_of_tab s :
  PyStr.free_of PyStr.linebreaks s = true ->
  PyStr.free_of PyStr.linebreaks (String "009" s) = true.
Proof. intros H. rewrite free_of_cons. exact H. Qed.

Lemma split_last s : has_char "009" s = false -> PyStr.split "009" s = [s].
Proof.
  induction s as [|c s IH]; [reflexivity|].
  intros H. simpl in H. apply orb_false_elim in H as [Hc Hs].
  simpl. rewrite Hc, (IH Hs). reflexivity.
Qed.

Lemma split_field s rest :
  has_char "009" s = false ->
  PyStr.split "009" (s +:+ tab +:+ rest) = s :: PyStr.split "009" rest.
Proof.
  induction s as [|c s IH]; [reflexivity|].
  intros H. simpl in H. apply orb_false_elim in H as [Hc Hs].
  rewrite append_cons. simpl. rewrite Hc, (IH Hs). reflexivity.
Qed.

Lemma meta_field_here (p : string) parts before :
  PyStr.truthy p = true -> PyStr.strip p = p ->
  meta_field (before ++ p :: parts) (length before) = Some p.
Proof.
  intros H1 H2. unfold meta_field.
  rewrite nth_error_app2 by lia. rewrite Nat.sub_diag. simpl.
  rewrite H2, H1. reflexivity.
Qed.

Section MetaParse.

Variable World : Type.
Variable subprocess_run :
  list string -> Z -> World -> outcome CompletedProcess * World.
Variables (url : string) (timeout : Z) (cookies cfb : option string) (retries : Z).

#[local] Abbreviation print_call :=
  (run_yt_dlp_cmd_with_retries World subprocess_run
     ["--print"; "%(id)s" +:+ tab +:+ "%(title)s" +:+ tab +:+ "%(thumbnail)s"; url]
     cookies cfb timeout retries default_backoff).
#[local] Abbreviation meta_call :=
  (get_minimal_meta World subprocess_run url timeout cookies cfb retries).

(** X11: the line the tool prints is read back field by field: from
    [id TAB title TAB thumbnail LF] with clean fields (trimmed, non-empty,
    without tab or line boundary) [get_minimal_meta] returns the three
    fields; from [id LF] alone it returns the identifier and no title and
    no thumbnail. *)
Theorem get_minimal_meta_parse st proc st' meta_id title thumbnail :
  print_call st = Some (Returns proc, st') ->
  PyStr.truthy meta_id = true -> PyStr.strip meta_id = meta_id ->
  one_field meta_id = true ->
  PyStr.truthy title = true -> PyStr.strip title = title ->
  one_field title = true ->
  PyStr.truthy thumbnail = true -> PyStr.strip thumbnail = thumbnail ->
  one_field thumbnail = true ->
  (stdout proc = meta_id +:+ tab +:+ title +:+ tab +:+ thumbnail +:+ newline ->
   meta_call st = Some (Returns (Some meta_id, Some title, Some thumbnail), st'))
  /\ (stdout proc = meta_id +:+ newline ->
      meta_call st = Some (Returns (Some meta_id, None, None), st')).
Proof.
  intros Hrun Hi1 Hi2 Hi3 Ht1 Ht2 Ht3 Hh1 Hh2 Hh3.
  split; intros Hout.
  - assert (Htext : PyStr.strip (proc_text proc)
                    = meta_id +:+ tab +:+ title +:+ tab +:+ thumbnail).
    { unfold proc_text. rewrite Hout.
      replace (PyStr.truthy (meta_id +:+ tab +:+ title +:+ tab +:+ thumbnail
                             +:+ newline)) with true
        by (symmetry; apply truthy_app_l, Hi1).
      apply strip_printed; assumption. }
    unfold get_minimal_meta, try_except, bind. rewrite Hrun, Htext.
    replace (PyStr.truthy (meta_id +:+ tab +:+ title +:+ tab +:+ thumbnail)) with true
      by (symmetry; apply truthy_app_l, Hi1).
    simpl negb. cbv iota.
    rewrite splitlines_one.
    + unfold lift, ret. rewrite split_field by apply one_field_tab, Hi3.
      rewrite split_field by apply one_field_tab, Ht3.
      rewrite split_last by apply one_field_tab, Hh3.
      rewrite (meta_field_here meta_id [title; thumbnail] [] Hi1 Hi2
               : meta_field [meta_id; title; thumbnail] 0%nat = Some meta_id).
      rewrite (meta_field_here title [thumbnail] [meta_id] Ht1 Ht2
               : meta_field [meta_id; title; thumbnail] 1%nat = Some title).
      rewrite (meta_field_here thumbnail [] [meta_id; title] Hh1 Hh2
               : meta_field [meta_id; title; thumbnail] 2%nat = Some thumbnail).
      reflexivity.
    + apply append_nonempty, truthy_nonempty, Hi1.
    + rewrite !tab_app.
      apply free_of_joint; [reflexivity | apply one_field_line, Hi3|].
      apply free_of_tab. apply free_of_joint; [reflexivity | apply one_field_line, Ht3|].
      apply free_of_tab, one_field_line, Hh3.
  - assert (Htext : PyStr.strip (proc_text proc) = meta_id).
    { unfold proc_text. rewrite Hout.
      replace (PyStr.truthy (meta_id +:+ newline)) with true
        by (symmetry; apply truthy_app_l, Hi1).
      apply strip_printed_one; assumption. }
    unfold get_minimal_meta, try_except, bind. rewrite Hrun, Htext, Hi1.
    simpl negb. cbv iota.
    rewrite splitlines_one
      by (try (apply truthy_nonempty, Hi1); apply one_field_line, Hi3).
    unfold lift, ret. rewrite split_last by apply one_field_tab, Hi3.
    rewrite (meta_field_here meta_id [] [] Hi1 Hi2
             : meta_field [meta_id] 0%nat = Some meta_id).
    reflexivity.
Qed.

End MetaParse.

(** A tool that prints the three fields of a video; the title has a
    dash, the Greek word for live and a no-break space inside. *)
Lemma get_minimal_meta_parse_witness :
  let title := "Δελτίο – ζωντανά" +:+ Utf8.encode_cp 160 +:+ "24/7" in
  let line := "abc123" +:+ tab +:+ title +:+ tab +:+ "https://i/t.jpg" +:+ newline in
  let script := [Returns (mkProc line "")] in
  get_minimal_meta (list (outcome CompletedProcess)) scripted_run "u" 60 None None 0
                   (mkSt script [])
  = Some (Returns (Some "abc123", Some title, Some "https://i/t.jpg"),
          mkSt [] [EvRun ["yt-dlp"; "--print";
                          "%(id)s" +:+ tab +:+ "%(title)s" +:+ tab +:+ "%(thumbnail)s";
                          "u"] 60]).
Proof.
  intros title line script.
  apply (proj1 (get_minimal_meta_parse (list (outcome CompletedProcess)) scripted_run
                  "u" 60 None None 0 (mkSt script []) (mkProc line "") _
                  "abc123" title "https://i/t.jpg"
                  eq_refl eq_refl eq_refl eq_refl eq_refl eq_refl eq_refl eq_refl
                  eq_refl eq_refl)).
  reflexivity.
Defined.

(** ** [get_stream_url_with_ytdlp]: what it returns *)

Section StreamValue.

Variable World : Type.
Variable subprocess_run :
  list string -> Z -> World -> outcome CompletedProcess * World.
Variable json_loads : string -> outcome pyval.
Variables (url fmt : string) (timeout : Z) (cookies cfb : option string) (retries : Z).

#[local] Abbreviation stream_call :=
  (get_stream_url_with_ytdlp World subprocess_run json_loads url fmt timeout cookies
                             cfb retries).

(** X12: the stream resolution never raises and never returns an empty or
    otherwise falsy value in place of None: it returns None, or a trimmed
    line of the output of [-g] that begins with [http://] or [https://], or
    a truthy value found by the scan of the decoded metadata. *)
Theorem get_stream_url_value st o st' :
  stream_call st = Some (o, st') ->
  exists v,
    o = Returns v
    /\ (v = PNone \/ Py.truthy v = true)
    /\ (v = PNone
        \/ (exists l, v = PStr l /\ begins_with_scheme l = true /\ PyStr.strip l = l)
        \/ (exists text parsed,
              json_loads text = Returns parsed
              /\ scan_parsed parsed = Returns (Some v))).
Proof.
  intros H.
  destruct (get_stream_url_never_raises World subprocess_run json_loads url fmt timeout
              cookies cfb retries st) as (v & st2 & Hv).
  rewrite Hv in H. injection H as <- <-. exists v. split; [reflexivity|].
  split; [eapply get_stream_url_none_or_truthy, Hv|].
  destruct (yields_or_fails
              (direct_default World subprocess_run url timeout cookies cfb retries) st
              (direct_default_total _ _ _ _ _ _ _))
    as [(va & st1 & Ha) | (st1 & Ha)].
  { rewrite (get_stream_url_a _ _ json_loads _ fmt _ _ _ _ _ _ _ Ha) in Hv.
    injection Hv as <- _.
    apply direct_default_yields in Ha as (proc & l & _ & Hl & ->).
    apply first_http_line_shape in Hl as (Hs & Ht).
    right. left. exists l. repeat split; assumption. }
  destruct (yields_or_fails
              (direct_quality World subprocess_run url fmt timeout cookies cfb retries)
              st1 (direct_quality_total _ _ _ _ _ _ _ _))
    as [(vb & st3 & Hb) | (st3 & Hb)].
  { rewrite (get_stream_url_b _ _ json_loads _ _ _ _ _ _ _ _ _ _ Ha Hb) in Hv.
    injection Hv as <- _.
    apply direct_quality_yields in Hb as (_ & proc & l & _ & Hl & ->).
    apply first_http_line_shape in Hl as (Hs & Ht).
    right. left. exists l. repeat split; assumption. }
  destruct (yields_or_fails
              (json_metadata World subprocess_run json_loads url timeout cookies cfb
                 retries) st3 (json_metadata_total _ _ _ _ _ _ _ _))
    as [(vc & st4 & Hc) | (st4 & Hc)].
  { rewrite (get_stream_url_c _ _ _ _ _ _ _ _ _ _ _ _ _ _ Ha Hb Hc) in Hv.
    injection Hv as <- _. right. right. eapply json_metadata_yields, Hc. }
  rewrite (get_stream_url_none _ _ _ _ _ _ _ _ _ _ _ _ _ Ha Hb Hc) in Hv.
  injection Hv as <- _. left. reflexivity.
Qed.

End StreamValue.

(** A tool that answers [-g] with a warning and a manifest URL. *)
Lemma get_stream_url_value_witness :
  let text := "WARNING: x" +:+ newline +:+ "https://cdn/live.m3u8" +:+ newline in
  exists v,
    Returns (PStr "https://cdn/live.m3u8") = Returns v
    /\ (v = PNone \/ Py.truthy v = true)
    /\ (v = PNone
        \/ (exists l, v = PStr l /\ begins_with_scheme l = true /\ PyStr.strip l = l)
        \/ (exists text parsed,
              json_loads_fails text = Returns parsed
              /\ scan_parsed parsed = Returns (Some v))).
Proof.
  intros text.
  apply (get_stream_url_value (list (outcome CompletedProcess)) scripted_run
           json_loads_fails "u" "worst" 60 None None 0
           (mkSt [Returns (mkProc text "")] []) _
           (mkSt [] [EvRun ["yt-dlp"; "-g"; "u"] 60])).
  reflexivity.
Defined.

(** ** Strategy (c) on metadata that are not of the expected shape *)

Lemma get_non_dict f k : is_dict f = false -> Py.get f k = Raises AttributeError.
Proof. destruct f; (discriminate || reflexivity). Qed.

(** X13: the scan of the decoded metadata gives up on the first entry it
    cannot read.  A document that is not an object yields nothing; a truthy
    top-level [url] wins whatever else the object holds; and when the
    top-level [url] is missing and the first requested format is not an
    object, the scan raises [AttributeError], so that strategy (c) fails
    without looking at [formats]. *)
Theorem scan_parsed_malformed
    (World : Type)
    (subprocess_run : list string -> Z -> World -> outcome CompletedProcess * World)
    (json_loads : string -> outcome pyval)
    (url : string) (timeout : Z) (cookies cfb : option string) (retries : Z) :
  (forall parsed, is_dict parsed = false -> scan_parsed parsed = Returns None)
  /\ (forall d,
        Py.truthy (Py.lookup d "url") = true ->
        scan_parsed (PDict d) = Returns (Some (Py.lookup d "url")))
  /\ (forall d f rest,
        Py.truthy (Py.lookup d "url") = false ->
        Py.lookup d "requested_formats" = PList (f :: rest) ->
        is_dict f = false ->
        scan_parsed (PDict d) = Raises AttributeError
        /\ forall st proc st1,
             run_yt_dlp_cmd_with_retries World subprocess_run ["-j"; url] cookies cfb
               timeout retries default_backoff st = Some (Returns proc, st1) ->
             PyStr.truthy (PyStr.strip (proc_text proc)) = true ->
             json_loads (PyStr.strip (proc_text proc)) = Returns (PDict d) ->
             fails (json_metadata World subprocess_run json_loads url timeout cookies
                      cfb retries) st st1).
Proof.
  split; [|split].
  - intros parsed H. destruct parsed; (discriminate || reflexivity).
  - intros d H. rewrite scan_parsed_dict. cbn [Py.get obind]. rewrite H. reflexivity.
  - intros d f rest Hu Hreq Hf.
    assert (Hscan : scan_parsed (PDict d) = Raises AttributeError).
    { rewrite scan_parsed_dict. cbn [Py.get obind]. rewrite Hu, Hreq.
      rewrite first_url_cons, (get_non_dict f "url" Hf). reflexivity. }
    split; [exact Hscan|].
    intros st proc st1 Hrun Ht Hj. right. exists AttributeError.
    rewrite (json_metadata_scan _ _ _ _ _ _ _ _ _ _ _ _ Hrun Ht Hj), Hscan.
    reflexivity.
Qed.

(** Metadata whose first requested format is a string, with a good
    [formats] list behind it. *)
Lemma scan_parsed_malformed_witness :
  scan_parsed (PDict [ ("requested_formats", PList [PStr "137+140"]);
                       ("formats", PList [PDict [("url", PStr "https://cdn/v.mp4")]]) ])
  = Raises AttributeError.
Proof.
  apply (proj2 (proj2 (scan_parsed_malformed unit (stateless_run always_timeout)
                         json_loads_fails "u" 60 None None 0))
           [ ("requested_formats", PList [PStr "137+140"]);
             ("formats", PList [PDict [("url", PStr "https://cdn/v.mp4")]]) ]
           (PStr "137+140") []); reflexivity.
Defined.

(** ** [check_url_entry_buffered]: the record it returns *)

Lemma find_expire_some imax v n :
  find_expire imax v = Returns (Some n) ->
  exists s digits,
    v = PStr s /\ expire_re_search s = Some digits /\ n = PyStr.int_of_digits digits
    /\ 0 <= n.
Proof.
  destruct v; try discriminate. unfold find_expire.
  destruct (expire_re_search s) as [digits|] eqn:E; [|discriminate].
  unfold py_int. destruct (_ || _); [|discriminate].
  intros [= <-]. exists s, digits. repeat split; [exact E|].
  apply int_of_digits_nonneg.
Qed.

Lemma get_minimal_meta_returns
    (World : Type)
    (subprocess_run : list string -> Z -> World -> outcome CompletedProcess * World)
    url timeout cookies cfb retries st meta_id title thumbnail st' :
  get_minimal_meta World subprocess_run url timeout cookies cfb retries st
  = Some (Returns (meta_id, title, thumbnail), st') ->
  clean_field meta_id /\ clean_field title /\ clean_field thumbnail.
Proof.
  unfold get_minimal_meta. intros H.
  apply try_except_inv in H as [(a & H & E) | (e & st1 & _ & H)].
  - injection E as <-.
    apply bind_inv in H as [(proc & st1 & _ & H) | (e & _ & [=])].
    destruct (negb _).
    + injection H as <- <- <- _. repeat split; exact I.
    + apply bind_inv in H as [(first & st2 & _ & H) | (e & _ & [=])].
      injection H as <- <- <- _. repeat split; apply meta_field_clean.
  - injection H as <- <- <- _. repeat split; exact I.
Qed.

Lemma worker_metadata_clean
    (World : Type)
    (subprocess_run : list string -> Z -> World -> outcome CompletedProcess * World)
    line watch_url timeout cookies cfb no_metadata retries st meta_id title thumbnail st' :
  worker_metadata World subprocess_run line watch_url timeout cookies cfb no_metadata
                  retries st = Some (Returns (meta_id, title, thumbnail), st') ->
  clean_field (Some line) ->
  clean_field meta_id /\ clean_field (Some title) /\ clean_field thumbnail.
Proof.
  intros H Hl. unfold worker_metadata in H.
  destruct (negb no_metadata); [|injection H as <- <- <- _; repeat split; apply Hl].
  apply bind_inv in H as [([[m t] th] & st1 & Hm & H) | (e & _ & [=])].
  apply get_minimal_meta_returns in Hm as (Cm & Ct & Cth).
  destruct (_ || _); injection H as <- <- <- _; [|repeat split; apply Hl].
  split; [|split].
  - unfold PyStr.or_else. destruct (PyStr.otruthy m); [exact Cm | exact I].
  - unfold PyStr.or_str. destruct t as [t|]; [|exact Hl].
    destruct (PyStr.truthy t); [exact Ct | exact Hl].
  - unfold PyStr.or_else. destruct (PyStr.otruthy th); [exact Cth | exact I].
Qed.

Section WorkerRecord.

Variable World : Type.
Variable subprocess_run :
  list string -> Z -> World -> outcome CompletedProcess * World.
Variable json_loads : string -> outcome pyval.
Variable int_max_str_digits : nat.
Variables (fmt : string) (timeout : Z) (cookies cfb : option string).
Variables (fallback_watch no_metadata full_metadata : bool) (retries : Z).

(** X14: what a record returned by the worker looks like, whatever the
    tool answered.  For a non-blank line the title is a trimmed, non-empty
    string (the printed title, else the line itself); the identifier and
    the thumbnail are None or trimmed and non-empty; an endpoint is never
    the empty string; and an expiry is only present together with an
    endpoint, is the number behind the first [expire/] of that endpoint,
    and is never negative. *)
Theorem check_url_entry_buffered_record raw_line st r st' :
  check_url_entry_buffered World subprocess_run json_loads int_max_str_digits raw_line
    fmt timeout cookies cfb fallback_watch no_metadata full_metadata retries st
  = Some (Returns r, st') ->
  (PyStr.truthy (rec_line r) = true ->
   exists t, rec_title r = Some t /\ PyStr.truthy t = true /\ PyStr.strip t = t)
  /\ clean_field (rec_meta_id r)
  /\ clean_field (rec_thumbnail r)
  /\ (forall s, rec_stream_url r = Some s -> PyStr.truthy s = true)
  /\ (forall n, rec_expire_epoch r = Some n ->
        0 <= n
        /\ exists s digits,
             rec_stream_url r = Some s /\ expire_re_search s = Some digits
             /\ n = PyStr.int_of_digits digits).
Proof.
  intros H. destruct (PyStr.truthy (PyStr.strip raw_line)) eqn:Ht.
  2:{ rewrite (worker_blank _ _ _ _ _ _ _ _ _ _ _ _ _ _ Ht) in H.
      injection H as <- _. simpl. rewrite Ht.
      repeat split; discriminate. }
  destruct (worker_metadata_never_raises World subprocess_run timeout cookies cfb
              no_metadata retries (PyStr.strip raw_line)
              (normalize_input_line (PyStr.strip raw_line)) st)
    as ([[m t] th] & st1 & Hm).
  rewrite (worker_run _ _ json_loads int_max_str_digits fmt _ _ _ fallback_watch _
             full_metadata _ _ _ _ _ Ht Hm) in H.
  destruct (get_stream_url_never_raises World subprocess_run json_loads
              (normalize_input_line (PyStr.strip raw_line)) fmt timeout cookies cfb
              retries st1) as (v & st2 & Hs).
  rewrite (worker_stream_run _ _ _ int_max_str_digits _ _ _ _ fallback_watch _
             (PyStr.strip raw_line) _ (m, t, th) _ _ _ Hs) in H.
  cbv zeta beta iota in H.
  apply worker_metadata_clean in Hm as (Cm & Ct & Cth);
    [|split; [exact Ht | apply strip_idempotent]].
  assert (Hurl : forall s, as_opt_str (resolved fallback_watch
                             (normalize_input_line (PyStr.strip raw_line)) (Returns v))
                           = Some s -> PyStr.truthy s = true).
  { intros s. unfold resolved.
    destruct (negb (Py.truthy v) && fallback_watch).
    - intros [= <-]. apply normalize_truthy. rewrite strip_idempotent. exact Ht.
    - apply get_stream_url_none_or_truthy in Hs as [-> | Hv]; [discriminate|].
      destruct v; try discriminate. intros [= <-]. exact Hv. }
  destruct (Py.truthy (resolved _ _ _)) eqn:Hv.
  - destruct (find_expire _ _) as [ex|] eqn:Hf; [|discriminate].
    injection H as <- _. cbn [rec_line rec_title rec_meta_id rec_thumbnail
                                rec_stream_url rec_expire_epoch].
    split; [intros _; exists t; split; [reflexivity | exact Ct]|].
    split; [exact Cm|]. split; [exact Cth|]. split; [exact Hurl|].
    intros n [= ->]. apply find_expire_some in Hf as (s & digits & E & Hd & Hn & H0).
    split; [exact H0|]. exists s, digits. rewrite E. repeat split; assumption.
  - injection H as <- _. cbn [rec_line rec_title rec_meta_id rec_thumbnail
                                rec_stream_url rec_expire_epoch].
    split; [intros _; exists t; split; [reflexivity | exact Ct]|].
    split; [exact Cm|]. split; [exact Cth|]. split; [exact Hurl|].
    discriminate.
Qed.

End WorkerRecord.

(** A tool that answers the first [-g] with an endpoint that carries its
    expiry, written in capitals and in Arabic-Indic digits. *)
Lemma check_url_entry_buffered_record_witness :
  let r := mkRecord "abc" None (Some "abc") None
                    (Some "https://cdn/EXPIRE/١٧٠٠٠٠٠٠٠٠/live.m3u8") (Some 1700000000) in
  (PyStr.truthy (rec_line r) = true ->
   exists t, rec_title r = Some t /\ PyStr.truthy t = true /\ PyStr.strip t = t)
  /\ clean_field (rec_meta_id r)
  /\ clean_field (rec_thumbnail r)
  /\ (forall s, rec_stream_url r = Some s -> PyStr.truthy s = true)
  /\ (forall n, rec_expire_epoch r = Some n ->
        0 <= n
        /\ exists s digits,
             rec_stream_url r = Some s /\ expire_re_search s = Some digits
             /\ n = PyStr.int_of_digits digits).
Proof.
  intros r.
  apply (check_url_entry_buffered_record (list (outcome CompletedProcess)) scripted_run
           json_loads_fails 4300%nat "worst" 60 None None false true false 0 " abc "
           (mkSt [Returns (mkProc "https://cdn/EXPIRE/١٧٠٠٠٠٠٠٠٠/live.m3u8" "")] []) r
           (mkSt [] [EvRun ["yt-dlp"; "-g"; "https://www.youtube.com/watch?v=abc"] 60])).
  vm_compute. reflexivity.
Defined.

(** ** The EXTINF builders *)

Lemma has_char_lstrip c s : has_char c s = false -> has_char c (PyStr.lstrip s) = false.
Proof.
  intros H. destruct (lstrip_split s) as (a & Ha & _).
  rewrite Ha, has_char_app in H. apply orb_false_elim in H as [_ H]. exact H.
Qed.

Lemma has_char_rstrip c s : has_char c s = false -> has_char c (PyStr.rstrip s) = false.
Proof.
  intros H. destruct (rstrip_split s) as (w & Hw & _).
  rewrite Hw, has_char_app in H. apply orb_false_elim in H as [H _]. exact H.
Qed.

Lemma has_char_strip c s : has_char c s = false -> has_char c (PyStr.strip s) = false.
Proof. intros H. apply has_char_rstrip, has_char_lstrip, H. Qed.

Lemma has_char_replace c x r s :
  has_char c r = false -> has_char c s = false ->
  has_char c (PyStr.replace x r s) = false.
Proof.
  intros Hr. induction s as [|y s IH]; [reflexivity|]. intros H. simpl in H |- *.
  apply orb_false_elim in H as [Hy Hs].
  destruct (Ascii.eqb y x).
  - rewrite has_char_app, Hr, (IH Hs). reflexivity.
  - simpl. rewrite Hy, (IH Hs). reflexivity.
Qed.

Lemma title_safe_one_line title :
  has_char "010" (PyStr.strip (PyStr.replace "010" " " title)) = false.
Proof. apply has_char_strip, has_char_replace_self. reflexivity. Qed.

Lemma attrs_one_line meta_id thumbnail :
  has_char "010" (PyStr.or_str meta_id "") = false ->
  has_char "010" (PyStr.or_str thumbnail "") = false ->
  has_char "010"
    (attrs_str
       ((if PyStr.otruthy meta_id
         then [] ++ ["tvg-id=" +:+ quote +:+ PyStr.or_str meta_id "" +:+ quote]
         else [])
        ++ (if PyStr.otruthy thumbnail
            then ["tvg-logo=" +:+ quote +:+ safe_attr thumbnail +:+ quote]
            else []))) = false.
Proof.
  intros Hm Ht.
  assert (Hs : has_char "010" (safe_attr thumbnail) = false).
  { unfold safe_attr. apply has_char_replace; [reflexivity | exact Ht]. }
  destruct (PyStr.otruthy meta_id), (PyStr.otruthy thumbnail);
    cbn [app attrs_str PyStr.join]; rewrite ?has_char_app, ?Hm, ?Hs; reflexivity.
Qed.

(** X15: both builders return one line: the text [#EXTINF:-1], a body
    without line feed and a final line feed, whatever the title holds,
    provided the identifier and the logo hold no line feed.  (The title
    loses its line feeds to spaces; the attributes are written as given,
    the logo with its double quotes escaped.) *)
Theorem build_extinf_one_line (meta_id thumbnail : option string) :
  has_char "010" (PyStr.or_str meta_id "") = false ->
  has_char "010" (PyStr.or_str thumbnail "") = false ->
  (forall title,
      exists body,
        build_entry_extinf meta_id thumbnail title = "#EXTINF:-1" +:+ body +:+ newline
        /\ has_char "010" body = false)
  /\ (forall expire_str rel_str,
        exists body,
          build_special_extinf_only_expire expire_str rel_str meta_id thumbnail
          = "#EXTINF:-1" +:+ body +:+ newline
          /\ has_char "010" body = false).
Proof.
  intros Hm Ht. pose proof (attrs_one_line meta_id thumbnail Hm Ht) as Ha. split.
  - intros title. unfold build_entry_extinf. cbv zeta.
    match goal with
    | |- exists body, _ +:+ ?a +:+ "," +:+ ?t +:+ newline = _ /\ _ =>
        exists (a +:+ "," +:+ t)
    end.
    split.
    + rewrite !append_assoc. reflexivity.
    + rewrite !has_char_app, title_safe_one_line.
      change (has_char "010" ",") with false. rewrite !orb_false_r.
      destruct (PyStr.otruthy meta_id), (PyStr.otruthy thumbnail); exact Ha.
  - intros expire_str rel_str. unfold build_special_extinf_only_expire. cbv zeta.
    match goal with
    | |- exists body, _ +:+ ?a +:+ "," +:+ ?t +:+ newline = _ /\ _ =>
        exists (a +:+ "," +:+ t)
    end.
    split.
    + rewrite !append_assoc. reflexivity.
    + rewrite !has_char_app, title_safe_one_line.
      change (has_char "010" ",") with false. rewrite !orb_false_r.
      destruct (PyStr.otruthy meta_id), (PyStr.otruthy thumbnail); exact Ha.
Qed.

(** A title of two lines, and a logo with a double quote. *)
Lemma build_extinf_one_line_witness :
  exists body,
    build_entry_extinf (Some "abc") (Some ("http://x/a" +:+ quote +:+ "b.png"))
                       ("Live" +:+ newline +:+ "now")
    = "#EXTINF:-1" +:+ body +:+ newline
    /\ has_char "010" body = false.
Proof.
  apply (proj1 (build_extinf_one_line (Some "abc")
                  (Some ("http://x/a" +:+ quote +:+ "b.png")) eq_refl eq_refl)).
Defined.

(** ** [main]: reading the input and the first loop *)

Lemma read_raw_lines_fixed l :
  (forall x, In x l -> PyStr.strip x = x /\ PyStr.truthy x = true) ->
  read_raw_lines l = l.
Proof.
  unfold read_raw_lines. induction l as [|x l IH]; [reflexivity|].
  intros H. destruct (H x (or_introl eq_refl)) as [Hs Ht].
  simpl. rewrite Hs, Ht. simpl. rewrite Hs. f_equal.
  apply IH. intros y Hy. apply H. right. exact Hy.
Qed.

Lemma dedup_key_read f x :
  In x (read_raw_lines f) -> PyStr.truthy (Spec.dedup_key x) = true.
Proof.
  intros H. apply read_raw_lines_in in H as [Hs Ht].
  unfold Spec.dedup_key. rewrite truthy_lower, Hs. exact Ht.
Qed.

Lemma dedup_inputs_count l :
  (length (unique_inputs (dedup_inputs l)) + length (dedup_console (dedup_inputs l))
   = length (List.filter (fun ln => PyStr.truthy (Spec.dedup_key ln)) l))%nat.
Proof.
  induction l as [|x l IH] using rev_ind; [reflexivity|].
  rewrite dedup_inputs_snoc, List.filter_app, length_app. unfold dedup_step.
  fold (Spec.dedup_key x). simpl.
  destruct (PyStr.truthy (Spec.dedup_key x)); simpl; [|lia].
  destruct (bool_decide _); simpl; rewrite length_app; simpl; lia.
Qed.

Lemma filter_all {A : Type} (p : A -> bool) (l : list A) :
  (forall x, In x l -> p x = true) -> List.filter p l = l.
Proof.
  induction l as [|x l IH]; [reflexivity|]. intros H. simpl.
  rewrite (H x (or_introl eq_refl)). f_equal. apply IH. intros y Hy. apply H. right. exact Hy.
Qed.

Lemma unique_keys_seen l k :
  In k (map Spec.dedup_key (unique_inputs (dedup_inputs l)))
  <-> k ∈ seen_input_lines (dedup_inputs l).
Proof.
  induction l as [|x l IH] using rev_ind.
  - simpl. split; [intros [] | intros H; set_solver].
  - rewrite dedup_inputs_snoc. unfold dedup_step. fold (Spec.dedup_key x).
    destruct (PyStr.truthy (Spec.dedup_key x)); simpl; [|exact IH].
    destruct (bool_decide _); simpl; [exact IH|].
    rewrite map_app, in_app_iff, IH. simpl. split.
    + intros [H | [<- | []]]; apply elem_of_union;
        [left; exact H | right; apply elem_of_singleton; reflexivity].
    + intros H. apply elem_of_union in H as [H | H]; [left; exact H|].
      apply elem_of_singleton in H. right. left. symmetry. exact H.
Qed.

Lemma unique_keys_nodup l :
  NoDup (map Spec.dedup_key (unique_inputs (dedup_inputs l))).
Proof.
  induction l as [|x l IH] using rev_ind; [constructor|].
  rewrite dedup_inputs_snoc. unfold dedup_step. fold (Spec.dedup_key x).
  destruct (PyStr.truthy (Spec.dedup_key x)); simpl; [|exact IH].
  destruct (bool_decide _) eqn:Hd; simpl; [exact IH|].
  apply bool_decide_eq_false in Hd.
  rewrite map_app. simpl. apply NoDup_app. split; [exact IH|].
  split; [|apply NoDup_singleton].
  intros k Hk Hx. apply list_elem_of_singleton in Hx. subst k.
  apply Hd, unique_keys_seen, list_elem_of_In, Hk.
Qed.

Lemma dedup_inputs_fixed u :
  NoDup (map Spec.dedup_key u) ->
  (forall x, In x u -> PyStr.truthy (Spec.dedup_key x) = true) ->
  unique_inputs (dedup_inputs u) = u /\ dedup_console (dedup_inputs u) = [].
Proof.
  induction u as [|x u IH] using rev_ind; [split; reflexivity|].
  rewrite map_app. simpl. intros Hn Ht.
  apply NoDup_app in Hn as (Hn & Hx & _).
  destruct (IH Hn) as [IHu IHc]; [intros y Hy; apply Ht, in_or_app; left; exact Hy|].
  rewrite dedup_inputs_snoc. unfold dedup_step. fold (Spec.dedup_key x).
  rewrite (Ht x) by (apply in_or_app; right; left; reflexivity). simpl.
  rewrite seen_input_lines_decide
    by (apply Ht, in_or_app; right; left; reflexivity).
  destruct (existsb _ _) eqn:He.
  - exfalso. apply existsb_eqb_In in He. apply (Hx (Spec.dedup_key x)).
    + apply list_elem_of_In, He.
    + apply list_elem_of_singleton. reflexivity.
  - simpl. rewrite IHu, IHc. split; reflexivity.
Qed.

(** X16: the lines [main] reads are trimmed and non-blank, and reading
    them again would change nothing; so the first loop never meets an empty
    key: every line read is either kept or reported, the first one is
    always kept, and every line handed to the workers is trimmed and
    non-blank. *)
Theorem read_and_dedup_inputs (f : list string) :
  let raw_lines := read_raw_lines f in
  let st := dedup_inputs raw_lines in
  read_raw_lines raw_lines = raw_lines
  /\ (length (unique_inputs st) + length (dedup_console st) = length raw_lines)%nat
  /\ (forall first rest, raw_lines = first :: rest ->
                         exists others, unique_inputs st = first :: others)
  /\ (forall line, In line (unique_inputs st) ->
                   PyStr.strip line = line /\ PyStr.truthy line = true).
Proof.
  cbv zeta. split; [apply read_raw_lines_fixed, read_raw_lines_in|].
  split; [|split].
  - rewrite dedup_inputs_count. f_equal. apply filter_all, dedup_key_read.
  - intros first rest E.
    assert (Hf : PyStr.truthy (Spec.dedup_key first) = true)
      by (apply (dedup_key_read f); rewrite E; left; reflexivity).
    rewrite E. clear E. induction rest as [|x rest IH] using rev_ind.
    + unfold dedup_inputs. simpl. unfold dedup_step. fold (Spec.dedup_key first).
      rewrite Hf. simpl. exists []. reflexivity.
    + destruct IH as (others & Ho).
      rewrite app_comm_cons, dedup_inputs_snoc. unfold dedup_step.
      destruct (negb _); [exists others; exact Ho|].
      destruct (bool_decide _); simpl; [exists others; exact Ho|].
      rewrite Ho. exists (others ++ [x]). reflexivity.
  - intros line H. apply unique_inputs_in in H as [H _].
    apply read_raw_lines_in in H. exact H.
Qed.

(** X17: after the first loop no two kept lines share a key, the keys kept
    are exactly the non-empty keys of the lines read, and the loop is
    idempotent: run on the lines it kept, it keeps them all and reports
    nothing.  The key is the trimmed line in the lower case of all its
    letters: three spellings of one Greek word have one key, and the loop
    keeps the first of them. *)
Theorem dedup_inputs_keys (raw_lines : list string) :
  let unique := unique_inputs (dedup_inputs raw_lines) in
  NoDup (map Spec.dedup_key unique)
  /\ (forall k, In k (map Spec.dedup_key unique)
                <-> PyStr.truthy k = true /\ In k (map Spec.dedup_key raw_lines))
  /\ unique_inputs (dedup_inputs unique) = unique
  /\ dedup_console (dedup_inputs unique) = []
  /\ (map Spec.dedup_key ["Ωμέγα"; "ωμέγα" +:+ Utf8.encode_cp 160; "ΩΜΈΓΑ"]
      = ["ωμέγα"; "ωμέγα"; "ωμέγα"]
      /\ unique_inputs (dedup_inputs ["Ωμέγα"; "ωμέγα"; "ΩΜΈΓΑ"; "Άλφα"])
         = ["Ωμέγα"; "Άλφα"]).
Proof.
  cbv zeta. split; [apply unique_keys_nodup|].
  split; [intros k; rewrite unique_keys_seen; apply seen_input_lines_spec|].
  split; [|split; [|split; vm_compute; reflexivity]];
    (apply dedup_inputs_fixed; [apply unique_keys_nodup|];
     intros x Hx; apply unique_inputs_in in Hx as [_ Hx]; exact Hx).
Qed.

(** ** [main]: the special entry's URL *)

Lemma first_manifest_some buffered u :
  first_manifest buffered = Some u ->
  PyStr.truthy u = true
  /\ exists pre r post,
       buffered = pre ++ r :: post /\ rec_stream_url r = Some u
       /\ is_manifest_url u = true
       /\ Forall (fun x => has_manifest x = false) pre.
Proof.
  induction buffered as [|x rest IH]; [discriminate|].
  simpl. destruct (rec_stream_url x) as [v|] eqn:Hx.
  - destruct (PyStr.truthy v && is_manifest_url v) eqn:Hv.
    + intros [= <-]. apply andb_prop in Hv as [Ht Hm]. split; [exact Ht|].
      exists [], x, rest. repeat split; [exact Hx | exact Hm | constructor].
    + intros H. apply IH in H as (Ht & pre & r & post & -> & Hr & Hm & Hpre).
      split; [exact Ht|]. exists (x :: pre), r, post.
      repeat split; [exact Hr | exact Hm|].
      constructor; [|exact Hpre]. unfold has_manifest. rewrite Hx. exact Hv.
  - intros H. apply IH in H as (Ht & pre & r & post & -> & Hr & Hm & Hpre).
    split; [exact Ht|]. exists (x :: pre), r, post.
    repeat split; [exact Hr | exact Hm|].
    constructor; [|exact Hpre]. unfold has_manifest. rewrite Hx. reflexivity.
Qed.

Lemma first_manifest_none buffered :
  first_manifest buffered = None <-> Forall (fun x => has_manifest x = false) buffered.
Proof.
  induction buffered as [|x rest IH]; [split; [constructor | reflexivity]|].
  simpl. rewrite Forall_cons. unfold has_manifest at 1.
  destruct (rec_stream_url x) as [v|].
  - destruct (PyStr.truthy v && is_manifest_url v).
    + split; [discriminate | intros [H _]; discriminate H].
    + rewrite IH. tauto.
  - rewrite IH. tauto.
Qed.

Lemma survivors_not_special special buffered e :
  In e (Spec.survivors special buffered) -> rec_stream_url e <> special.
Proof.
  induction buffered as [|r l IH] using rev_ind; [intros []|].
  rewrite survivors_snoc. unfold Spec.first_seen_wins.
  destruct (Spec.passes special (Spec.survivors special l) r) eqn:Hp; [|exact IH].
  rewrite in_app_iff. intros [H | [<- | []]]; [apply IH, H|].
  unfold Spec.passes in Hp. destruct (rec_stream_url r) as [u|]; [|discriminate].
  rewrite !andb_true_iff in Hp. destruct Hp as [[[Ht Hs] _] _].
  intros <-. simpl in Hs. rewrite Ht in Hs. simpl in Hs.
  rewrite String.eqb_refl in Hs. discriminate Hs.
Qed.

(** X18: where the URL of the special entry comes from.  It is the
    endpoint of the first buffered record whose endpoint is a manifest;
    when no buffered record has one, it is the watch URL of the first kept
    input line; it is missing exactly when there is neither.  The writing
    loop never records it among the URLs it wrote, so it stands in the
    playlist under the special entry only. *)
Theorem special_url_choice (buffered : list record) (unique : list string) :
  (forall u,
      special_url buffered unique = Some u ->
      (PyStr.truthy u = true
       /\ exists pre r post,
            buffered = pre ++ r :: post /\ rec_stream_url r = Some u
            /\ is_manifest_url u = true
            /\ Forall (fun x => has_manifest x = false) pre)
      \/ (Forall (fun x => has_manifest x = false) buffered
          /\ exists first rest,
               unique = first :: rest /\ u = normalize_input_line first))
  /\ (special_url buffered unique = None
      <-> Forall (fun x => has_manifest x = false) buffered /\ unique = [])
  /\ (forall favicon_service u,
        special_url buffered unique = Some u ->
        u ∉ added_urls (emit_loop favicon_service (special_url buffered unique) buffered)).
Proof.
  unfold special_url, PyStr.or_else. split; [|split].
  - intros u. destruct (first_manifest buffered) as [m|] eqn:Hm.
    + destruct (first_manifest_some _ _ Hm) as (Ht & Hrest).
      simpl. rewrite Ht. intros [= <-]. left. split; assumption.
    + simpl. apply first_manifest_none in Hm. unfold first_watch.
      destruct unique as [|first rest]; [discriminate|].
      intros [= <-]. right. split; [exact Hm|]. exists first, rest. split; reflexivity.
  - destruct (first_manifest buffered) as [m|] eqn:Hm.
    + destruct (first_manifest_some _ _ Hm) as (Ht & _).
      simpl. rewrite Ht. split; [discriminate|].
      intros [H _]. apply first_manifest_none in H. congruence.
    + simpl. apply first_manifest_none in Hm. unfold first_watch.
      destruct unique as [|first rest].
      * split; [intros _; split; [exact Hm | reflexivity] | reflexivity].
      * split; [discriminate | intros [_ H]; discriminate H].
  - intros fav u Hu Hin.
    apply (inv_urls _ _ _ (emit_loop_invariant fav _ buffered)) in Hin.
    apply in_map_iff in Hin as (e & He & Hin).
    apply survivors_not_special in Hin. apply Hin. rewrite He. symmetry. exact Hu.
Qed.

(** Two records with a manifest endpoint behind one without. *)
Lemma special_url_choice_witness :
  let a := mkRecord "a" None (Some "a") None (Some "https://cdn/a.mp4") None in
  let b := mkRecord "b" None (Some "b") None (Some "https://cdn/b.m3u8") None in
  let c := mkRecord "c" None (Some "c") None (Some "https://cdn/c.m3u8") None in
  "https://cdn/b.m3u8"
  ∉ added_urls (emit_loop "logo" (special_url [a; b; c] ["a"; "b"; "c"]) [a; b; c]).
Proof.
  intros a b c.
  apply (proj2 (proj2 (special_url_choice [a; b; c] ["a"; "b"; "c"]))).
  reflexivity.
Defined.

(** ** [main]: the pool and the order of completion *)

Lemma collect_buffer futs completion :
  forall buffered console buffered' console',
    collect futs completion buffered console = Some (buffered', console') ->
    buffered' = buffered ++ omap (returned futs) completion
    /\ length console' = (length console + length completion)%nat.
Proof.
  induction completion as [|i rest IH]; intros b c b' c' H; simpl in H.
  - injection H as <- <-. rewrite app_nil_r. split; [reflexivity | simpl; lia].
  - cbn [omap list_omap]. unfold returned at 1.
    destruct (futs !! i) as [[[res | e]|]|]; try discriminate;
      apply IH in H as [-> Hc]; rewrite Hc, length_app; simpl;
      rewrite <- ?app_assoc; split; (reflexivity || lia).
Qed.

Lemma max_of_perm l1 l2 : Permutation l1 l2 -> Spec.max_of l1 = Spec.max_of l2.
Proof.
  intros Hp.
  destruct (Spec.max_of l1) as [m1|] eqn:H1, (Spec.max_of l2) as [m2|] eqn:H2.
  - apply max_of_is_max in H1 as [I1 M1]. apply max_of_is_max in H2 as [I2 M2].
    f_equal. apply Z.le_antisymm.
    + apply M2. eapply Permutation_in; [exact Hp | exact I1].
    + apply M1. eapply Permutation_in; [symmetry; exact Hp | exact I2].
  - destruct l2; [|discriminate H2]. apply Permutation_nil_r in Hp. subst l1.
    discriminate H1.
  - destruct l1; [|discriminate H1]. apply Permutation_nil in Hp. subst l2.
    discriminate H2.
  - reflexivity.
Qed.

Lemma expire_max_perm b1 b2 : Permutation b1 b2 -> expire_max b1 = expire_max b2.
Proof.
  intros Hp. rewrite !expire_max_max_of, <- !expire_epochs_filter.
  apply max_of_perm. unfold expire_epochs. apply Permutation_flat_map, Hp.
Qed.

Section PoolOrder.

Variable World : Type.
Variable subprocess_run :
  list string -> Z -> World -> outcome CompletedProcess * World.
Variable json_loads : string -> outcome pyval.
Variable int_max_str_digits : nat.
Variables (cfg : Config) (unique : list string) (worlds : nat -> World).

(** X19: what does not depend on the order in which the workers finish.
    Two runs of the pool over the same lines and the same answers of the
    tool, whose futures complete in different orders, buffer the same
    records up to their order and print one line per future; so the
    largest expiry, and with it the descriptor of the special entry, is the
    same in both. *)
Theorem run_pool_order_independent c1 c2 b1 con1 b2 con2 :
  Permutation c1 c2 ->
  run_pool World subprocess_run json_loads int_max_str_digits cfg unique worlds c1
  = Some (b1, con1) ->
  run_pool World subprocess_run json_loads int_max_str_digits cfg unique worlds c2
  = Some (b2, con2) ->
  Permutation b1 b2
  /\ length con1 = length c1
  /\ length con2 = length c1
  /\ expire_max b1 = expire_max b2
  /\ forall format_local now_us favicon_service,
       special_extinf format_local now_us favicon_service b1
       = special_extinf format_local now_us favicon_service b2.
Proof.
  intros Hp H1 H2. unfold run_pool in H1, H2.
  apply collect_buffer in H1 as [-> L1]. apply collect_buffer in H2 as [-> L2].
  simpl in L1, L2.
  assert (Hb : Permutation (omap (returned (futures World subprocess_run json_loads
                                              int_max_str_digits cfg unique worlds)) c1)
                           (omap (returned (futures World subprocess_run json_loads
                                              int_max_str_digits cfg unique worlds)) c2))
    by (apply omap_Permutation, Hp).
  simpl. split; [exact Hb|]. split; [exact L1|].
  split; [rewrite L2; symmetry; apply Permutation_length, Hp|].
  pose proof (expire_max_perm _ _ Hb) as He. split; [exact He|].
  intros format_local now_us fav. unfold special_extinf. rewrite He. reflexivity.
Qed.

End PoolOrder.

(** Two lines whose futures complete in either order, with a tool that
    always times out. *)
Lemma run_pool_order_independent_witness :
  let pool := run_pool unit (stateless_run always_timeout) json_loads_fails 4300%nat
                       (test_config true) ["a"; "b"] (fun _ => tt) in
  exists b1 con1 b2 con2,
    pool [0; 1]%nat = Some (b1, con1)
    /\ pool [1; 0]%nat = Some (b2, con2)
    /\ Permutation b1 b2
    /\ length con1 = 2%nat
    /\ length con2 = 2%nat
    /\ expire_max b1 = expire_max b2
    /\ forall format_local now_us favicon_service,
         special_extinf format_local now_us favicon_service b1
         = special_extinf format_local now_us favicon_service b2.
Proof.
  intros pool.
  destruct (pool [0; 1]%nat) as [[b1 con1]|] eqn:E1; [|vm_compute in E1; discriminate E1].
  destruct (pool [1; 0]%nat) as [[b2 con2]|] eqn:E2; [|vm_compute in E2; discriminate E2].
  exists b1, con1, b2, con2. split; [reflexivity|]. split; [reflexivity|].
  apply (run_pool_order_independent unit (stateless_run always_timeout) json_loads_fails
           4300%nat (test_config true) ["a"; "b"] (fun _ => tt) [0; 1]%nat [1; 0]%nat
           b1 con1 b2 con2 (perm_swap 1%nat 0%nat []) E1 E2).
Defined.

(** ** [main]: what the writing loop counts *)

Lemma entry_lines_length fav r : length (entry_lines fav r) = 2%nat.
Proof. reflexivity. Qed.

(** X20: the books of the writing loop.  It writes two chunks for every
    URL it records, it prints exactly one line for every buffered record
    that has an endpoint other than the special entry's (written or
    skipped as a duplicate) and none for the others, and it never records
    more keys than URLs. *)
Theorem emit_loop_accounting favicon_service special buffered :
  let st := emit_loop favicon_service special buffered in
  length (out_f st) = (2 * size (added_urls st))%nat
  /\ length (emit_console st) = length (List.filter (candidate special) buffered)
  /\ (size (added_urls st) <= length (emit_console st))%nat
  /\ (size (added_keys st) <= size (added_urls st))%nat.
Proof.
  cbv zeta. induction buffered as [|r l IH] using rev_ind.
  - unfold emit_loop.
    cbn [fold_left out_f added_urls added_keys emit_console List.filter length].
    rewrite !size_empty. repeat split; lia.
  - rewrite emit_loop_snoc, List.filter_app, length_app.
    destruct IH as (Ho & Hc & Hu & Hk).
    set (st := emit_loop favicon_service special l) in *.
    unfold emit_step. cbn [List.filter]. unfold candidate at 2.
    destruct (PyStr.otruthy (rec_stream_url r)) eqn:Hs; simpl;
      [|repeat split; lia].
    destruct (PyStr.otruthy special && opt_str_eqb (rec_stream_url r) special); simpl;
      [repeat split; lia|].
    destruct (bool_decide (PyStr.or_str (rec_stream_url r) "" ∈ added_urls st)) eqn:Hd;
      simpl; [rewrite length_app; simpl; repeat split; lia|].
    apply bool_decide_eq_false in Hd.
    destruct (PyStr.truthy (key_norm r)) eqn:Ht; simpl.
    + destruct (bool_decide (key_norm r ∈ added_keys st)) eqn:Hdk; simpl;
        [rewrite length_app; simpl; repeat split; lia|].
      apply bool_decide_eq_false in Hdk.
      rewrite !length_app, entry_lines_length. simpl.
      rewrite !size_union, !size_singleton by set_solver. repeat split; lia.
    + rewrite !length_app, entry_lines_length. simpl.
      rewrite !size_union, !size_singleton by set_solver. repeat split; lia.
Qed.

(** ** [main]: the title of the special entry *)

Lemma human_readable_truthy delta :
  PyStr.truthy (human_readable_delta_greek_full delta) = true.
Proof.
  unfold human_readable_delta_greek_full. cbv zeta.
  destruct (total_seconds_int delta <=? 0); reflexivity.
Qed.

(** X21: [main] never hands an empty expiry to the builder of the special
    entry: the date is what [strftime] printed or the text "not available",
    the relative time is never empty either, so the title always has the
    form with the relative time in brackets, and the builder's branch for an
    empty date is not reached from [main].  ([strftime] with the format of
    the script prints 19 characters; that it prints something is the one
    assumption.) *)
Theorem special_title_dated
    (format_local : Z -> outcome string) (now_us : Z) (emax : option Z) :
  (forall e s, format_local e = Returns s -> PyStr.truthy s = true) ->
  PyStr.truthy (fst (expiry_strings format_local now_us emax)) = true
  /\ PyStr.truthy (snd (expiry_strings format_local now_us emax)) = true
  /\ special_title (fst (expiry_strings format_local now_us emax))
                   (snd (expiry_strings format_local now_us emax))
     = "Λήξη συνδέσμων: " +:+ fst (expiry_strings format_local now_us emax)
       +:+ " (" +:+ snd (expiry_strings format_local now_us emax) +:+ ")".
Proof.
  intros Hf.
  assert (H : PyStr.truthy (fst (expiry_strings format_local now_us emax)) = true
              /\ PyStr.truthy (snd (expiry_strings format_local now_us emax)) = true).
  { unfold expiry_strings. destruct emax as [e|]; [|split; reflexivity].
    destruct (e =? 0); [split; reflexivity|].
    destruct (format_local e) as [s|x] eqn:E; [|split; reflexivity].
    split; [exact (Hf e s E) | apply human_readable_truthy]. }
  destruct H as [H1 H2]. split; [exact H1|]. split; [exact H2|].
  unfold special_title. rewrite H1. reflexivity.
Qed.

(** A calendar that prints one date. *)
Lemma special_title_dated_witness :
  let format_local := fun _ : Z => Returns "01-01-2030 02:00:00" in
  special_title (fst (expiry_strings format_local 0 (Some 1893456000)))
                (snd (expiry_strings format_local 0 (Some 1893456000)))
  = "Λήξη συνδέσμων: " +:+ fst (expiry_strings format_local 0 (Some 1893456000))
    +:+ " (" +:+ snd (expiry_strings format_local 0 (Some 1893456000)) +:+ ")".
Proof.
  intros format_local.
  destruct (special_title_dated format_local 0 (Some 1893456000)) as (_ & _ & H);
    [intros e s [= <-]; reflexivity | exact H].
Defined.
